(** * spack-abi: a shallow embedding of the ABI corpus model, the header
      surface extractor, the suppression generator and the diff classifier.

    The Python sources under [abi/] are embedded function by function.
    Python [str] values are Rocq strings (one [ascii] per code point, code
    points below 256), Python [int] is [Z], [None]-able values are
    [option], and a function that may raise returns in the monad [M], which
    also records what the code prints and which external processes it
    launches.  External collaborators (the spack objects, [subprocess.run],
    [shutil.which], [pathlib], [xml.etree] and the tree-sitter parser) are
    fields of the record [World]. *)

From Stdlib Require Import List String Ascii ZArith Bool Arith Lia.
Import ListNotations.
Open Scope string_scope.
Open Scope nat_scope.
Open Scope list_scope.

Set Implicit Arguments.
Set Warnings "-register-all".

(** String concatenation, kept apart from list append. *)
Infix "+++" := String.append (at level 60, right associativity).

(* ------------------------------------------------------------------ *)
(** ** Python string primitives *)
(* ------------------------------------------------------------------ *)

Module PyStr.

(** The double quote, and the line feed ["\n"]. *)
Definition dq : string := String (ascii_of_nat 34) EmptyString.

Definition nl_char : ascii := ascii_of_nat 10.
Definition nl : string := String nl_char EmptyString.

(** [sep.join(ls)]. *)
Definition join (sep : string) (ls : list string) : string :=
  String.concat sep ls.

(** [s.split(c)] for a one-character separator: never the empty list. *)
Fixpoint split_on (c : ascii) (s : string) : list string :=
  match s with
  | EmptyString => [EmptyString]
  | String a s' =>
      if Ascii.eqb a c then EmptyString :: split_on c s'
      else match split_on c s' with
           | [] => [String a EmptyString]
           | w :: ws => String a w :: ws
           end
  end.

(** [s.split("\n")]. *)
Definition split_nl (s : string) : list string := split_on nl_char s.

(** [s.startswith(p)]. *)
Definition startswith (p s : string) : bool := String.prefix p s.

(** White space as [str.isspace] and [str.split()] see it, on code points
    below 256: TAB..CR, FS..US, SPACE, NEL and NBSP. *)
Definition is_space_char (a : ascii) : bool :=
  let n := nat_of_ascii a in
  ((9 <=? n) && (n <=? 13)) || ((28 <=? n) && (n <=? 32))
  || (n =? 133) || (n =? 160).

Fixpoint all_space (s : string) : bool :=
  match s with
  | EmptyString => true
  | String a s' => is_space_char a && all_space s'
  end.

(** [s.isspace()]: false on the empty string. *)
Definition isspace (s : string) : bool :=
  match s with
  | EmptyString => false
  | _ => all_space s
  end.

(** [s.split()]: the maximal runs of non-space characters.  [cur] is the
    run being read, reversed. *)
Fixpoint split_ws_aux (s : string) (cur : list ascii) : list string :=
  let flush (rest : list string) :=
    match cur with
    | [] => rest
    | _ => string_of_list_ascii (rev cur) :: rest
    end in
  match s with
  | EmptyString => flush []
  | String a s' =>
      if is_space_char a then flush (split_ws_aux s' [])
      else split_ws_aux s' (a :: cur)
  end.

Definition split_ws (s : string) : list string := split_ws_aux s [].

(** [s[1:-1]]. *)
Definition slice_1_m1 (s : string) : string :=
  match s with
  | EmptyString => EmptyString
  | String _ s' => string_of_list_ascii (removelast (list_ascii_of_string s'))
  end.

(** White space as [int(...)] skips it around a literal: the ASCII white
    space TAB..CR and SPACE, and of the code points from 127 on those that
    are Unicode white space (NEL and NBSP), which [int] turns into spaces
    first.  The separators FS..US are below 127 and are not skipped. *)
Definition is_int_space (a : ascii) : bool :=
  let n := nat_of_ascii a in
  ((9 <=? n) && (n <=? 13)) || (n =? 32) || (n =? 133) || (n =? 160).

Fixpoint int_lstrip (s : string) : string :=
  match s with
  | String a s' => if is_int_space a then int_lstrip s' else s
  | EmptyString => EmptyString
  end.

Definition rev_string (s : string) : string :=
  string_of_list_ascii (rev (list_ascii_of_string s)).

Definition int_strip (s : string) : string :=
  rev_string (int_lstrip (rev_string (int_lstrip s))).

Definition digit_of (a : ascii) : option Z :=
  let n := nat_of_ascii a in
  if (48 <=? n) && (n <=? 57) then Some (Z.of_nat (n - 48)) else None.

(** How many decimal digits a literal has, underscores not counted. *)
Fixpoint count_digits (s : string) : nat :=
  match s with
  | EmptyString => 0
  | String a s' =>
      match digit_of a with
      | Some _ => S (count_digits s')
      | None => count_digits s'
      end
  end.

(** [sys.get_int_max_str_digits()], which the code leaves at its default. *)
Definition int_max_str_digits : nat := 4300.

(** The digits of an [int(...)] literal: decimal digits, single
    underscores allowed between two digits.  [prev_digit] tells whether
    the previous character was a digit. *)
Fixpoint int_digits (s : string) (acc : Z) (prev_digit : bool) : option Z :=
  match s with
  | EmptyString => if prev_digit then Some acc else None
  | String a s' =>
      match digit_of a with
      | Some d => int_digits s' (10 * acc + d)%Z true
      | None =>
          if Ascii.eqb a "_"%char && prev_digit then
            match s' with
            | String b _ =>
                match digit_of b with
                | Some _ => int_digits s' acc false
                | None => None
                end
            | EmptyString => None
            end
          else None
      end
  end.

(** The digits after the sign; a literal of more digits than the limit is
    refused. *)
Definition int_unsigned (d : string) : option Z :=
  if int_max_str_digits <? count_digits d then None else int_digits d 0%Z false.

(** [int(s)] in base ten; [None] stands for [ValueError]. *)
Definition int (s : string) : option Z :=
  match int_strip s with
  | String "+"%char d => int_unsigned d
  | String "-"%char d => option_map Z.opp (int_unsigned d)
  | d => int_unsigned d
  end.

(** [x in l] for a list of strings. *)
Definition in_list (x : string) (l : list string) : bool :=
  existsb (String.eqb x) l.

End PyStr.

(* ------------------------------------------------------------------ *)
(** ** XML elements, syntax nodes, exceptions and the effect monad *)
(* ------------------------------------------------------------------ *)

(** An [xml.etree.ElementTree.Element]: tag, attribute dictionary in
    document order, children in document order. *)
Inductive Element : Type :=
| Elt (tag : string) (attrib : list (string * string)) (children : list Element).

(** A tree-sitter [Node]: its type, the text it spans and its children,
    each with the field name it is attached under, if any. *)
Inductive Node : Type :=
| TSNode (type : string) (text : string) (children : list (option string * Node)).

(** The exceptions the code raises, with the arguments they are built from. *)
Inductive exn : Type :=
| AttributeError_keys (attr : string) (keys : list string)
| AttributeError_elem (node : string) (xelt : Element)
| AttributeError_None (attr : string)
| AssertionError (msg : string)
| TypeError (msg : string)
| ValueError (msg : string)
| IndexError (msg : string)
| RuntimeError (msg : string)
| ExternalError (msg : string).

Inductive outcome (A : Type) : Type :=
| Ok (a : A)
| Raise (e : exn).
Arguments Ok {A} a.
Arguments Raise {A} e.

(** What the program does to the outside: text printed on standard output,
    a file opened for writing (created, or emptied when it exists), text
    written to an open file, a file closed, an external process launched. *)
Inductive event : Type :=
| EvPrint (s : string)
| EvOpen (file : string)
| EvWrite (file : string) (s : string)
| EvClose (file : string)
| EvRun (args : list string).

Definition M (A : Type) : Type := (list event * outcome A)%type.

Definition ret {A} (a : A) : M A := ([], Ok a).
Definition raise {A} (e : exn) : M A := ([], Raise e).
Definition emit (ev : event) : M unit := ([ev], Ok tt).
Definition print (s : string) : M unit := emit (EvPrint s).
Definition lift {A} (o : outcome A) : M A := ([], o).

Definition bind {A B} (m : M A) (k : A -> M B) : M B :=
  match m with
  | (log, Raise e) => (log, Raise e)
  | (log, Ok a) => let '(log', r) := k a in (log ++ log', r)
  end.

Declare Scope py_scope.
Delimit Scope py_scope with py.
Notation "x <- m ;; k" := (bind m (fun x => k))
  (at level 61, m at next level, right associativity) : py_scope.
Notation "' pat <- m ;; k" := (bind m (fun x => match x with pat => k end))
  (at level 61, pat pattern, m at next level, right associativity) : py_scope.
Notation "m ;;; k" := (bind m (fun _ => k))
  (at level 61, right associativity) : py_scope.
Open Scope py_scope.

(** A list comprehension [[f(x) for x in l]] whose body may raise. *)
Fixpoint mapM {A B} (f : A -> M B) (l : list A) : M (list B) :=
  match l with
  | [] => ret []
  | x :: l' => y <- f x ;; ys <- mapM f l' ;; ret (y :: ys)
  end.

(** A [for] loop whose body may raise. *)
Fixpoint for_each {A} (l : list A) (body : A -> M unit) : M unit :=
  match l with
  | [] => ret tt
  | x :: l' => body x ;;; for_each l' body
  end.

Definition log_of {A} (m : M A) : list event := fst m.
Definition result_of {A} (m : M A) : outcome A := snd m.

(** How many external processes a run launched. *)
Definition runs (log : list event) : nat :=
  List.length (filter (fun ev => match ev with EvRun _ => true | _ => false end) log).

(* ------------------------------------------------------------------ *)
(** ** abi/abigail.py and abi/diff_product.py: the classifier *)
(* ------------------------------------------------------------------ *)

Module DiffExitCode.
Definition OK : Z := 0.
Definition DIFF_ERROR : Z := 1.
Definition USAGE_ERROR : Z := 2.
Definition ABI_CHANGE : Z := 4.
Definition INCOMPATIBLE_CHANGE : Z := 8.
End DiffExitCode.

Inductive AbiDiffType : Type := NONE | HARMLESS | HARMFUL | ERROR.

Definition return_code_to_diff_type (rc : Z) : AbiDiffType :=
  if (rc =? 0)%Z then NONE
  else if (Z.land rc DiffExitCode.ABI_CHANGE =? DiffExitCode.ABI_CHANGE)%Z then
    if (Z.land rc DiffExitCode.INCOMPATIBLE_CHANGE =? 0)%Z then HARMLESS
    else HARMFUL
  else ERROR.

(** [enumerate(lst)]. *)
Definition enumerate {T} (lst : list T) : list (nat * T) :=
  combine (seq 0 (List.length lst)) lst.

(** The comprehension of [cross_product_self] over an enumerated list. *)
Definition cross_enumerated {T} (en : list (nat * T)) : list (T * T) :=
  flat_map (fun '(i, elt1) =>
    flat_map (fun '(j, elt2) =>
      if Nat.eqb i j then [] else [(elt1, elt2)]) en) en.

Definition cross_product_self {T} (lst : list T) : list (T * T) :=
  cross_enumerated (enumerate lst).

(* ------------------------------------------------------------------ *)
(** ** External collaborators *)
(* ------------------------------------------------------------------ *)

(** A [pathlib.Path], kept as the string it was built from. *)
Definition Path : Type := string.

(** The [subprocess.CompletedProcess] of a finished child process. *)
Record CompletedProcess : Type := {
  returncode : Z;
  stdout : string;
  stderr : string
}.

(** What the code reads of an installed spack [Spec]: how it prints, whether
    it is installed, and the libraries and headers its build interface
    lists (each lookup may raise in spack). *)
Record Spec : Type := {
  spec_str : string;
  installed : bool;
  libs : outcome (list string);
  headers : outcome (list string)
}.

(** The library functions the code calls and does not define. *)
Record World : Type := {
  which : string -> option string;
  run : list string -> outcome CompletedProcess;
  path_name : Path -> string;
  path_parent : Path -> Path;
  path_absolute : Path -> Path;
  fromstring : string -> outcome Element;
  ts_parse : string -> Node;
  read_text : string -> outcome string;
  open_write : string -> outcome unit;
  tmp_name : string
}.

(** A Python value that reaches a parameter annotated [List[Path]]: a list
    of paths, or a builtin function object. *)
Inductive pyobj : Type :=
| PyPaths (l : list Path)
| PyBuiltin (name : string).

(* ------------------------------------------------------------------ *)
(** ** abi/abigail.py *)
(* ------------------------------------------------------------------ *)

Definition print_cmd (args : list string) : M unit :=
  match args with
  | [] => raise (IndexError "list index out of range")
  | cmd :: rest =>
      print "---------------" ;;;
      print cmd ;;;
      for_each rest (fun arg => print ("  " +++ arg)) ;;;
      print "---------------"
  end.

Definition _which_ensure (w : World) (cmd : string) : M string :=
  match which w cmd with
  | None => raise (RuntimeError ("Unable to find `" +++ cmd +++ "` executable in PATH"))
  | Some cmd_path => ret cmd_path
  end.

(** [list(set(...))]: the distinct directories; Python fixes no order for a
    set, the model keeps the order of first occurrence. *)
Definition _split_bins_and_dirs (w : World) (raw_bins : list Path)
  : string * list string :=
  let bin_files := map (path_name w) raw_bins in
  let bin_dirs := nodup string_dec (map (path_parent w) raw_bins) in
  (PyStr.join "," bin_files, bin_dirs).

Definition index0 (l : list Path) : M Path :=
  match l with
  | [] => raise (IndexError "list index out of range")
  | x :: _ => ret x
  end.

Definition when (b : bool) (m : M unit) : M unit := if b then m else ret tt.

Definition abidiff (w : World) (bins1 bins2 : list Path)
    (suppression_file : option Path) (show_cmd : bool)
    (extra_args : list string) : M (CompletedProcess * list string) :=
  cmd <- _which_ensure w "abidiff" ;;
  bin1 <- index0 bins1 ;;
  bin2 <- index0 bins2 ;;
  let '(added_bins_arg1, added_dirs1) := _split_bins_and_dirs w (tl bins1) in
  let '(added_bins_arg2, added_dirs2) := _split_bins_and_dirs w (tl bins2) in
  let args := [cmd] ++ extra_args in
  let args := match suppression_file with
              | Some f => args ++ ["--suppr"; path_absolute w f]
              | None => args
              end in
  let args := if 0 <? String.length added_bins_arg1
              then args ++ ["--add-binaries1=" +++ added_bins_arg1] else args in
  let args := if 0 <? String.length added_bins_arg2
              then args ++ ["--add-binaries2=" +++ added_bins_arg2] else args in
  let args := args ++ flat_map (fun d => ["--added-binaries-dir1"; d]) added_dirs1 in
  let args := args ++ flat_map (fun d => ["--added-binaries-dir2"; d]) added_dirs2 in
  let args := args ++ [path_absolute w bin1] in
  let args := args ++ [path_absolute w bin2] in
  when show_cmd (print_cmd args) ;;;
  emit (EvRun args) ;;;
  result <- lift (run w args) ;;
  ret (result, args).

(** [bin, *added_bins = bins]. *)
Definition unpack_head_rest (bins : pyobj) : M (Path * list Path) :=
  match bins with
  | PyPaths (b :: added_bins) => ret (b, added_bins)
  | PyPaths [] =>
      raise (ValueError "not enough values to unpack (expected at least 1, got 0)")
  | PyBuiltin _ =>
      raise (TypeError "cannot unpack non-iterable builtin_function_or_method object")
  end.

Definition abidw (w : World) (bins : pyobj) (suppression_file : option Path)
    (show_cmd : bool) (extra_args : list string) : M CompletedProcess :=
  '(bin, added_bins) <- unpack_head_rest bins ;;
  let '(added_bins_arg, added_dirs) := _split_bins_and_dirs w added_bins in
  cmd <- _which_ensure w "abidw" ;;
  let args := [cmd] ++ extra_args in
  let args := if 0 <? String.length added_bins_arg
              then args ++ ["--add-binaries=" +++ added_bins_arg] else args in
  let args := args ++ flat_map (fun d => ["--abd"; d]) added_dirs in
  let args := match suppression_file with
              | Some f => args ++ ["--suppressions"; path_absolute w f]
              | None => args
              end in
  let args := args ++ [bin] in
  when show_cmd (print_cmd args) ;;;
  emit (EvRun args) ;;;
  lift (run w args).

(* ------------------------------------------------------------------ *)
(** ** abi/abixml.py: the corpus model and its parser *)
(* ------------------------------------------------------------------ *)

Definition tag (xelt : Element) : string := let '(Elt t _ _) := xelt in t.
Definition attrib (xelt : Element) : list (string * string) :=
  let '(Elt _ a _) := xelt in a.
Definition children (xelt : Element) : list Element :=
  let '(Elt _ _ c) := xelt in c.

(** [xelt.get(attr)]. *)
Fixpoint assoc (k : string) (d : list (string * string)) : option string :=
  match d with
  | [] => None
  | (k', v) :: d' => if String.eqb k' k then Some v else assoc k d'
  end.

Definition get (xelt : Element) (attr : string) : option string :=
  assoc attr (attrib xelt).

(** [xelt.keys()]. *)
Definition keys (xelt : Element) : list string := map fst (attrib xelt).

(** [xelt.findall(t)] and [xelt.find(t)] for a plain tag name: the direct
    children with that tag, and the first of them. *)
Definition findall (xelt : Element) (t : string) : list Element :=
  filter (fun c => String.eqb (tag c) t) (children xelt).

Definition find (xelt : Element) (t : string) : option Element :=
  hd_error (findall xelt t).

(** [bool(xelt)]: an element is true when it has children. *)
Definition truthy (xelt : Element) : bool :=
  match children xelt with [] => false | _ => true end.

Definition _get_or_fail (xelt : Element) (attr : string) : M string :=
  match get xelt attr with
  | None => raise (AttributeError_keys attr (keys xelt))
  | Some output => ret output
  end.

Definition _find_or_fail (xelt : Element) (node : string) : M Element :=
  match find xelt node with
  | None => raise (AttributeError_elem node xelt)
  | Some output => ret output
  end.

(** [int(s)] on an attribute value. *)
Definition int_of (s : string) : M Z :=
  match PyStr.int s with
  | Some n => ret n
  | None => raise (ValueError ("invalid literal for int() with base 10: " +++ s))
  end.

(** [ABIXML.as_children], for the class with tag [abixml_tag] and visiting
    function [from_xmlelt]. *)
Definition as_children {A} (abixml_tag : string) (from_xmlelt : Element -> M A)
    (parent : option Element) : M (list A) :=
  match parent with
  | Some p =>
      if truthy p then mapM from_xmlelt (findall p abixml_tag) else ret []
  | None => ret []
  end.

Module Symbol.
Record t : Type := mk {
  name : string; size : Z; typ : string; binding : string;
  visibility : string; defined : bool
}.
Definition abixml_tag : string := "elf-symbol".
Definition from_xmlelt (xelt : Element) : M t :=
  name <- _get_or_fail xelt "name" ;;
  size <- match get xelt "size" with
          | Some s => int_of s
          | None => ret 0%Z
          end ;;
  typ <- _get_or_fail xelt "type" ;;
  binding <- _get_or_fail xelt "binding" ;;
  visibility <- _get_or_fail xelt "visibility" ;;
  is_defined <- _get_or_fail xelt "is-defined" ;;
  ret (mk name size typ binding visibility (String.eqb is_defined "yes")).
Definition as_children := as_children abixml_tag from_xmlelt.
End Symbol.

Module VarDecl.
Record t : Type := mk {
  name : string; type_id : string; visibility : string;
  filepath : option Path
}.
Definition abixml_tag : string := "var-decl".
Definition from_xmlelt (xelt : Element) : M t :=
  let filepath := get xelt "filepath" in
  name <- _get_or_fail xelt "name" ;;
  type_id <- _get_or_fail xelt "type-id" ;;
  visibility <- _get_or_fail xelt "visibility" ;;
  ret (mk name type_id visibility filepath).
Definition as_children := as_children abixml_tag from_xmlelt.
End VarDecl.

Module TypeDecl.
Record t : Type := mk {
  name : string; size : option Z; hash : option string; id : string
}.
Definition abixml_tag : string := "type-decl".
Definition from_xmlelt (xelt : Element) : M t :=
  size <- match get xelt "size-in-bits" with
          | Some s => n <- int_of s ;; ret (Some n)
          | None => ret None
          end ;;
  name <- _get_or_fail xelt "name" ;;
  id <- _get_or_fail xelt "id" ;;
  ret (mk name size (get xelt "hash") id).
Definition as_children := as_children abixml_tag from_xmlelt.
End TypeDecl.

(** The class [Parameter]; the name is a reserved word here. *)
Module Param.
Record t : Type := mk {
  type_id : option string; name : option string; is_variadic : bool
}.
Definition abixml_tag : string := "parameter".
Definition from_xmlelt (xelt : Element) : M t :=
  ret (mk (get xelt "type-id") (get xelt "name")
          (match get xelt "is_variadic" with
           | Some v => String.eqb v "yes"
           | None => false
           end)).
Definition as_children := as_children abixml_tag from_xmlelt.
End Param.

(** A suppression block: the section header and the attribute line, joined
    by a line feed and two spaces. *)
Definition suppression_lines (section name : string) : list string :=
  [section; "name = " +++ name].

Module FunctionDecl.
Record t : Type := mk {
  name : string; mangled_name : option string; filepath : option Path;
  parameters : list Param.t; return_type_id : string
}.
Definition abixml_tag : string := "function-decl".
Definition from_xmlelt (xelt : Element) : M t :=
  let filepath := get xelt "filepath" in
  name <- _get_or_fail xelt "name" ;;
  parameters <- Param.as_children (Some xelt) ;;
  ret_elt <- _find_or_fail xelt "return" ;;
  return_type_id <- _get_or_fail ret_elt "type-id" ;;
  ret (mk name (get xelt "mangled-name") filepath parameters return_type_id).
Definition as_children := as_children abixml_tag from_xmlelt.
Definition to_suppression (self : t) (file : Path) : string :=
  PyStr.join (PyStr.nl +++ "  ") (suppression_lines "[suppress_function]" (name self)).
End FunctionDecl.

Module DataMember.
Inductive decl_t : Type :=
| Variable_ (v : VarDecl.t)
| Function_ (f : FunctionDecl.t).
Record t : Type := mk {
  access : string; layout_offset : Z; decl : decl_t
}.
Definition abixml_tag : string := "data-member".
Definition from_xmlelt (xelt : Element) : M t :=
  decl <- match find xelt VarDecl.abixml_tag with
          | None =>
              decl_xml <- _find_or_fail xelt FunctionDecl.abixml_tag ;;
              f <- FunctionDecl.from_xmlelt decl_xml ;;
              ret (Function_ f)
          | Some decl_xml =>
              v <- VarDecl.from_xmlelt decl_xml ;;
              ret (Variable_ v)
          end ;;
  access <- _get_or_fail xelt "access" ;;
  offset <- _get_or_fail xelt "layout-offset-in-bits" ;;
  layout_offset <- int_of offset ;;
  ret (mk access layout_offset decl).
Definition as_children := as_children abixml_tag from_xmlelt.
End DataMember.

(** The truth value of an optional string: [None] and [""] are false. *)
Definition nonempty_opt (o : option string) : option string :=
  match o with
  | Some EmptyString => None
  | _ => o
  end.

Module ClassDecl.
Record t : Type := mk {
  name : string; is_struct : bool; visibility : string;
  size : option Z; filepath : option Path; hash : option string;
  id : string; data_members : list DataMember.t
}.
Definition abixml_tag : string := "class-decl".
Definition from_xmlelt (xelt : Element) : M t :=
  let opt_size := get xelt "size-in-bits" in
  let opt_path := get xelt "filepath" in
  size <- match nonempty_opt opt_size with
          | Some s => n <- int_of s ;; ret (Some n)
          | None => ret None
          end ;;
  let filepath := nonempty_opt opt_path in
  name <- _get_or_fail xelt "name" ;;
  is_struct <- _get_or_fail xelt "is-struct" ;;
  visibility <- _get_or_fail xelt "visibility" ;;
  id <- _get_or_fail xelt "id" ;;
  data_members <- DataMember.as_children (Some xelt) ;;
  ret (mk name (String.eqb is_struct "yes") visibility size filepath
          (get xelt "hash") id data_members).
Definition as_children := as_children abixml_tag from_xmlelt.
Definition to_suppression (self : t) (file : Path) : string :=
  PyStr.join (PyStr.nl +++ "  ") (suppression_lines "[suppress_type]" (name self)).
End ClassDecl.

Module TypedefDecl.
Record t : Type := mk {
  name : string; member_id : string; type_id : string; filepath : Path
}.
Definition abixml_tag : string := "typedef-decl".
Definition from_xmlelt (xelt : Element) : M t :=
  name <- _get_or_fail xelt "name" ;;
  member_id <- _get_or_fail xelt "type-id" ;;
  type_id <- _get_or_fail xelt "id" ;;
  filepath <- _get_or_fail xelt "filepath" ;;
  ret (mk name member_id type_id filepath).
Definition as_children := as_children abixml_tag from_xmlelt.
Definition to_suppression (self : t) (file : Path) : string :=
  PyStr.join (PyStr.nl +++ "  ") (suppression_lines "[suppress_type]" (name self)).
End TypedefDecl.

Module ABI.
Record t : Type := mk {
  path : Path;
  fun_symbols : list Symbol.t;
  var_symbols : list Symbol.t;
  type_decls : list TypeDecl.t;
  typedef_decls : list TypedefDecl.t;
  class_decls : list ClassDecl.t;
  fun_decls : list FunctionDecl.t;
  var_decls : list VarDecl.t
}.

(** The five lists the loop over the [abi-instr] blocks extends. *)
Record decls : Type := mk_decls {
  d_type : list TypeDecl.t;
  d_class : list ClassDecl.t;
  d_fun : list FunctionDecl.t;
  d_typedef : list TypedefDecl.t;
  d_var : list VarDecl.t
}.

(** One turn of the loop [for decls_root in root.findall("abi-instr")]. *)
Definition visit_instr (acc : decls) (decls_root : Element) : M decls :=
  tys <- TypeDecl.as_children (Some decls_root) ;;
  cls <- ClassDecl.as_children (Some decls_root) ;;
  fns <- FunctionDecl.as_children (Some decls_root) ;;
  tds <- TypedefDecl.as_children (Some decls_root) ;;
  vrs <- VarDecl.as_children (Some decls_root) ;;
  ret (mk_decls (d_type acc ++ tys) (d_class acc ++ cls) (d_fun acc ++ fns)
                (d_typedef acc ++ tds) (d_var acc ++ vrs)).

Fixpoint visit_instrs (acc : decls) (roots : list Element) : M decls :=
  match roots with
  | [] => ret acc
  | r :: roots' => acc' <- visit_instr acc r ;; visit_instrs acc' roots'
  end.

(** [from_xml] once [ET.fromstring] has produced the root element. *)
Definition from_root (root : Element) : M t :=
  path <- _get_or_fail root "path" ;;
  fs_root <- _find_or_fail root "elf-function-symbols" ;;
  fun_symbols <- Symbol.as_children (Some fs_root) ;;
  var_symbols <- Symbol.as_children (find root "elf-variable-symbols") ;;
  ds <- visit_instrs (mk_decls [] [] [] [] []) (findall root "abi-instr") ;;
  ret (mk path fun_symbols var_symbols (d_type ds) (d_typedef ds)
          (d_class ds) (d_fun ds) (d_var ds)).

Definition from_xml (w : World) (xml_str : string) : M t :=
  root <- lift (fromstring w xml_str) ;;
  from_root root.

(** [abidw] is called on the builtin [bin], not on the parameter [bins]. *)
Definition from_binaries (w : World) (bins : list Path)
    (suppression_file : option Path) (show_cmd : bool)
    (extra_args : list string) : M (t * string) :=
  result <- abidw w (PyBuiltin "bin") suppression_file show_cmd extra_args ;;
  if negb (returncode result =? 0)%Z then
    raise (RuntimeError ("abidw failed with the following stderr:"
                         +++ PyStr.nl +++ stderr result))
  else
    let xml_str := stdout result in
    abi <- from_xml w xml_str ;;
    ret (abi, xml_str).

Definition type_and_function_names (self : t) : list string * list string :=
  let type_names := map ClassDecl.name (class_decls self)
                    ++ map TypedefDecl.name (typedef_decls self) in
  let func_names := map FunctionDecl.name (fun_decls self) in
  (type_names, func_names).
End ABI.

(* ------------------------------------------------------------------ *)
(** ** abi/parse_headers.py: the header declaration extractor *)
(* ------------------------------------------------------------------ *)

Module ParseHeaders.

Definition run_preproc (w : World) (header_file : Path) : M string :=
  let args := ["gcc"; "-E"; header_file] in
  emit (EvRun args) ;;;
  result <- lift (run w args) ;;
  if negb (returncode result =? 0)%Z then
    raise (RuntimeError ("GCC preprocessor failed on " +++ header_file
                         +++ " with stderr:" +++ PyStr.nl +++ stderr result))
  else ret (stdout result).

Inductive PreprocessorFlag : Type :=
| NEW_FILE | RETURNING_FILE | SYSTEM_FILE | EXTERN_TEXT.

Definition flag_eqb (a b : PreprocessorFlag) : bool :=
  match a, b with
  | NEW_FILE, NEW_FILE | RETURNING_FILE, RETURNING_FILE
  | SYSTEM_FILE, SYSTEM_FILE | EXTERN_TEXT, EXTERN_TEXT => true
  | _, _ => false
  end.

(** [PreprocessorFlag(n)]. *)
Definition flag_of_int (n : Z) : M PreprocessorFlag :=
  match n with
  | 1%Z => ret NEW_FILE
  | 2%Z => ret RETURNING_FILE
  | 3%Z => ret SYSTEM_FILE
  | 4%Z => ret EXTERN_TEXT
  | _ => raise (ValueError "not a valid PreprocessorFlag")
  end.

Inductive SymbolType : Type :=
| TYPEDEF | FUNDEF | PTRDEF | EXTERNDEF | STRUCTDEF | ENUMDEF.

Record Symbol : Type := mkSymbol {
  stype : SymbolType;
  symbol : string
}.

Definition node_type (n : Node) : string := let '(TSNode t _ _) := n in t.
Definition node_text (n : Node) : string := let '(TSNode _ x _) := n in x.
Definition node_children (n : Node) : list (option string * Node) :=
  let '(TSNode _ _ c) := n in c.

(** [node.child_by_field_name(f)]: the first child attached under [f]. *)
Definition child_by_field_name (n : Node) (f : string) : option Node :=
  match List.find (fun c => match fst c with
                            | Some g => String.eqb g f
                            | None => false
                            end) (node_children n) with
  | Some (_, c) => Some c
  | None => None
  end.

Definition _parse_type_definition (node : Node) : M (option Symbol) :=
  match child_by_field_name node "declarator" with
  | None => raise (AssertionError "")
  | Some declarator =>
      if String.eqb (node_type declarator) "function_declarator" then
        match child_by_field_name declarator "declarator" with
        | None => raise (AssertionError "")
        | Some child_declarator =>
            if String.eqb (node_type child_declarator) "parenthesized_declarator"
            then ret (Some (mkSymbol TYPEDEF
                              (PyStr.slice_1_m1 (node_text child_declarator))))
            else raise (AssertionError "")
        end
      else if String.eqb (node_type declarator) "type_identifier" then
        ret (Some (mkSymbol TYPEDEF (node_text declarator)))
      else if String.eqb (node_type declarator) "pointer_declarator" then
        match child_by_field_name declarator "declarator" with
        | None => raise (AttributeError_None "text")
        | Some d => ret (Some (mkSymbol TYPEDEF (node_text d)))
        end
      else
        print ("Unhandled declarator in _parse_type_definition: "
               +++ node_type declarator) ;;;
        ret None
  end.

Definition _parse_declaration (node : Node) : M (option Symbol) :=
  match child_by_field_name node "declarator" with
  | None => raise (AssertionError "")
  | Some declarator =>
      if String.eqb (node_type declarator) "function_declarator" then
        match child_by_field_name declarator "declarator" with
        | None => raise (AttributeError_None "type")
        | Some name_node =>
            if String.eqb (node_type name_node) "identifier"
            then ret (Some (mkSymbol FUNDEF (node_text name_node)))
            else raise (AssertionError ("Got " +++ node_type name_node))
        end
      else if String.eqb (node_type declarator) "pointer_declarator" then
        match child_by_field_name declarator "declarator" with
        | None => raise (AttributeError_None "text")
        | Some name_node => ret (Some (mkSymbol PTRDEF (node_text name_node)))
        end
      else if String.eqb (node_type declarator) "identifier" then
        ret (Some (mkSymbol EXTERNDEF (node_text declarator)))
      else if String.eqb (node_type declarator) "array_declarator" then
        match child_by_field_name declarator "declarator" with
        | None => raise (AttributeError_None "text")
        | Some d => ret (Some (mkSymbol EXTERNDEF (node_text d)))
        end
      else
        print ("Unhandled declarator in _parse_declaration: "
               +++ node_type declarator) ;;;
        ret None
  end.

Definition _parse_struct_specifier (node : Node) : M (option Symbol) :=
  match child_by_field_name node "name" with
  | None => raise (AttributeError_None "text")
  | Some n => ret (Some (mkSymbol STRUCTDEF (node_text n)))
  end.

(** The [try] ... [except: return] turns the missing name into [None]. *)
Definition _parse_enum_specifier (node : Node) : M (option Symbol) :=
  match child_by_field_name node "name" with
  | None => ret None
  | Some n => ret (Some (mkSymbol ENUMDEF (node_text n)))
  end.

Record HeaderBlock : Type := mkBlock {
  file : Path;
  flags : list PreprocessorFlag;
  text : string
}.

(** One turn of the [while] loop of [HeaderBlock.parse]: what it appends
    to [parsed] for the node under the cursor. *)
Definition parse_node (node : Node) : M (list (option Symbol)) :=
  if String.eqb (node_type node) "type_definition" then
    p <- _parse_type_definition node ;; ret [p]
  else if String.eqb (node_type node) "declaration" then
    p <- _parse_declaration node ;; ret [p]
  else if String.eqb (node_type node) "struct_specifier" then
    p <- _parse_struct_specifier node ;; ret [p]
  else if String.eqb (node_type node) "enum_specifier" then
    p <- _parse_enum_specifier node ;; ret [p]
  else if String.eqb (node_type node) ";" then
    ret []
  else
    print ("Unhandled node: " +++ node_type node) ;;; ret [].

Fixpoint parse_nodes (nodes : list Node) : M (list (option Symbol)) :=
  match nodes with
  | [] => ret []
  | node :: rest =>
      ps <- parse_node node ;;
      qs <- parse_nodes rest ;;
      ret (ps ++ qs)
  end.

(** [[p for p in parsed if p is not None]]. *)
Fixpoint not_none (parsed : list (option Symbol)) : list Symbol :=
  match parsed with
  | [] => []
  | Some p :: rest => p :: not_none rest
  | None :: rest => not_none rest
  end.

(** The nodes the cursor stops on: the children of the root, or the root
    itself when [goto_first_child] finds none. *)
Definition cursor_nodes (root : Node) : list Node :=
  match node_children root with
  | [] => [root]
  | cs => map snd cs
  end.

(** The loop of [HeaderBlock.parse] and its final comprehension, over the
    nodes the cursor stops on. *)
Definition parse_cursor (nodes : list Node) : M (list Symbol) :=
  parsed <- parse_nodes nodes ;;
  ret (not_none parsed).

Definition parse_tree (root : Node) : M (list Symbol) :=
  parse_cursor (cursor_nodes root).

Definition parse (w : World) (self : HeaderBlock) : M (list Symbol) :=
  parse_tree (ts_parse w (text self)).

Definition flag_of_string (f : string) : M PreprocessorFlag :=
  n <- int_of f ;; flag_of_int n.

Definition _parse_file_line (line : string)
  : M (Path * list PreprocessorFlag) :=
  match PyStr.split_ws line with
  | _ :: _ :: filepath_quoted :: flags =>
      parsed_flags <- mapM flag_of_string flags ;;
      ret (PyStr.slice_1_m1 filepath_quoted, parsed_flags)
  | _ => raise (ValueError "not enough values to unpack (expected at least 3)")
  end.

Definition block_of (header : Path * list PreprocessorFlag)
    (curr_block_text : list string) : HeaderBlock :=
  mkBlock (fst header) (snd header) (PyStr.join PyStr.nl curr_block_text).

(** The generator [_parse_blocks], run to its end: the blocks it yields,
    or the exception that stops it. *)
Fixpoint parse_blocks_lines (lines : list string)
    (curr_header : option (Path * list PreprocessorFlag))
    (curr_block_text : list string) : M (list HeaderBlock) :=
  match lines with
  | [] =>
      match curr_header with
      | None => raise (TypeError "Value after * must be an iterable, not NoneType")
      | Some h => ret [block_of h curr_block_text]
      end
  | line :: rest =>
      if PyStr.startswith "#" line then
        match curr_header with
        | None =>
            h <- _parse_file_line line ;;
            parse_blocks_lines rest (Some h) curr_block_text
        | Some h0 =>
            let block := block_of h0 curr_block_text in
            h <- _parse_file_line line ;;
            blocks <- parse_blocks_lines rest (Some h) [] ;;
            ret (block :: blocks)
        end
      else if negb (PyStr.isspace line || (String.length line =? 0)) then
        parse_blocks_lines rest curr_header (curr_block_text ++ [line])
      else
        parse_blocks_lines rest curr_header curr_block_text
  end.

Definition _parse_blocks (header_text : string) : M (list HeaderBlock) :=
  parse_blocks_lines (PyStr.split_nl header_text) None [].

(** The three lists [parse_header] fills: types, functions, variables. *)
Definition surface : Type := (list Symbol * list Symbol * list Symbol)%type.

Definition separate_one (acc : surface) (sym : Symbol) : surface :=
  let '(type_symbols, func_symbols, var_symbols) := acc in
  match stype sym with
  | FUNDEF => (type_symbols, func_symbols ++ [sym], var_symbols)
  | EXTERNDEF => (type_symbols, func_symbols, var_symbols ++ [sym])
  | _ => (type_symbols ++ [sym], func_symbols, var_symbols)
  end.

Definition _separate_symbols (acc : surface) (syms : list Symbol) : surface :=
  fold_left separate_one syms acc.

(** The block filter of [parse_header]. *)
Definition kept (b : HeaderBlock) : bool :=
  (0 <? String.length (text b))
  && negb (existsb (flag_eqb SYSTEM_FILE) (flags b)).

(** [for b in blocks: _separate_symbols(b.parse(parser))]. *)
Fixpoint parse_kept_blocks (w : World) (acc : surface)
    (blocks : list HeaderBlock) : M surface :=
  match blocks with
  | [] => ret acc
  | b :: rest =>
      syms <- parse w b ;;
      parse_kept_blocks w (_separate_symbols acc syms) rest
  end.

(** [parse_header] from the preprocessed text on. *)
Definition parse_header_text (w : World) (header_text : string) : M surface :=
  all_blocks <- _parse_blocks header_text ;;
  let blocks := filter kept all_blocks in
  parse_kept_blocks w ([], [], []) blocks.

Definition parse_header (w : World) (header_file : Path) : M surface :=
  header_text <- run_preproc w header_file ;;
  parse_header_text w header_text.

End ParseHeaders.

(* ------------------------------------------------------------------ *)
(** ** abi/common.py *)
(* ------------------------------------------------------------------ *)

Definition _spec_to_build_interface (spec : Spec) : M Spec :=
  if negb (installed spec) then
    raise (ExternalError ("Spec " +++ spec_str spec
                          +++ " must be installed to analyze ABI. Try `spack install` "))
  else ret spec.

Definition libs_for_spec (spec : Spec) : M (list Path) :=
  spec_bi <- _spec_to_build_interface spec ;;
  lift (libs spec_bi).

Definition headers_for_spec (spec : Spec) : M (list Path) :=
  spec_bi <- _spec_to_build_interface spec ;;
  lift (headers spec_bi).

(* ------------------------------------------------------------------ *)
(** ** abi/suppress.py: the suppression generator *)
(* ------------------------------------------------------------------ *)

Module Suppress.
Import ParseHeaders.

(** An element of the list [private_types]: a class or a typedef. *)
Inductive private_type : Type :=
| PrivClass (cd : ClassDecl.t)
| PrivTypedef (td : TypedefDecl.t).

Definition private_type_to_suppression (t : private_type) (file : Path) : string :=
  match t with
  | PrivClass cd => ClassDecl.to_suppression cd file
  | PrivTypedef td => TypedefDecl.to_suppression td file
  end.

(** The whole function: lines 23 to 30 run only when the two calls in front
    of them have returned. *)
Definition suppression_for_binaries_from_header (w : World)
    (binaries : list Path) (header : Path) : M string :=
  '(abi, _) <- ABI.from_binaries w binaries None false [] ;;
  '(header_types, header_functions, header_vars) <- parse_header w header ;;
  let header_type_symbols := map symbol header_types in
  let header_function_symbols := map symbol header_functions in
  let private_types :=
    map PrivClass
        (filter (fun cd => negb (PyStr.in_list (ClassDecl.name cd) header_type_symbols))
                (ABI.class_decls abi)) in
  let private_types :=
    private_types
    ++ map PrivTypedef
         (filter (fun td => negb (PyStr.in_list (TypedefDecl.name td) header_type_symbols))
                 (ABI.typedef_decls abi)) in
  let private_funcs :=
    filter (fun fd => negb (PyStr.in_list (FunctionDecl.name fd) header_function_symbols))
           (ABI.fun_decls abi) in
  let type_suppressions :=
    map (fun t => private_type_to_suppression t (ABI.path abi)) private_types in
  let func_suppressions :=
    map (fun f => FunctionDecl.to_suppression f (ABI.path abi)) private_funcs in
  ret (PyStr.join PyStr.nl (type_suppressions ++ func_suppressions)).
End Suppress.

(* ------------------------------------------------------------------ *)
(** ** abi/diff.py *)
(* ------------------------------------------------------------------ *)

Module Diff.

(** [[h for h in headers_for_spec(spec) if h.name == header][0]]. *)
Definition header_named (w : World) (spec : Spec) (header : string) : M Path :=
  hs <- headers_for_spec spec ;;
  index0 (filter (fun h => String.eqb (path_name w h) header) hs).

Definition suppression_for (w : World) (spec : Spec) (spec_libs : list Path)
    (header suppr : option string) : M string :=
  match nonempty_opt header with
  | Some h =>
      spec_header <- header_named w spec h ;;
      Suppress.suppression_for_binaries_from_header w spec_libs spec_header
  | None =>
      match nonempty_opt suppr with
      | Some f => lift (read_text w f)
      | None => ret ""
      end
  end.

(** [diff_specs] has no [return] statement: it yields [None]. *)
Definition diff_specs (w : World) (spec1 spec2 : Spec)
    (header1 suppr1 header2 suppr2 : option string)
    (show_cmd : bool) (extra_args : list string) : M unit :=
  spec1_libs <- libs_for_spec spec1 ;;
  spec2_libs <- libs_for_spec spec2 ;;
  spec1_suppression <- suppression_for w spec1 spec1_libs header1 suppr1 ;;
  spec2_suppression <- suppression_for w spec2 spec2_libs header2 suppr2 ;;
  let suppression_txt := spec1_suppression +++ spec2_suppression in
  suppression_file <-
    (if negb (String.length suppression_txt =? 0) then
       emit (EvWrite (tmp_name w) suppression_txt) ;;; ret (Some (tmp_name w))
     else ret None) ;;
  '(result, args) <- abidiff w spec1_libs spec2_libs suppression_file
                             show_cmd extra_args ;;
  if (Z.land (returncode result) DiffExitCode.USAGE_ERROR =? 1)%Z then
    print "There was an error in running `abidiff`, below is the underlying command:" ;;;
    print_cmd args ;;;
    print ("STDERR: " +++ stderr result)
  else
    print (stdout result) ;;;
    print (stderr result).

End Diff.

(* ------------------------------------------------------------------ *)
(** ** abi/diff_product.py: the cross-product sweep *)
(* ------------------------------------------------------------------ *)

Module DiffProductCmd.

Definition dq : string := PyStr.dq.

Definition str_of_diff_type (d : AbiDiffType) : string :=
  match d with
  | NONE => "AbiDiffType.NONE"
  | HARMLESS => "AbiDiffType.HARMLESS"
  | HARMFUL => "AbiDiffType.HARMFUL"
  | ERROR => "AbiDiffType.ERROR"
  end.

(** [print(s, file=outfile)]: the output file when one was opened,
    standard output otherwise. *)
Definition print_to (outfile : option string) (s : string) : M unit :=
  match outfile with
  | Some f => emit (EvWrite f s)
  | None => print s
  end.

(** [result, abidiff_args = v] where [v] is [None]. *)
Definition unpack_none (v : unit) : M (CompletedProcess * list string) :=
  raise (TypeError "cannot unpack non-iterable NoneType object").

(** The body of the loop over [comparisons]. *)
Definition compare_pair (w : World) (output_format : string)
    (outfile : option string) (cmp : (Spec * Spec) * (Spec * Spec)) : M unit :=
  let '((u1, c1), (u2, c2)) := cmp in
  v <- Diff.diff_specs w c1 c2 None None None None false [] ;;
  '(result, abidiff_args) <- unpack_none v ;;
  let diff_type := return_code_to_diff_type (returncode result) in
  if String.eqb output_format "can_splice" then
    match diff_type with
    | NONE | HARMLESS =>
        print_to outfile ("can_splice(" +++ dq +++ spec_str u1 +++ dq +++ ", when="
                          +++ dq +++ spec_str u2 +++ dq +++ ") #"
                          +++ str_of_diff_type diff_type)
    | HARMFUL =>
        print ("# No splice " +++ spec_str u1 +++ " and " +++ spec_str u2)
    | ERROR =>
        print ("abidiff reported a usage error when comparing "
               +++ spec_str u1 +++ " and " +++ spec_str u2) ;;;
        print_cmd abidiff_args
    end
  else if String.eqb output_format "summary" then
    ret tt
  else
    print_to outfile ("Comparing " +++ spec_str u1 +++ "," +++ spec_str c1 +++ " to "
                      +++ spec_str u2 +++ "," +++ spec_str c2) ;;;
    print_to outfile (stdout result) ;;;
    print (stderr result).

(** [cmd] from [comparisons = cross_product_self(...)] on; [specs] is
    [list(env.concretized_specs())].  The output file, when one is named,
    is opened for writing before the loop and closed after it; [outfile]
    is [None] for [sys.stdout]. *)
Definition cmd (w : World) (output_format : string)
    (output_file : option string) (specs : list (Spec * Spec)) : M unit :=
  let comparisons := cross_product_self specs in
  outfile <- match nonempty_opt output_file with
             | Some f => lift (open_write w f) ;;; emit (EvOpen f) ;;; ret (Some f)
             | None => ret None
             end ;;
  for_each comparisons (compare_pair w output_format outfile) ;;;
  match outfile with
  | Some f => emit (EvClose f)
  | None => ret tt
  end.

End DiffProductCmd.

(* ------------------------------------------------------------------ *)
(** ** abi/common.py, abi/libs.py and abi/diff.py: the remaining functions *)
(* ------------------------------------------------------------------ *)

(** [regex_for_filename]: the file name split at its dots must give
    exactly a name and an extension; the result joins them with two
    backslashes and a dot. *)
Definition regex_for_filename (w : World) (file : Path) : M string :=
  match PyStr.split_on "."%char (path_name w file) with
  | [name; ext] => ret (name +++ "\\." +++ ext)
  | [_] => raise (ValueError "not enough values to unpack (expected 2, got 1)")
  | _ => raise (ValueError "too many values to unpack (expected 2)")
  end.

Module LibsCmd.

(** [cmd] from the matching spec on. *)
Definition cmd (spec : Spec) : M unit :=
  headers <- headers_for_spec spec ;;
  libs <- libs_for_spec spec ;;
  let indent := "  " in
  let stars := "********************" in
  print ("***Headers for " +++ spec_str spec +++ "***") ;;;
  for_each headers (fun h => print (indent +++ h)) ;;;
  print stars ;;;
  print ("***Libs for " +++ spec_str spec +++ "***") ;;;
  for_each libs (fun l => print (indent +++ l)).

End LibsCmd.

Module DiffCmd.

(** [cmd] from the specs that [find_matching_specs] returned on. *)
Definition cmd (w : World) (specs : list Spec)
    (header1 suppr1 header2 suppr2 : option string) (show_cmd : bool)
    (extra_args : option string) : M unit :=
  match specs with
  | [spec1; spec2] =>
      let extra_args := match nonempty_opt extra_args with
                        | Some s => PyStr.split_ws s
                        | None => []
                        end in
      Diff.diff_specs w spec1 spec2 header1 suppr1 header2 suppr2 show_cmd extra_args
  | _ => raise (AssertionError "Cannot compare ABIs for more than 2 specs")
  end.

End DiffCmd.

(* ------------------------------------------------------------------ *)
(** ** Predicates and sample inputs used by the statements below *)
(* ------------------------------------------------------------------ *)

(** The pairs of two distinct members of a list of indices, first member
    outermost. *)
Definition index_pairs (ks : list nat) : list (nat * nat) :=
  flat_map (fun i => flat_map (fun j => if Nat.eqb i j then [] else [(i, j)]) ks) ks.

(** A pair of the cross product sits at a pair of indices of [lst]. *)
Definition at_indices {T} (lst : list T) (ij : nat * nat) (ab : T * T) : Prop :=
  nth_error lst (fst ij) = Some (fst ab) /\ nth_error lst (snd ij) = Some (snd ab).

(** An element carries the attribute [attr]. *)
Definition has (xelt : Element) (attr : string) : Prop :=
  exists v, get xelt attr = Some v.

(** What the parser requires of each kind of element. *)
Definition symbol_complete (e : Element) : Prop :=
  has e "name" /\ has e "type" /\ has e "binding" /\ has e "visibility"
  /\ has e "is-defined".

Definition var_decl_complete (e : Element) : Prop :=
  has e "name" /\ has e "type-id" /\ has e "visibility".

Definition type_decl_complete (e : Element) : Prop :=
  has e "name" /\ has e "id".

Definition function_decl_complete (e : Element) : Prop :=
  has e "name" /\ exists r, find e "return" = Some r /\ has r "type-id".

Definition data_member_complete (e : Element) : Prop :=
  has e "access" /\ has e "layout-offset-in-bits"
  /\ match find e "var-decl" with
     | Some v => var_decl_complete v
     | None => exists f, find e "function-decl" = Some f /\ function_decl_complete f
     end.

Definition class_decl_complete (e : Element) : Prop :=
  has e "name" /\ has e "is-struct" /\ has e "visibility" /\ has e "id"
  /\ Forall data_member_complete (findall e "data-member").

Definition typedef_decl_complete (e : Element) : Prop :=
  has e "name" /\ has e "type-id" /\ has e "id" /\ has e "filepath".

Definition abi_instr_complete (e : Element) : Prop :=
  Forall type_decl_complete (findall e "type-decl")
  /\ Forall class_decl_complete (findall e "class-decl")
  /\ Forall function_decl_complete (findall e "function-decl")
  /\ Forall typedef_decl_complete (findall e "typedef-decl")
  /\ Forall var_decl_complete (findall e "var-decl").

Definition corpus_complete (root : Element) : Prop :=
  has root "path"
  /\ (exists fs, find root "elf-function-symbols" = Some fs
                 /\ Forall symbol_complete (findall fs "elf-symbol"))
  /\ (forall vs, find root "elf-variable-symbols" = Some vs ->
                 Forall symbol_complete (findall vs "elf-symbol"))
  /\ Forall abi_instr_complete (findall root "abi-instr").

(** Sample corpora: a complete one, and two that differ only in the tag of
    a declaration without a name. *)
Definition elt_symbol : Element :=
  Elt "elf-symbol"
      [("name", "widget_free"); ("type", "func-type"); ("binding", "global-binding");
       ("visibility", "default-visibility"); ("is-defined", "yes")] [].

Definition elt_function_symbols : Element :=
  Elt "elf-function-symbols" [] [elt_symbol].

Definition elt_class_widget : Element :=
  Elt "class-decl"
      [("name", "Widget"); ("is-struct", "yes"); ("visibility", "default");
       ("size-in-bits", "32"); ("id", "t1")]
      [Elt "data-member" [("access", "public"); ("layout-offset-in-bits", "0")]
           [Elt "var-decl" [("name", "x"); ("type-id", "t0"); ("visibility", "default")] []]].

Definition elt_function_widget_free : Element :=
  Elt "function-decl" [("name", "widget_free")]
      [Elt "parameter" [("type-id", "t1")] []; Elt "return" [("type-id", "t0")] []].

Definition corpus_root (decls : list Element) : Element :=
  Elt "abi-corpus" [("path", "libwidget.so")]
      [elt_function_symbols; Elt "abi-instr" [] decls].

Definition root_complete : Element :=
  corpus_root [Elt "type-decl" [("name", "int"); ("size-in-bits", "32"); ("id", "t0")] [];
               elt_class_widget; elt_function_widget_free].

Definition root_nameless_type : Element :=
  corpus_root [Elt "type-decl" [("id", "t1")] []].

Definition root_nameless_typedef : Element :=
  corpus_root [Elt "typedef-decl" [("id", "t1")] []].

(** Sample collaborators: every tool is found, [run] and the tree-sitter
    parser are given, the XML reader returns [root], paths are left as they
    are. *)
Definition sample_world (run_ : list string -> outcome CompletedProcess)
    (parse_ : string -> Node) (root : Element) : World :=
  {| which := fun cmd => Some ("/usr/bin/" +++ cmd);
     run := run_;
     path_name := fun p => p;
     path_parent := fun _ => "/opt/lib";
     path_absolute := fun p => p;
     fromstring := fun _ => Ok root;
     ts_parse := parse_;
     read_text := fun _ => Ok EmptyString;
     open_write := fun _ => Ok tt;
     tmp_name := "/tmp/suppressions" |}.

Definition run_ok (args : list string) : outcome CompletedProcess :=
  Ok {| returncode := 0; stdout := EmptyString; stderr := EmptyString |}.

Definition parse_nothing (text : string) : Node :=
  TSNode "translation_unit" text [].

(** The shapes of syntax nodes that [HeaderBlock.parse] takes without an
    error. *)
Definition typedef_shape_ok (node : Node) : Prop :=
  exists d, ParseHeaders.child_by_field_name node "declarator" = Some d
    /\ (ParseHeaders.node_type d = "function_declarator" ->
        exists c, ParseHeaders.child_by_field_name d "declarator" = Some c
                  /\ ParseHeaders.node_type c = "parenthesized_declarator")
    /\ (ParseHeaders.node_type d = "pointer_declarator" ->
        exists c, ParseHeaders.child_by_field_name d "declarator" = Some c).

Definition declaration_shape_ok (node : Node) : Prop :=
  exists d, ParseHeaders.child_by_field_name node "declarator" = Some d
    /\ (ParseHeaders.node_type d = "function_declarator" ->
        exists c, ParseHeaders.child_by_field_name d "declarator" = Some c
                  /\ ParseHeaders.node_type c = "identifier")
    /\ (ParseHeaders.node_type d = "pointer_declarator"
        \/ ParseHeaders.node_type d = "array_declarator" ->
        exists c, ParseHeaders.child_by_field_name d "declarator" = Some c).

Definition struct_shape_ok (node : Node) : Prop :=
  exists n, ParseHeaders.child_by_field_name node "name" = Some n.

Definition shape_ok (node : Node) : Prop :=
  (ParseHeaders.node_type node = "type_definition" -> typedef_shape_ok node)
  /\ (ParseHeaders.node_type node = "declaration" -> declaration_shape_ok node)
  /\ (ParseHeaders.node_type node = "struct_specifier" -> struct_shape_ok node).

(** The nodes that are passed over: a bare terminator, a top-level node of
    an unhandled type, a typedef or a declaration whose declarator has an
    unhandled type, an enum without a name. *)
Definition terminator (node : Node) : Prop := ParseHeaders.node_type node = ";".

Definition unhandled_top (node : Node) : Prop :=
  ~ In (ParseHeaders.node_type node)
       ["type_definition"; "declaration"; "struct_specifier"; "enum_specifier"; ";"].

Definition unhandled_typedef (node : Node) : Prop :=
  ParseHeaders.node_type node = "type_definition"
  /\ exists d, ParseHeaders.child_by_field_name node "declarator" = Some d
       /\ ~ In (ParseHeaders.node_type d)
               ["function_declarator"; "type_identifier"; "pointer_declarator"].

Definition unhandled_declaration (node : Node) : Prop :=
  ParseHeaders.node_type node = "declaration"
  /\ exists d, ParseHeaders.child_by_field_name node "declarator" = Some d
       /\ ~ In (ParseHeaders.node_type d)
               ["function_declarator"; "pointer_declarator"; "identifier";
                "array_declarator"].

Definition anonymous_enum (node : Node) : Prop :=
  ParseHeaders.node_type node = "enum_specifier"
  /\ ParseHeaders.child_by_field_name node "name" = None.

Definition skipped (node : Node) : Prop :=
  terminator node \/ unhandled_top node \/ unhandled_typedef node
  \/ unhandled_declaration node \/ anonymous_enum node.

(** [logged node msg]: the node is passed over with the message [msg]. *)
Definition logged (node : Node) (msg : string) : Prop :=
  (unhandled_top node /\ msg = "Unhandled node: " +++ ParseHeaders.node_type node)
  \/ (ParseHeaders.node_type node = "type_definition"
      /\ exists d, ParseHeaders.child_by_field_name node "declarator" = Some d
           /\ ~ In (ParseHeaders.node_type d)
                   ["function_declarator"; "type_identifier"; "pointer_declarator"]
           /\ msg = "Unhandled declarator in _parse_type_definition: "
                    +++ ParseHeaders.node_type d)
  \/ (ParseHeaders.node_type node = "declaration"
      /\ exists d, ParseHeaders.child_by_field_name node "declarator" = Some d
           /\ ~ In (ParseHeaders.node_type d)
                   ["function_declarator"; "pointer_declarator"; "identifier";
                    "array_declarator"]
           /\ msg = "Unhandled declarator in _parse_declaration: "
                    +++ ParseHeaders.node_type d).

(** Sample syntax trees.  [leaf] is a node without children. *)
Definition leaf (type text : string) : Node := TSNode type text [].

(** [int f(void);] *)
Definition node_decl_f : Node :=
  TSNode "declaration" "int f(void);"
    [(Some "type", leaf "primitive_type" "int");
     (Some "declarator",
      TSNode "function_declarator" "f(void)"
        [(Some "declarator", leaf "identifier" "f");
         (Some "parameters", leaf "parameter_list" "(void)")]);
     (None, leaf ";" ";")].

(** [typedef int fn_t(int);]: a typedef of a function type. *)
Definition node_typedef_fn : Node :=
  TSNode "type_definition" "typedef int fn_t(int);"
    [(None, leaf "typedef" "typedef");
     (Some "type", leaf "primitive_type" "int");
     (Some "declarator",
      TSNode "function_declarator" "fn_t(int)"
        [(Some "declarator", leaf "type_identifier" "fn_t");
         (Some "parameters", leaf "parameter_list" "(int)")]);
     (None, leaf ";" ";")].

(** [typedef int arr_t[4];]: a typedef whose declarator is an array. *)
Definition node_typedef_arr : Node :=
  TSNode "type_definition" "typedef int arr_t[4];"
    [(None, leaf "typedef" "typedef");
     (Some "type", leaf "primitive_type" "int");
     (Some "declarator",
      TSNode "array_declarator" "arr_t[4]"
        [(Some "declarator", leaf "type_identifier" "arr_t");
         (Some "size", leaf "number_literal" "4")]);
     (None, leaf ";" ";")].

(** [struct foo;], [enum { A };], [struct { int x; };] and a function body. *)
Definition node_struct_foo : Node :=
  TSNode "struct_specifier" "struct foo"
    [(None, leaf "struct" "struct"); (Some "name", leaf "type_identifier" "foo")].

Definition node_enum_anon : Node :=
  TSNode "enum_specifier" "enum { A }"
    [(None, leaf "enum" "enum"); (Some "body", leaf "enumerator_list" "{ A }")].

Definition node_struct_anon : Node :=
  TSNode "struct_specifier" "struct { int x; }"
    [(None, leaf "struct" "struct");
     (Some "body", leaf "field_declaration_list" "{ int x; }")].

Definition node_fun_body : Node :=
  leaf "function_definition" "static int g(void) { return 0; }".

Definition node_semicolon : Node := leaf ";" ";".

Definition tree_of (nodes : list Node) : Node :=
  TSNode "translation_unit" EmptyString (map (fun n => (None, n)) nodes).

(** A block with a terminator, a function body, a declaration, an array
    typedef, an anonymous enum and a named struct. *)
Definition nodes_sample : list Node :=
  [node_semicolon; node_fun_body; node_decl_f; node_typedef_arr;
   node_enum_anon; node_struct_foo].

(** The lines of a block body that [_parse_blocks] keeps: neither empty nor
    all white space. *)
Definition source_lines (body : list string) : list string :=
  filter (fun line => negb (PyStr.isspace line || (String.length line =? 0))) body.

(** Every symbol of a surface. *)
Definition all_symbols (sf : ParseHeaders.surface) : list ParseHeaders.Symbol :=
  let '(type_symbols, func_symbols, var_symbols) := sf in
  type_symbols ++ func_symbols ++ var_symbols.

(** A block that [parse_header] drops: it comes from a system header, or
    its text is empty. *)
Definition discarded (b : ParseHeaders.HeaderBlock) : Prop :=
  In ParseHeaders.SYSTEM_FILE (ParseHeaders.flags b)
  \/ ParseHeaders.text b = EmptyString.

(** The surface extracted from one block alone, when its text is not
    empty. *)
Definition surface_of_block (w : World) (b : ParseHeaders.HeaderBlock)
  : M ParseHeaders.surface :=
  if 0 <? String.length (ParseHeaders.text b) then
    syms <- ParseHeaders.parse w b ;;
    ret (ParseHeaders._separate_symbols ([], [], []) syms)
  else ret ([], [], []).

(** Preprocessed text with a system block and a block of the header
    itself, and a parser that knows the two declarations. *)
Definition marker (line path flags : string) : string :=
  "# " +++ line +++ " " +++ PyStr.dq +++ path +++ PyStr.dq +++ flags.

Definition text_two_blocks : string :=
  PyStr.join PyStr.nl
    [marker "1" "/usr/include/stdio.h" " 1 3"; "int printf();"; "";
     marker "2" "widget.h" " 2"; "int f(void);"; ""].

(** [int printf();] *)
Definition node_decl_printf : Node :=
  TSNode "declaration" "int printf();"
    [(Some "type", leaf "primitive_type" "int");
     (Some "declarator",
      TSNode "function_declarator" "printf()"
        [(Some "declarator", leaf "identifier" "printf");
         (Some "parameters", leaf "parameter_list" "()")]);
     (None, leaf ";" ";")].

Definition parse_sample (text : string) : Node :=
  if String.eqb text "int f(void);" then tree_of [node_decl_f]
  else if String.eqb text "int printf();" then tree_of [node_decl_printf]
  else parse_nothing text.

(** The preprocessor run that prints the sample text. *)
Definition run_gcc (args : list string) : outcome CompletedProcess :=
  Ok {| returncode := 0; stdout := text_two_blocks; stderr := EmptyString |}.

Definition world_gcc : World := sample_world run_gcc parse_sample root_complete.

Definition block_stdio : ParseHeaders.HeaderBlock :=
  ParseHeaders.mkBlock "/usr/include/stdio.h"
    [ParseHeaders.NEW_FILE; ParseHeaders.SYSTEM_FILE] "int printf();".

Definition block_widget : ParseHeaders.HeaderBlock :=
  ParseHeaders.mkBlock "widget.h" [ParseHeaders.RETURNING_FILE] "int f(void);".

(** Three installed specs, each with one library, and a [run] whose launch
    fails for the comparison of [a] with [b] only. *)
Definition spec_of (name lib : string) : Spec :=
  {| spec_str := name; installed := true; libs := Ok [lib]; headers := Ok [] |}.

Definition spec_a : Spec := spec_of "a@1.0" "/opt/a/lib/liba.so".
Definition spec_b : Spec := spec_of "b@1.0" "/opt/b/lib/libb.so".
Definition spec_c : Spec := spec_of "c@1.0" "/opt/c/lib/libc.so".

Definition specs3 : list (Spec * Spec) :=
  [(spec_a, spec_a); (spec_b, spec_b); (spec_c, spec_c)].

Definition run_fail_a_b (args : list string) : outcome CompletedProcess :=
  if String.eqb (nth 1 args EmptyString) "/opt/a/lib/liba.so"
     && String.eqb (nth 2 args EmptyString) "/opt/b/lib/libb.so"
  then Raise (ExternalError "OSError: cannot launch abidiff")
  else run_ok args.

Definition world_fail_a_b : World :=
  sample_world run_fail_a_b parse_nothing root_complete.

Definition world_ok : World := sample_world run_ok parse_nothing root_complete.

(* ------------------------------------------------------------------ *)
(** ** Proof steps used more than once *)
(* ------------------------------------------------------------------ *)

(** Splits every hypothesis [bind m k = (log, Ok b)] into the run of [m] and
    the run of [k]; [inv] is the inversion lemma of [bind]. *)
Ltac inv_binds_with inv :=
  repeat match goal with
         | H : bind _ _ = (_, Ok _) |- _ =>
             apply inv in H;
             let l1 := fresh "l" in
             let a := fresh "a" in
             let l2 := fresh "l" in
             let E := fresh "E" in
             let Hk := fresh "Hk" in
             destruct H as (l1 & a & l2 & H & Hk & E); cbv beta in Hk
         end.

(** Case analysis on every string comparison of the goal. *)
Ltac string_cases :=
  repeat match goal with
         | |- context [String.eqb ?a ?b] => destruct (String.eqb_spec a b)
         end.

(** Closes [exists log x, m = (log, Ok x)] when [m] computes. *)
Ltac ok_now := do 2 eexists; reflexivity.
Ltac ok_skip := do 2 eexists; split; reflexivity.

(* ------------------------------------------------------------------ *)
(** ** Statement helpers for the remaining functions *)
(* ------------------------------------------------------------------ *)





(** A world of [sample_world] without the comparison tools. *)
Definition world_no_tools : World :=
  {| which := fun _ => None;
     run := run_ok;
     path_name := fun p => p;
     path_parent := fun _ => "/opt/lib";
     path_absolute := fun p => p;
     fromstring := fun _ => Ok root_complete;
     ts_parse := parse_nothing;
     read_text := fun _ => Ok EmptyString;
     open_write := fun _ => Ok tt;
     tmp_name := "/tmp/suppressions" |}.

(** The three kinds of header symbols as [parse_header] sorts them. *)
Definition is_function (sym : ParseHeaders.Symbol) : bool :=
  match ParseHeaders.stype sym with ParseHeaders.FUNDEF => true | _ => false end.

Definition is_variable (sym : ParseHeaders.Symbol) : bool :=
  match ParseHeaders.stype sym with ParseHeaders.EXTERNDEF => true | _ => false end.

Definition is_type (sym : ParseHeaders.Symbol) : bool :=
  negb (is_function sym) && negb (is_variable sym).

(** A line that [_parse_blocks] reads as a file marker. *)
Definition is_marker (line : string) : bool := PyStr.startswith "#" line.





(** [typedef int ( *fp )(int);] without the blanks: a typedef of a function
    pointer. *)
Definition node_typedef_fp : Node :=
  TSNode "type_definition" "typedef int (*fp)(int);"
    [(None, leaf "typedef" "typedef");
     (Some "type", leaf "primitive_type" "int");
     (Some "declarator",
      TSNode "function_declarator" "(*fp)(int)"
        [(Some "declarator",
          TSNode "parenthesized_declarator" "(*fp)"
            [(None, leaf "(" "(");
             (None, TSNode "pointer_declarator" "*fp"
                      [(None, leaf "*" "*");
                       (Some "declarator", leaf "type_identifier" "fp")]);
             (None, leaf ")" ")")]);
         (Some "parameters", leaf "parameter_list" "(int)")]);
     (None, leaf ";" ";")].

(** Preprocessed text that keeps a pragma line, and text without any
    marker. *)
Definition text_with_pragma : string :=
  PyStr.join PyStr.nl
    [marker "1" "widget.h" ""; "#pragma pack(1)"; "int f(void);"].

Definition text_preamble : string :=
  PyStr.join PyStr.nl ["int g(void);"; marker "1" "widget.h" ""; "int f(void);"].

Definition run_gcc_fails (args : list string) : outcome CompletedProcess :=
  Ok {| returncode := 1; stdout := EmptyString;
        stderr := "widget.h:1:10: fatal error: missing.h: No such file or directory" |}.

Definition world_gcc_fails : World :=
  sample_world run_gcc_fails parse_sample root_complete.

(** A string that [int] reads, and an optional attribute that is absent or
    holds such a string. *)
Definition parses_int (s : string) : Prop := exists n, PyStr.int s = Some n.

Definition opt_int_ok (o : option string) : Prop :=
  forall s, o = Some s -> parses_int s.

(** What the parser needs of each kind of element to return: the required
    attributes and children, and numbers where it reads numbers. *)
Definition symbol_wf (e : Element) : Prop :=
  symbol_complete e /\ opt_int_ok (get e "size").

Definition type_decl_wf (e : Element) : Prop :=
  type_decl_complete e /\ opt_int_ok (get e "size-in-bits").

Definition data_member_wf (e : Element) : Prop :=
  data_member_complete e
  /\ opt_int_ok (get e "layout-offset-in-bits").

Definition class_decl_wf (e : Element) : Prop :=
  has e "name" /\ has e "is-struct" /\ has e "visibility" /\ has e "id"
  /\ opt_int_ok (nonempty_opt (get e "size-in-bits"))
  /\ Forall data_member_wf (findall e "data-member").

Definition abi_instr_wf (e : Element) : Prop :=
  Forall type_decl_wf (findall e "type-decl")
  /\ Forall class_decl_wf (findall e "class-decl")
  /\ Forall function_decl_complete (findall e "function-decl")
  /\ Forall typedef_decl_complete (findall e "typedef-decl")
  /\ Forall var_decl_complete (findall e "var-decl").

Definition corpus_wf (root : Element) : Prop :=
  has root "path"
  /\ (exists fs, find root "elf-function-symbols" = Some fs
                 /\ Forall symbol_wf (findall fs "elf-symbol"))
  /\ (forall vs, find root "elf-variable-symbols" = Some vs ->
                 Forall symbol_wf (findall vs "elf-symbol"))
  /\ Forall abi_instr_wf (findall root "abi-instr").

(** The declarations of one kind in document order: those of the first
    [abi-instr] block, then those of the second, and so on. *)
Definition decl_elements (root : Element) (t : string) : list Element :=
  flat_map (fun instr => findall instr t) (findall root "abi-instr").

(** The element has the name the record carries. *)
Definition named (e : Element) (name : string) : Prop := get e "name" = Some name.

(** A corpus of two blocks, and members with one or both kinds of
    declaration. *)
Definition root_two_blocks : Element :=
  Elt "abi-corpus" [("path", "libwidget.so")]
      [elt_function_symbols;
       Elt "abi-instr" [] [elt_class_widget; elt_function_widget_free];
       Elt "abi-instr" []
         [Elt "typedef-decl" [("name", "widget_t"); ("type-id", "t1"); ("id", "t5");
                              ("filepath", "widget.h")] [];
          Elt "class-decl" [("name", "Gadget"); ("is-struct", "no");
                            ("visibility", "default"); ("size-in-bits", "");
                            ("id", "t6")] []]].

Definition elt_var_x : Element :=
  Elt "var-decl" [("name", "x"); ("type-id", "t0"); ("visibility", "default")] [].

Definition elt_member_both : Element :=
  Elt "data-member" [("access", "public"); ("layout-offset-in-bits", "0")]
      [elt_function_widget_free; elt_var_x].

Definition elt_member_neither : Element :=
  Elt "data-member" [("access", "public"); ("layout-offset-in-bits", "0")] [].

Definition elt_symbol_no_size : Element := elt_symbol.

Definition elt_type_empty_size : Element :=
  Elt "type-decl" [("name", "void"); ("size-in-bits", ""); ("id", "t9")] [].

(** Whether a command-line option holds a non-empty text. *)
Definition given (o : option string) : bool :=
  match nonempty_opt o with
  | Some _ => true
  | None => false
  end.




(** The output file of the sweep can be opened, or none is named. *)
Definition output_opens (w : World) (output_file : option string) : bool :=
  match nonempty_opt output_file with
  | Some f => match open_write w f with Ok _ => true | Raise _ => false end
  | None => true
  end.

(** What opening the output file of the sweep leaves in the log. *)
Definition opened (output_file : option string) : list event :=
  match nonempty_opt output_file with
  | Some f => [EvOpen f]
  | None => []
  end.

(** A world of [sample_world] in which no file can be opened for writing. *)
Definition world_no_output : World :=
  {| which := fun cmd => Some ("/usr/bin/" +++ cmd);
     run := run_ok;
     path_name := fun p => p;
     path_parent := fun _ => "/opt/lib";
     path_absolute := fun p => p;
     fromstring := fun _ => Ok root_complete;
     ts_parse := parse_nothing;
     read_text := fun _ => Ok EmptyString;
     open_write := fun _ => Raise (ExternalError "PermissionError: cannot open the output file");
     tmp_name := "/tmp/suppressions" |}.

(** A spec that is not installed, and one with a header. *)
Definition spec_absent : Spec :=
  {| spec_str := "z@1.0"; installed := false;
     libs := Ok ["/opt/z/lib/libz.so"]; headers := Ok ["/opt/z/include/z.h"] |}.

Definition spec_with_header : Spec :=
  {| spec_str := "a@1.0"; installed := true;
     libs := Ok ["/opt/a/lib/liba.so"]; headers := Ok ["widget.h"] |}.

(** How many dots a file name has. *)
Definition dots (s : string) : nat :=
  count_occ ascii_dec (list_ascii_of_string s) "."%char.

(** The lines [LibsCmd.cmd] prints for a spec with the given headers and
    libraries. *)
Definition libs_report (spec : Spec) (hs ls : list Path) : list string :=
  ["***Headers for " +++ spec_str spec +++ "***"]
  ++ map (fun h => "  " +++ h) hs
  ++ ["********************"; "***Libs for " +++ spec_str spec +++ "***"]
  ++ map (fun l => "  " +++ l) ls.

(** Rewrites the lookups of the attributes known to be present. *)
Ltac use_attrs :=
  repeat match goal with
         | H : has ?e ?a |- _ =>
             let v := fresh "v" in
             let Hv := fresh "Hv" in
             destruct H as (v & Hv)
         end;
  unfold _get_or_fail;
  repeat match goal with
         | Hv : get ?e ?a = Some _ |- context [get ?e ?a] => rewrite Hv
         end.

(* ------------------------------------------------------------------ *)
(** ** General facts about the effect monad *)
(* ------------------------------------------------------------------ *)

Lemma bind_ok_inv {A B} (m : M A) (k : A -> M B) log b :
  bind m k = (log, Ok b) ->
  exists l1 a l2, m = (l1, Ok a) /\ k a = (l2, Ok b) /\ log = l1 ++ l2.
Proof.
  unfold bind. destruct m as [l1 [a|e]]; [|discriminate].
  destruct (k a) as [l2 r] eqn:Hk. intros H. inversion H; subst.
  exists l1, a, l2. auto.
Qed.

(* ------------------------------------------------------------------ *)
(** ** The diff classifier *)
(* ------------------------------------------------------------------ *)

Lemma land_pow2 (rc n : Z) :
  (0 <= n)%Z ->
  Z.land rc (2 ^ n) = if Z.testbit rc n then (2 ^ n)%Z else 0%Z.
Proof.
  intros Hn. apply Z.bits_inj'. intros m Hm.
  rewrite Z.land_spec, Z.pow2_bits_eqb by assumption.
  destruct (Z.eqb_spec n m) as [->|Hne].
  - destruct (Z.testbit rc m) eqn:E; simpl.
    + now rewrite Z.pow2_bits_true.
    + now rewrite Z.bits_0.
  - rewrite andb_false_r.
    destruct (Z.testbit rc n).
    + rewrite Z.pow2_bits_false; auto.
    + now rewrite Z.bits_0.
Qed.

Lemma abi_change_test (rc : Z) :
  (Z.land rc DiffExitCode.ABI_CHANGE =? DiffExitCode.ABI_CHANGE)%Z = Z.testbit rc 2.
Proof.
  change DiffExitCode.ABI_CHANGE with (2 ^ 2)%Z.
  rewrite land_pow2 by lia. now destruct (Z.testbit rc 2).
Qed.

Lemma incompatible_test (rc : Z) :
  (Z.land rc DiffExitCode.INCOMPATIBLE_CHANGE =? 0)%Z = negb (Z.testbit rc 3).
Proof.
  change DiffExitCode.INCOMPATIBLE_CHANGE with (2 ^ 3)%Z.
  rewrite land_pow2 by lia. now destruct (Z.testbit rc 3).
Qed.

(** C1. For every exit code the classifier returns one verdict, by the
    precedence: 0 gives NoChange; otherwise, with the ABI-changed bit
    (value 4, bit 2) set, HarmfulChange when the incompatible bit (value 8,
    bit 3) is also set and HarmlessChange when it is not; otherwise
    UsageError.  A set ABI-changed bit never gives NoChange or UsageError,
    and 12, 4, 2, 0 give HarmfulChange, HarmlessChange, UsageError,
    NoChange. *)
Theorem C1_classifier_precedence (rc : Z) :
  (rc = 0%Z -> return_code_to_diff_type rc = NONE)
  /\ (rc <> 0%Z -> Z.testbit rc 2 = true -> Z.testbit rc 3 = true ->
      return_code_to_diff_type rc = HARMFUL)
  /\ (rc <> 0%Z -> Z.testbit rc 2 = true -> Z.testbit rc 3 = false ->
      return_code_to_diff_type rc = HARMLESS)
  /\ (rc <> 0%Z -> Z.testbit rc 2 = false ->
      return_code_to_diff_type rc = ERROR)
  /\ (Z.testbit rc 2 = true ->
      return_code_to_diff_type rc = HARMLESS \/ return_code_to_diff_type rc = HARMFUL)
  /\ (exists! v, return_code_to_diff_type rc = v)
  /\ return_code_to_diff_type 12 = HARMFUL
  /\ return_code_to_diff_type 4 = HARMLESS
  /\ return_code_to_diff_type 2 = ERROR
  /\ return_code_to_diff_type 0 = NONE.
Proof.
  unfold return_code_to_diff_type.
  rewrite abi_change_test, incompatible_test.
  repeat split; try reflexivity.
  - intros ->. reflexivity.
  - intros H0 H2 H3. apply Z.eqb_neq in H0. now rewrite H0, H2, H3.
  - intros H0 H2 H3. apply Z.eqb_neq in H0. now rewrite H0, H2, H3.
  - intros H0 H2. apply Z.eqb_neq in H0. now rewrite H0, H2.
  - intros H2. destruct (Z.eqb_spec rc 0) as [->|_]; [discriminate|].
    rewrite H2. destruct (Z.testbit rc 3); auto.
  - eexists. split; [reflexivity|]. intros v <-. reflexivity.
Qed.

(** The precedence at exit code 12: non-zero, both bits set. *)
Lemma C1_classifier_precedence_witness :
  (12 =? 0)%Z = false /\ Z.testbit 12 2 = true /\ Z.testbit 12 3 = true
  /\ return_code_to_diff_type 12 = HARMFUL.
Proof.
  split; [reflexivity|]. split; [reflexivity|]. split; [reflexivity|].
  apply (proj1 (proj2 (C1_classifier_precedence 12))); [lia | reflexivity | reflexivity].
Defined.

(* ------------------------------------------------------------------ *)
(** ** The cross product of a list with itself *)
(* ------------------------------------------------------------------ *)

Section CrossProduct.
Variable T : Type.
Implicit Types (lst : list T) (en : list (nat * T)) (ks : list nat).

Lemma in_enumerate_from lst s i a :
  In (i, a) (combine (seq s (List.length lst)) lst)
  <-> s <= i /\ nth_error lst (i - s) = Some a.
Proof.
  revert s. induction lst as [|x lst IH]; intros s; simpl.
  - split; [tauto|]. intros [_ H]. destruct (i - s); discriminate.
  - rewrite IH. split.
    + intros [H | [Hle H]].
      * inversion H; subst. rewrite Nat.sub_diag. auto.
      * split; [lia|]. replace (i - s) with (S (i - S s)) by lia. exact H.
    + intros [Hle H]. destruct (i - s) as [|k] eqn:E.
      * left. simpl in H. inversion H. f_equal. lia.
      * right. split; [lia|]. simpl in H. replace (i - S s) with k by lia. exact H.
Qed.

Lemma in_enumerate lst i a :
  In (i, a) (enumerate lst) <-> nth_error lst i = Some a.
Proof.
  unfold enumerate. rewrite in_enumerate_from, Nat.sub_0_r.
  split; [tauto | intros; split; [lia | assumption]].
Qed.

Lemma enumerate_indices lst : map fst (enumerate lst) = seq 0 (List.length lst).
Proof.
  unfold enumerate. generalize 0.
  induction lst as [|x lst IH]; intros s; simpl; [reflexivity|].
  now rewrite IH.
Qed.

(** Row [i] of the cross product follows row [i] of the index pairs. *)
Lemma row_at_indices en i a sub :
  In (i, a) en -> incl sub en ->
  Forall2 (fun ij ab => In (fst ij, fst ab) en /\ In (snd ij, snd ab) en)
    (flat_map (fun j => if Nat.eqb i j then [] else [(i, j)]) (map fst sub))
    (flat_map (fun '(j, elt2) => if Nat.eqb i j then [] else [(a, elt2)]) sub).
Proof.
  intros Hi. induction sub as [|[j b] sub IH]; intros Hsub; simpl.
  - constructor.
  - assert (Hj : In (j, b) en) by (apply Hsub; left; reflexivity).
    assert (Hrest : incl sub en) by (intros x Hx; apply Hsub; right; exact Hx).
    destruct (Nat.eqb i j); simpl; [auto|].
    constructor; [simpl; auto | auto].
Qed.

Lemma cross_at_indices en sub :
  incl sub en ->
  Forall2 (fun ij ab => In (fst ij, fst ab) en /\ In (snd ij, snd ab) en)
    (flat_map (fun i => flat_map (fun j => if Nat.eqb i j then [] else [(i, j)])
                                 (map fst en)) (map fst sub))
    (flat_map (fun '(i, elt1) =>
       flat_map (fun '(j, elt2) => if Nat.eqb i j then [] else [(elt1, elt2)]) en) sub).
Proof.
  induction sub as [|[i a] sub IH]; intros Hsub; simpl.
  - constructor.
  - apply Forall2_app.
    + apply row_at_indices; [apply Hsub; left; reflexivity | apply incl_refl].
    + apply IH. intros x Hx. apply Hsub. right. exact Hx.
Qed.

Lemma in_index_row i ks p :
  In p (flat_map (fun j => if Nat.eqb i j then [] else [(i, j)]) ks)
  <-> fst p = i /\ In (snd p) ks /\ i <> snd p.
Proof.
  rewrite in_flat_map. split.
  - intros [j [Hj Hp]]. destruct (Nat.eqb_spec i j) as [|Hne]; simpl in Hp; [tauto|].
    destruct Hp as [<-|[]]. simpl. auto.
  - intros [Hf [Hs Hne]]. exists (snd p). split; [assumption|].
    destruct (Nat.eqb_spec i (snd p)); [contradiction|].
    left. destruct p; simpl in *; congruence.
Qed.

Lemma in_index_pairs ks i j :
  In (i, j) (index_pairs ks) <-> In i ks /\ In j ks /\ i <> j.
Proof.
  unfold index_pairs. rewrite in_flat_map. split.
  - intros [k [Hk Hp]]. apply in_index_row in Hp. simpl in Hp.
    destruct Hp as [-> [Hj Hne]]. auto.
  - intros [Hi [Hj Hne]]. exists i. split; [assumption|].
    apply in_index_row. simpl. auto.
Qed.

Lemma NoDup_index_row i ks :
  NoDup ks -> NoDup (flat_map (fun j => if Nat.eqb i j then [] else [(i, j)]) ks).
Proof.
  induction 1 as [|j ks Hj Hnd IH]; simpl; [constructor|].
  destruct (Nat.eqb i j); simpl; [assumption|].
  constructor; [|assumption].
  intros Hin. apply in_index_row in Hin. simpl in Hin. tauto.
Qed.

Lemma NoDup_index_rows ks sub :
  NoDup ks -> NoDup sub ->
  NoDup (flat_map (fun i => flat_map (fun j => if Nat.eqb i j then [] else [(i, j)]) ks) sub).
Proof.
  intros Hks. induction 1 as [|i sub Hi Hnd IH]; simpl; [constructor|].
  apply NoDup_app; [now apply NoDup_index_row | assumption |].
  intros p Hp Hq. apply in_index_row in Hp. destruct Hp as [Hf _].
  apply in_flat_map in Hq. destruct Hq as [k [Hk Hq]].
  apply in_index_row in Hq. destruct Hq as [Hf' _]. congruence.
Qed.

Lemma NoDup_index_pairs ks : NoDup ks -> NoDup (index_pairs ks).
Proof. intros H. now apply NoDup_index_rows. Qed.

Lemma index_row_length i s len :
  List.length (flat_map (fun j => if Nat.eqb i j then [] else [(i, j)]) (seq s len))
  = if (s <=? i) && (i <? s + len) then len - 1 else len.
Proof.
  revert s. induction len as [|len IH]; intros s; cbn [seq flat_map].
  - now destruct ((s <=? i) && (i <? s + 0)).
  - rewrite length_app, IH.
    destruct (Nat.eqb_spec i s) as [->|Hne];
      repeat match goal with
             | |- context [?a <=? ?b] => destruct (Nat.leb_spec a b)
             | |- context [?a <? ?b] => destruct (Nat.ltb_spec a b)
             end; cbn [andb List.length]; lia.
Qed.

Lemma index_pairs_length n : List.length (index_pairs (seq 0 n)) = n * (n - 1).
Proof.
  unfold index_pairs.
  rewrite flat_map_constant_length with (c := n - 1).
  - now rewrite length_seq.
  - intros i Hi. apply in_seq in Hi. rewrite index_row_length.
    replace (0 <=? i) with true by (symmetry; apply Nat.leb_le; lia).
    replace (i <? 0 + n) with true by (symmetry; apply Nat.ltb_lt; lia).
    reflexivity.
Qed.

End CrossProduct.

(** C3. For a list of n entries the comparator builds exactly n(n-1)
    ordered pairs: position by position they are the pairs of entries at
    the pairs (i, j) of a duplicate-free list that holds every pair of two
    distinct indices below n and nothing else; so every two distinct
    positions are paired in both orders, no position is paired with itself,
    and two equal entries at different positions are still paired with
    each other. *)
Theorem C3_cross_product_pairs (T : Type) (lst : list T) :
  exists idx : list (nat * nat),
    NoDup idx
    /\ (forall i j, In (i, j) idx
                    <-> i < List.length lst /\ j < List.length lst /\ i <> j)
    /\ Forall2 (at_indices lst) idx (cross_product_self lst)
    /\ List.length (cross_product_self lst)
       = List.length lst * (List.length lst - 1)
    /\ cross_product_self ["a"; "a"] = [("a", "a"); ("a", "a")].
Proof.
  exists (index_pairs (seq 0 (List.length lst))).
  assert (Hrel : Forall2 (at_indices lst) (index_pairs (seq 0 (List.length lst)))
                         (cross_product_self lst)).
  { unfold cross_product_self, cross_enumerated, index_pairs.
    rewrite <- enumerate_indices.
    eapply Forall2_impl; [|apply cross_at_indices, incl_refl].
    intros [i j] [a b] [H1 H2]. simpl in *.
    split; simpl; now apply in_enumerate. }
  split; [apply NoDup_index_pairs, seq_NoDup|].
  split.
  { intros i j. rewrite in_index_pairs, !in_seq. lia. }
  split; [exact Hrel|].
  split; [|reflexivity].
  rewrite <- (Forall2_length Hrel). apply index_pairs_length.
Qed.

(* ------------------------------------------------------------------ *)
(** ** The derived query of a corpus *)
(* ------------------------------------------------------------------ *)

Lemma count_occ_names {A} (f : A -> string) (l : list A) (x : string) :
  count_occ string_dec (map f l) x
  = List.length (filter (fun d => String.eqb (f d) x) l).
Proof.
  induction l as [|d l IH]; simpl; [reflexivity|].
  destruct (string_dec (f d) x) as [E|E].
  - rewrite (proj2 (String.eqb_eq _ _) E). simpl. now rewrite IH.
  - rewrite (proj2 (String.eqb_neq _ _) E). exact IH.
Qed.

(** C7. The derived query returns as type names exactly the names of the
    class declarations followed by those of the typedef declarations, and as
    function names exactly the names of the function declarations: every
    name occurs as often as there are declarations carrying it, none is
    left out and none is added. *)
Theorem C7_type_and_function_names (abi : ABI.t) :
  let type_names := fst (ABI.type_and_function_names abi) in
  let func_names := snd (ABI.type_and_function_names abi) in
  (forall x, count_occ string_dec type_names x
             = List.length (filter (fun cd => String.eqb (ClassDecl.name cd) x)
                                   (ABI.class_decls abi))
               + List.length (filter (fun td => String.eqb (TypedefDecl.name td) x)
                                     (ABI.typedef_decls abi)))
  /\ (forall x, count_occ string_dec func_names x
                = List.length (filter (fun fd => String.eqb (FunctionDecl.name fd) x)
                                      (ABI.fun_decls abi)))
  /\ (forall x, In x type_names
                <-> (exists cd, In cd (ABI.class_decls abi) /\ ClassDecl.name cd = x)
                    \/ (exists td, In td (ABI.typedef_decls abi) /\ TypedefDecl.name td = x))
  /\ (forall x, In x func_names
                <-> exists fd, In fd (ABI.fun_decls abi) /\ FunctionDecl.name fd = x)
  /\ List.length type_names
     = List.length (ABI.class_decls abi) + List.length (ABI.typedef_decls abi)
  /\ List.length func_names = List.length (ABI.fun_decls abi).
Proof.
  cbn zeta. unfold ABI.type_and_function_names. cbn [fst snd].
  repeat apply conj.
  - intros x. now rewrite count_occ_app, !count_occ_names.
  - intros x. apply count_occ_names.
  - intros x. rewrite in_app_iff, !in_map_iff.
    split; intros [[d [H1 H2]]|[d [H1 H2]]]; [left|right|left|right]; exists d; auto.
  - intros x. rewrite in_map_iff. split; intros [d [H1 H2]]; exists d; auto.
  - now rewrite length_app, !length_map.
  - now rewrite length_map.
Qed.

(* ------------------------------------------------------------------ *)
(** ** The extraction wrapper as [from_binaries] calls it *)
(* ------------------------------------------------------------------ *)

(** C10. Whatever list of binaries the caller gives, [from_binaries] hands
    the builtin [bin] to the extraction wrapper: the wrapper fails to
    unpack it before it looks for the tool, no process is launched, no
    corpus is parsed or returned, and the outcome does not depend on the
    caller's list; given the paths themselves the wrapper does launch the
    tool. *)
Theorem C10_from_binaries_drops_bins (w : World) (bins : list Path)
    (suppression_file : option Path) (show_cmd : bool) (extra_args : list string) :
  ABI.from_binaries w bins suppression_file show_cmd extra_args
  = ([], Raise (TypeError "cannot unpack non-iterable builtin_function_or_method object"))
  /\ runs (log_of (ABI.from_binaries w bins suppression_file show_cmd extra_args)) = 0
  /\ (forall bins', ABI.from_binaries w bins' suppression_file show_cmd extra_args
                    = ABI.from_binaries w bins suppression_file show_cmd extra_args)
  /\ (forall b rest cmd_path, which w "abidw" = Some cmd_path ->
        runs (log_of (abidw w (PyPaths (b :: rest)) suppression_file false extra_args)) = 1).
Proof.
  repeat apply conj; try reflexivity.
  intros b rest cmd_path Hw. unfold abidw. cbn [unpack_head_rest].
  unfold _which_ensure. rewrite Hw. unfold _split_bins_and_dirs.
  cbn -[nodup PyStr.join String.length Nat.ltb].
  reflexivity.
Qed.

(* ------------------------------------------------------------------ *)
(** ** The suppression generator *)
(* ------------------------------------------------------------------ *)

(** C2. The failing input: the library whose corpus declares the class
    [Widget] and the function [widget_free], and a header that declares the
    function [f] only, so that both corpus entities are private and the
    claim asks for a block for each.  The corpus parses and the header
    surface is extracted when they are asked for, but the generator stops
    in its first statement, in [ABI.from_binaries], before the header is
    read and before any name is compared: it raises and returns no text. *)
Theorem C2_generator_stops_before_reconciliation :
  (exists abi,
      ABI.from_root root_complete = ([], Ok abi)
      /\ map ClassDecl.name (ABI.class_decls abi) = ["Widget"]
      /\ ABI.typedef_decls abi = []
      /\ map FunctionDecl.name (ABI.fun_decls abi) = ["widget_free"])
  /\ result_of (ParseHeaders.parse_header world_gcc "widget.h")
     = Ok ([], [ParseHeaders.mkSymbol ParseHeaders.FUNDEF "f"], [])
  /\ Suppress.suppression_for_binaries_from_header
       world_gcc ["/opt/a/lib/libwidget.so"] "widget.h"
     = ([], Raise (TypeError
                     "cannot unpack non-iterable builtin_function_or_method object"))
  /\ runs (log_of (Suppress.suppression_for_binaries_from_header
                     world_gcc ["/opt/a/lib/libwidget.so"] "widget.h")) = 0.
Proof.
  split; [eexists; repeat split; reflexivity|].
  repeat split; reflexivity.
Qed.

(** C9. Each block, as the three [to_suppression] methods build it, is the
    bracketed section header, a line feed and the [name = ...] line
    indented by two spaces, whatever the declaration and the file.  The
    final text of the blocks is never produced: at the failing input of two
    private entities, where the claim asks for the two blocks with a blank
    line between them, the generator raises in its first statement and
    returns no text. *)
Theorem C9_blocks_built_but_never_joined :
  (forall cd file, ClassDecl.to_suppression cd file
                   = "[suppress_type]" +++ PyStr.nl +++ "  name = " +++ ClassDecl.name cd)
  /\ (forall td file, TypedefDecl.to_suppression td file
                      = "[suppress_type]" +++ PyStr.nl +++ "  name = "
                        +++ TypedefDecl.name td)
  /\ (forall fd file, FunctionDecl.to_suppression fd file
                      = "[suppress_function]" +++ PyStr.nl +++ "  name = "
                        +++ FunctionDecl.name fd)
  /\ result_of (Suppress.suppression_for_binaries_from_header
                  world_gcc ["/opt/a/lib/libwidget.so"; "/opt/a/lib/libgadget.so"]
                  "widget.h")
     = Raise (TypeError "cannot unpack non-iterable builtin_function_or_method object").
Proof. repeat split; reflexivity. Qed.

(* ------------------------------------------------------------------ *)
(** ** The corpus parser: what a successful parse implies *)
(* ------------------------------------------------------------------ *)

Lemma get_or_fail_ok xelt attr log v :
  _get_or_fail xelt attr = (log, Ok v) -> has xelt attr.
Proof.
  unfold _get_or_fail, has. destruct (get xelt attr) as [u|]; [eauto|discriminate].
Qed.

Lemma find_or_fail_ok xelt node log e :
  _find_or_fail xelt node = (log, Ok e) -> find xelt node = Some e.
Proof.
  unfold _find_or_fail. destruct (find xelt node) as [u|]; [|discriminate].
  intros H. inversion H. reflexivity.
Qed.

Create HintDb corpus.
#[local] Hint Resolve get_or_fail_ok : corpus.

Lemma mapM_ok_Forall {A B} (f : A -> M B) (P : A -> Prop) l log ys :
  (forall x lg y, f x = (lg, Ok y) -> P x) ->
  mapM f l = (log, Ok ys) -> Forall P l.
Proof.
  intros HP. revert log ys.
  induction l as [|x l IH]; intros log ys H; [constructor|].
  simpl in H. inv_binds_with @bind_ok_inv. constructor; eauto.
Qed.

Lemma as_children_ok_Forall {A} (t : string) (f : Element -> M A)
    (P : Element -> Prop) p log ys :
  (forall x lg y, f x = (lg, Ok y) -> P x) ->
  as_children t f (Some p) = (log, Ok ys) -> Forall P (findall p t).
Proof.
  intros HP. unfold as_children, truthy, findall.
  destruct (children p) as [|c cs] eqn:E.
  - intros _. constructor.
  - intros H. eapply mapM_ok_Forall; eauto.
Qed.

Lemma symbol_ok e log v :
  Symbol.from_xmlelt e = (log, Ok v) -> symbol_complete e.
Proof.
  unfold Symbol.from_xmlelt. intros H. inv_binds_with @bind_ok_inv.
  unfold symbol_complete. eauto 10 with corpus.
Qed.

Lemma var_decl_ok e log v :
  VarDecl.from_xmlelt e = (log, Ok v) -> var_decl_complete e.
Proof.
  unfold VarDecl.from_xmlelt. intros H. inv_binds_with @bind_ok_inv.
  unfold var_decl_complete. eauto 10 with corpus.
Qed.

Lemma type_decl_ok e log v :
  TypeDecl.from_xmlelt e = (log, Ok v) -> type_decl_complete e.
Proof.
  unfold TypeDecl.from_xmlelt. intros H. inv_binds_with @bind_ok_inv.
  unfold type_decl_complete. eauto 10 with corpus.
Qed.

Lemma function_decl_ok e log v :
  FunctionDecl.from_xmlelt e = (log, Ok v) -> function_decl_complete e.
Proof.
  unfold FunctionDecl.from_xmlelt. intros H. inv_binds_with @bind_ok_inv.
  unfold function_decl_complete. split; [eauto with corpus|].
  match goal with
  | Hf : _find_or_fail e "return" = (_, Ok ?r) |- _ =>
      exists r; split; [exact (find_or_fail_ok _ _ Hf) | eauto with corpus]
  end.
Qed.

Lemma typedef_decl_ok e log v :
  TypedefDecl.from_xmlelt e = (log, Ok v) -> typedef_decl_complete e.
Proof.
  unfold TypedefDecl.from_xmlelt. intros H. inv_binds_with @bind_ok_inv.
  unfold typedef_decl_complete. eauto 10 with corpus.
Qed.

Lemma data_member_ok e log v :
  DataMember.from_xmlelt e = (log, Ok v) -> data_member_complete e.
Proof.
  unfold DataMember.from_xmlelt. intros H. inv_binds_with @bind_ok_inv.
  unfold data_member_complete.
  split; [eauto with corpus|]. split; [eauto with corpus|].
  change VarDecl.abixml_tag with "var-decl" in *.
  change FunctionDecl.abixml_tag with "function-decl" in *.
  destruct (find e "var-decl") as [vx|].
  - inv_binds_with @bind_ok_inv. eapply var_decl_ok; eauto.
  - inv_binds_with @bind_ok_inv.
    match goal with
    | Hf : _find_or_fail e "function-decl" = (_, Ok ?r) |- _ =>
        exists r; split; [exact (find_or_fail_ok _ _ Hf) | eapply function_decl_ok; eauto]
    end.
Qed.

Lemma class_decl_ok e log v :
  ClassDecl.from_xmlelt e = (log, Ok v) -> class_decl_complete e.
Proof.
  unfold ClassDecl.from_xmlelt. intros H. inv_binds_with @bind_ok_inv.
  unfold class_decl_complete.
  repeat (split; [eauto with corpus|]).
  match goal with
  | Hd : DataMember.as_children _ = _ |- _ =>
      eapply as_children_ok_Forall in Hd; [exact Hd | apply data_member_ok]
  end.
Qed.

Lemma visit_instr_ok acc e log ds :
  ABI.visit_instr acc e = (log, Ok ds) -> abi_instr_complete e.
Proof.
  unfold ABI.visit_instr. intros H. inv_binds_with @bind_ok_inv.
  unfold abi_instr_complete.
  repeat match goal with
         | Hd : _ (Some e) = (_, Ok _) |- _ =>
             eapply as_children_ok_Forall in Hd;
             [| first [ apply type_decl_ok | apply class_decl_ok
                      | apply function_decl_ok | apply typedef_decl_ok
                      | apply var_decl_ok ] ]
         end.
  auto.
Qed.

Lemma visit_instrs_ok roots acc log ds :
  ABI.visit_instrs acc roots = (log, Ok ds) -> Forall abi_instr_complete roots.
Proof.
  revert acc log. induction roots as [|r roots IH]; intros acc log H; [constructor|].
  simpl in H. inv_binds_with @bind_ok_inv. constructor; [eapply visit_instr_ok | eapply IH]; eauto.
Qed.

Lemma from_root_ok root log abi :
  ABI.from_root root = (log, Ok abi) -> corpus_complete root.
Proof.
  unfold ABI.from_root. intros H. inv_binds_with @bind_ok_inv.
  unfold corpus_complete.
  split; [eauto with corpus|].
  split.
  { match goal with
    | Hf : _find_or_fail root _ = (_, Ok ?r) |- _ =>
        exists r; split; [exact (find_or_fail_ok _ _ Hf)|]
    end.
    match goal with
    | Hd : Symbol.as_children (Some _) = _ |- _ =>
        eapply as_children_ok_Forall in Hd; [exact Hd | apply symbol_ok]
    end. }
  split.
  { intros vs Hvs.
    match goal with
    | Hd : Symbol.as_children (find root _) = _ |- _ =>
        rewrite Hvs in Hd;
        eapply as_children_ok_Forall in Hd; [exact Hd | apply symbol_ok]
    end. }
  eapply visit_instrs_ok; eauto.
Qed.

Lemma from_xml_from_root w xml_str root :
  fromstring w xml_str = Ok root -> ABI.from_xml w xml_str = ABI.from_root root.
Proof.
  intros H. unfold ABI.from_xml, lift. rewrite H. unfold bind.
  now destruct (ABI.from_root root).
Qed.

(** C8, as the code has it. When the corpus text lacks a required attribute
    or a required child element the parse ends in an error and yields no
    corpus; the error raised for a missing attribute carries the attribute
    name and the names of the attributes the element does have, and the
    error raised for a missing child carries the child's tag name and the
    parent element. *)
Theorem C8_missing_required_is_fatal (w : World) (xml_str : string) (root : Element) :
  fromstring w xml_str = Ok root ->
  ~ corpus_complete root ->
  (exists log e, ABI.from_xml w xml_str = (log, Raise e))
  /\ (forall log abi, ABI.from_xml w xml_str <> (log, Ok abi))
  /\ (forall xelt attr, get xelt attr = None ->
        _get_or_fail xelt attr = ([], Raise (AttributeError_keys attr (keys xelt))))
  /\ (forall xelt node, find xelt node = None ->
        _find_or_fail xelt node = ([], Raise (AttributeError_elem node xelt))).
Proof.
  intros Hroot Hmissing. rewrite (from_xml_from_root _ _ Hroot).
  split.
  { destruct (ABI.from_root root) as [log [abi|e]] eqn:E.
    - exfalso. apply Hmissing. eapply from_root_ok; eauto.
    - eauto. }
  split.
  { intros log abi E. apply Hmissing. eapply from_root_ok; eauto. }
  split.
  - intros xelt attr H. unfold _get_or_fail. now rewrite H.
  - intros xelt node H. unfold _find_or_fail. now rewrite H.
Qed.

Lemma nameless_type_incomplete : ~ corpus_complete root_nameless_type.
Proof.
  intros (_ & _ & _ & H).
  inversion H as [|? ? Hi _]; subst.
  destruct Hi as (Ht & _).
  inversion Ht as [|? ? [[v Hv] _] _]; subst.
  discriminate Hv.
Qed.

(** A corpus whose only type declaration has no name. *)
Lemma C8_missing_required_is_fatal_witness :
  fromstring (sample_world run_ok parse_nothing root_nameless_type) "<abi-corpus/>"
  = Ok root_nameless_type
  /\ exists log e,
       ABI.from_xml (sample_world run_ok parse_nothing root_nameless_type) "<abi-corpus/>"
       = (log, Raise e).
Proof.
  split; [reflexivity|].
  exact (proj1 (C8_missing_required_is_fatal
                  (sample_world run_ok parse_nothing root_nameless_type) "<abi-corpus/>"
                  eq_refl nameless_type_incomplete)).
Defined.

(** C8, as stated, fails: a [type-decl] and a [typedef-decl] without a name
    raise one and the same error, which carries the attribute name and the
    attribute names present, and not the tag of the element. *)
Lemma C8_error_does_not_carry_tag :
  ABI.from_root root_nameless_type = ([], Raise (AttributeError_keys "name" ["id"]))
  /\ ABI.from_root root_nameless_typedef = ([], Raise (AttributeError_keys "name" ["id"]))
  /\ _get_or_fail (Elt "type-decl" [("id", "t1")] []) "name"
     = _get_or_fail (Elt "typedef-decl" [("id", "t1")] []) "name".
Proof. repeat split; reflexivity. Qed.

(** The complete sample corpus parses. *)
Example from_root_complete :
  exists abi, ABI.from_root root_complete = ([], Ok abi)
              /\ ABI.type_and_function_names abi = (["Widget"], ["widget_free"]).
Proof. eexists. split; reflexivity. Qed.

(* ------------------------------------------------------------------ *)
(** ** Structural parsing of a header block *)
(* ------------------------------------------------------------------ *)

Lemma result_bind {A B} (m : M A) (k : A -> M B) :
  result_of (bind m k)
  = match result_of m with
    | Ok a => result_of (k a)
    | Raise e => Raise e
    end.
Proof.
  unfold result_of, bind. destruct m as [l [a|e]]; simpl; [|reflexivity].
  now destruct (k a).
Qed.

Lemma log_bind {A B} (m : M A) (k : A -> M B) :
  log_of (bind m k)
  = log_of m ++ match result_of m with
                | Ok a => log_of (k a)
                | Raise e => []
                end.
Proof.
  unfold log_of, result_of, bind. destruct m as [l [a|e]]; simpl.
  - now destruct (k a).
  - now rewrite app_nil_r.
Qed.

Import ParseHeaders.

Lemma parse_type_definition_ok node :
  typedef_shape_ok node -> exists log p, _parse_type_definition node = (log, Ok p).
Proof.
  intros (d & Hd & Hfun & Hptr). unfold _parse_type_definition. rewrite Hd.
  string_cases.
  - destruct Hfun as (c & Hc & Hty); [assumption|]. rewrite Hc, Hty. simpl. ok_now.
  - ok_now.
  - destruct Hptr as (c & Hc); [assumption|]. rewrite Hc. ok_now.
  - ok_now.
Qed.

Lemma parse_declaration_ok node :
  declaration_shape_ok node -> exists log p, _parse_declaration node = (log, Ok p).
Proof.
  intros (d & Hd & Hfun & Hinner). unfold _parse_declaration. rewrite Hd.
  string_cases.
  - destruct Hfun as (c & Hc & Hty); [assumption|]. rewrite Hc, Hty. simpl. ok_now.
  - destruct Hinner as (c & Hc); [auto|]. rewrite Hc. ok_now.
  - ok_now.
  - destruct Hinner as (c & Hc); [auto|]. rewrite Hc. ok_now.
  - ok_now.
Qed.

Lemma parse_node_ok node :
  shape_ok node -> exists log ps, parse_node node = (log, Ok ps).
Proof.
  intros (Ht & Hd & Hs). unfold parse_node. string_cases.
  - destruct (parse_type_definition_ok (Ht ltac:(assumption))) as (l & p & E).
    rewrite E. simpl. ok_now.
  - destruct (parse_declaration_ok (Hd ltac:(assumption))) as (l & p & E).
    rewrite E. simpl. ok_now.
  - destruct (Hs ltac:(assumption)) as (nm & Hnm).
    unfold _parse_struct_specifier. rewrite Hnm. simpl. ok_now.
  - unfold _parse_enum_specifier.
    destruct (child_by_field_name node "name"); simpl; ok_now.
  - ok_now.
  - simpl. ok_now.
Qed.

Lemma parse_nodes_ok nodes :
  Forall shape_ok nodes -> exists log ps, parse_nodes nodes = (log, Ok ps).
Proof.
  induction 1 as [|n nodes Hn _ IH]; simpl.
  - unfold ret. ok_now.
  - destruct (parse_node_ok Hn) as (l1 & ps & E1).
    destruct IH as (l2 & qs & E2). rewrite E1, E2. simpl. ok_now.
Qed.

(** A skipped node adds nothing but [None] to [parsed]. *)
Lemma parse_node_skipped node :
  skipped node -> exists log ps, parse_node node = (log, Ok ps) /\ not_none ps = [].
Proof.
  unfold skipped, terminator, unhandled_top, unhandled_typedef,
    unhandled_declaration, anonymous_enum.
  intros H. unfold parse_node. simpl in H.
  destruct H as [H|[H|[(H & d & Hd & Hn)|[(H & d & Hd & Hn)|(H & Hn)]]]].
  - rewrite H. ok_skip.
  - string_cases; try solve [exfalso; apply H; intuition congruence]. ok_skip.
  - rewrite H. simpl. unfold _parse_type_definition. rewrite Hd.
    simpl in Hn. string_cases; try solve [exfalso; apply Hn; intuition congruence]. ok_skip.
  - rewrite H. simpl. unfold _parse_declaration. rewrite Hd.
    simpl in Hn. string_cases; try solve [exfalso; apply Hn; intuition congruence]. ok_skip.
  - rewrite H. simpl. unfold _parse_enum_specifier. rewrite Hn. ok_skip.
Qed.

(** What is printed for a logged node. *)
Lemma parse_node_logged node msg :
  logged node msg -> In (EvPrint msg) (log_of (parse_node node)).
Proof.
  unfold logged, unhandled_top.
  intros H. unfold parse_node. simpl in H.
  destruct H as [(H & ->)|[(H & d & Hd & Hn & ->)|(H & d & Hd & Hn & ->)]].
  - string_cases; try solve [exfalso; apply H; intuition congruence]. simpl; auto.
  - rewrite H. simpl. unfold _parse_type_definition. rewrite Hd.
    simpl in Hn. string_cases; try solve [exfalso; apply Hn; intuition congruence].
    simpl; auto.
  - rewrite H. simpl. unfold _parse_declaration. rewrite Hd.
    simpl in Hn. string_cases; try solve [exfalso; apply Hn; intuition congruence].
    simpl; auto.
Qed.

Lemma not_none_app ps qs : not_none (ps ++ qs) = not_none ps ++ not_none qs.
Proof.
  induction ps as [|[p|] ps IH]; simpl; [reflexivity | now rewrite IH | exact IH].
Qed.

Lemma parse_cursor_result nodes :
  result_of (parse_cursor nodes)
  = match result_of (parse_nodes nodes) with
    | Ok ps => Ok (not_none ps)
    | Raise e => Raise e
    end.
Proof. unfold parse_cursor. rewrite result_bind. now destruct (result_of _). Qed.

Lemma parse_nodes_app_result l1 l2 :
  result_of (parse_nodes (l1 ++ l2))
  = match result_of (parse_nodes l1) with
    | Raise e => Raise e
    | Ok ps => match result_of (parse_nodes l2) with
               | Raise e => Raise e
               | Ok qs => Ok (ps ++ qs)
               end
    end.
Proof.
  induction l1 as [|n l1 IH]; simpl.
  - now destruct (result_of (parse_nodes l2)).
  - rewrite !result_bind. destruct (result_of (parse_node n)) as [ps|e]; [|reflexivity].
    rewrite !result_bind, IH. destruct (result_of (parse_nodes l1)) as [qs|e]; [|reflexivity].
    destruct (result_of (parse_nodes l2)) as [rs|e]; simpl; [|reflexivity].
    now rewrite app_assoc.
Qed.

Lemma parse_nodes_log nodes n :
  Forall shape_ok nodes -> In n nodes ->
  incl (log_of (parse_node n)) (log_of (parse_nodes nodes)).
Proof.
  induction 1 as [|x nodes Hx Hrest IH]; intros Hin; [destruct Hin|].
  destruct (parse_node_ok Hx) as (l1 & ps & E1).
  destruct (parse_nodes_ok Hrest) as (l2 & qs & E2).
  simpl. rewrite E1, E2. simpl. rewrite app_nil_r.
  destruct Hin as [->|Hin].
  - rewrite E1. simpl. apply incl_appl, incl_refl.
  - specialize (IH Hin). rewrite E2 in IH. simpl in IH. now apply incl_appr.
Qed.

Lemma parse_cursor_skip pre n post :
  skipped n ->
  result_of (parse_cursor (pre ++ n :: post)) = result_of (parse_cursor (pre ++ post)).
Proof.
  intros Hs. destruct (parse_node_skipped Hs) as (ln & sk & En & Hsk).
  rewrite !parse_cursor_result, !parse_nodes_app_result.
  destruct (result_of (parse_nodes pre)) as [ps|e]; [|reflexivity].
  simpl. rewrite result_bind, En. simpl. rewrite result_bind.
  destruct (result_of (parse_nodes post)) as [qs|e]; simpl; [|reflexivity].
  now rewrite !not_none_app, Hsk.
Qed.

(** C5, as the code has it. On the top-level nodes of a block, bare
    terminators are ignored; a top-level node of an unhandled type and a
    typedef or declaration whose declarator has an unhandled type are
    logged and skipped, and an enum without a name is dropped, so that the
    outcome is that of the block without the node.  Parsing returns, and
    raises nothing, when every typedef and declaration has a declarator, a
    function declarator wraps a parenthesized declarator in a typedef and
    an identifier in a declaration, pointer and array declarators have an
    inner declarator and every struct has a name.  A function declarator
    of another shape is stopped by the assertion, which ends the parse with
    an error. *)
Theorem C5_parse_skips_unhandled_shapes (nodes : list Node) :
  Forall shape_ok nodes ->
  (exists log syms, parse_cursor nodes = (log, Ok syms))
  /\ (forall pre n post, nodes = pre ++ n :: post -> skipped n ->
        result_of (parse_cursor nodes) = result_of (parse_cursor (pre ++ post)))
  /\ (forall n msg, In n nodes -> logged n msg ->
        In (EvPrint msg) (log_of (parse_cursor nodes)))
  /\ (forall n d c,
        node_type n = "type_definition" ->
        child_by_field_name n "declarator" = Some d ->
        node_type d = "function_declarator" ->
        child_by_field_name d "declarator" = Some c ->
        node_type c <> "parenthesized_declarator" ->
        parse_node n = ([], Raise (AssertionError EmptyString)))
  /\ (forall n d c,
        node_type n = "declaration" ->
        child_by_field_name n "declarator" = Some d ->
        node_type d = "function_declarator" ->
        child_by_field_name d "declarator" = Some c ->
        node_type c <> "identifier" ->
        parse_node n = ([], Raise (AssertionError ("Got " +++ node_type c)))).
Proof.
  intros Hshape.
  split.
  { destruct (parse_nodes_ok Hshape) as (l & ps & E).
    unfold parse_cursor. rewrite E. simpl. eauto. }
  split.
  { intros pre n post -> Hs. now apply parse_cursor_skip. }
  split.
  { intros n msg Hin Hlog. pose proof (parse_node_logged Hlog) as Hmsg.
    unfold parse_cursor. rewrite log_bind. apply in_or_app. left.
    eapply parse_nodes_log; eauto. }
  split.
  - intros n d c Hn Hd Hdt Hc Hct. unfold parse_node. rewrite Hn. simpl.
    unfold _parse_type_definition. rewrite Hd, Hdt. simpl. rewrite Hc.
    apply String.eqb_neq in Hct. now rewrite Hct.
  - intros n d c Hn Hd Hdt Hc Hct. unfold parse_node. rewrite Hn. simpl.
    unfold _parse_declaration. rewrite Hd, Hdt. simpl. rewrite Hc.
    apply String.eqb_neq in Hct. now rewrite Hct.
Qed.

Lemma nodes_sample_shape_ok : Forall shape_ok nodes_sample.
Proof.
  unfold nodes_sample.
  repeat apply Forall_cons; try apply Forall_nil;
    (split; [|split]; intros H; try discriminate H).
  - eexists. split; [reflexivity|].
    split; [intros _; eexists; split; reflexivity | intros [E|E]; discriminate E].
  - eexists. split; [reflexivity|]. split; intros E; discriminate E.
  - eexists. reflexivity.
Qed.

(** The sample block parses to the declared function and the named struct;
    the function body and the array typedef are logged. *)
Lemma C5_parse_skips_unhandled_shapes_witness :
  (exists log syms, parse_cursor nodes_sample = (log, Ok syms))
  /\ parse_cursor nodes_sample
     = ([EvPrint "Unhandled node: function_definition";
         EvPrint "Unhandled declarator in _parse_type_definition: array_declarator"],
        Ok [mkSymbol FUNDEF "f"; mkSymbol STRUCTDEF "foo"]).
Proof.
  split.
  - exact (proj1 (C5_parse_skips_unhandled_shapes nodes_sample_shape_ok)).
  - reflexivity.
Defined.

(** C5, as stated, fails: the typedef of a function type is not skipped, it
    stops the parse of the block, and the declaration after it, which
    parses on its own, is lost with it. *)
Lemma C5_function_typedef_raises :
  parse_tree (tree_of [node_typedef_fn; node_decl_f])
  = ([], Raise (AssertionError EmptyString))
  /\ parse_tree (tree_of [node_decl_f]) = ([], Ok [mkSymbol FUNDEF "f"]).
Proof. split; reflexivity. Qed.

(** On the samples: a struct without a name raises and the declaration after it is
    lost, where an enum without a name is dropped and the declaration after
    it is extracted. *)
Example anonymous_struct_raises :
  parse_tree (tree_of [node_struct_anon; node_decl_f])
  = ([], Raise (AttributeError_None "text"))
  /\ parse_tree (tree_of [node_enum_anon; node_decl_f])
     = ([], Ok [mkSymbol FUNDEF "f"]).
Proof. split; reflexivity. Qed.

(* ------------------------------------------------------------------ *)
(** ** Header blocks: partition and filter *)
(* ------------------------------------------------------------------ *)

Lemma system_flag_In fl :
  existsb (flag_eqb SYSTEM_FILE) fl = true <-> In SYSTEM_FILE fl.
Proof.
  rewrite existsb_exists. split.
  - intros [x [Hx E]]. destruct x; try discriminate E. exact Hx.
  - intros H. exists SYSTEM_FILE. auto.
Qed.

Lemma empty_text_length (s : string) : (0 <? String.length s) = false <-> s = EmptyString.
Proof.
  destruct s; simpl; split; intros H; try reflexivity; discriminate H.
Qed.

Lemma kept_false_iff b : kept b = false <-> discarded b.
Proof.
  unfold kept, discarded. rewrite andb_false_iff, negb_false_iff.
  rewrite system_flag_In, empty_text_length. tauto.
Qed.

Lemma kept_true_iff b : kept b = true <-> ~ discarded b.
Proof.
  rewrite <- kept_false_iff. destruct (kept b); split; congruence.
Qed.

Lemma filter_drop_discarded bs1 b bs2 :
  discarded b -> filter kept (bs1 ++ b :: bs2) = filter kept (bs1 ++ bs2).
Proof.
  intros H. apply kept_false_iff in H. rewrite !filter_app. simpl. now rewrite H.
Qed.

Lemma in_separate_one acc s x :
  In x (all_symbols (separate_one acc s)) <-> In x (all_symbols acc) \/ x = s.
Proof.
  destruct acc as [[t f] v]. unfold separate_one, all_symbols.
  destruct (stype s); rewrite !in_app_iff; simpl; intuition auto.
Qed.

Lemma in_separate_symbols syms acc x :
  In x (all_symbols (_separate_symbols acc syms))
  <-> In x (all_symbols acc) \/ In x syms.
Proof.
  unfold _separate_symbols. revert acc.
  induction syms as [|s syms IH]; intros acc; simpl.
  - tauto.
  - rewrite IH, in_separate_one. intuition auto.
Qed.

Lemma parse_kept_blocks_origin w bs acc log sf x :
  parse_kept_blocks w acc bs = (log, Ok sf) ->
  In x (all_symbols sf) ->
  In x (all_symbols acc)
  \/ exists b lg syms, In b bs /\ parse w b = (lg, Ok syms) /\ In x syms.
Proof.
  revert acc log. induction bs as [|b bs IH]; intros acc log H Hx; simpl in H.
  - inversion H; subst. now left.
  - apply bind_ok_inv in H. destruct H as (l1 & syms & l2 & Hp & Hk & _).
    destruct (IH _ _ Hk Hx) as [Hacc|(b' & lg & syms' & Hb & Hp' & Hin)].
    + apply in_separate_symbols in Hacc. destruct Hacc as [Hacc|Hs]; [now left|].
      right. exists b, l1, syms. simpl. auto.
    + right. exists b', lg, syms'. simpl. auto.
Qed.

Lemma parse_header_text_blocks w header_text blocks :
  _parse_blocks header_text = ([], Ok blocks) ->
  parse_header_text w header_text
  = parse_kept_blocks w ([], [], []) (filter kept blocks).
Proof.
  intros H. unfold parse_header_text. rewrite H. unfold bind.
  now destruct (parse_kept_blocks w ([], [], []) (filter kept blocks)).
Qed.

(** Lines that are no markers are collected into the current block. *)
Lemma parse_blocks_body body rest h acc :
  Forall (fun line => PyStr.startswith "#" line = false) body ->
  parse_blocks_lines (body ++ rest) h acc
  = parse_blocks_lines rest h (acc ++ source_lines body).
Proof.
  intros Hb. revert acc. induction Hb as [|line body Hl _ IH]; intros acc; simpl.
  - now rewrite app_nil_r.
  - rewrite Hl.
    destruct (negb (PyStr.isspace line || (String.length line =? 0))).
    + rewrite IH, <- app_assoc. reflexivity.
    + apply IH.
Qed.

Lemma parse_blocks_last body h acc :
  Forall (fun line => PyStr.startswith "#" line = false) body ->
  parse_blocks_lines body (Some h) acc = ret [block_of h (acc ++ source_lines body)].
Proof.
  intros Hb. rewrite <- (app_nil_r body) at 1.
  now rewrite (parse_blocks_body _ _ _ Hb).
Qed.

Lemma parse_blocks_two m1 body1 m2 body2 h1 h2 :
  PyStr.startswith "#" m1 = true ->
  PyStr.startswith "#" m2 = true ->
  Forall (fun line => PyStr.startswith "#" line = false) body1 ->
  Forall (fun line => PyStr.startswith "#" line = false) body2 ->
  _parse_file_line m1 = ([], Ok h1) ->
  _parse_file_line m2 = ([], Ok h2) ->
  parse_blocks_lines (m1 :: body1 ++ m2 :: body2) None []
  = ([], Ok [block_of h1 (source_lines body1); block_of h2 (source_lines body2)]).
Proof.
  intros Hm1 Hm2 Hb1 Hb2 Hp1 Hp2.
  cbn [parse_blocks_lines]. rewrite Hm1, Hp1. cbn [bind app].
  rewrite (parse_blocks_body _ _ _ Hb1). cbn [app parse_blocks_lines].
  rewrite Hm2, Hp2. cbn [bind app].
  rewrite (parse_blocks_last _ _ Hb2).
  reflexivity.
Qed.

Lemma surface_of_kept_singleton w b :
  ~ In SYSTEM_FILE (flags b) ->
  parse_kept_blocks w ([], [], []) (filter kept [b]) = surface_of_block w b.
Proof.
  intros Hns. unfold surface_of_block, kept. cbn [filter].
  destruct (0 <? String.length (text b)); [|reflexivity].
  destruct (existsb (flag_eqb SYSTEM_FILE) (flags b)) eqn:E.
  - apply system_flag_In in E. contradiction.
  - cbn [negb andb parse_kept_blocks]. unfold bind.
    destruct (parse w b) as [l [syms|e]]; [|reflexivity].
    simpl. now rewrite app_nil_r.
Qed.

Lemma run_preproc_result w header_file result :
  run w ["gcc"; "-E"; header_file] = Ok result ->
  returncode result = 0%Z ->
  result_of (parse_header w header_file)
  = result_of (parse_header_text w (stdout result)).
Proof.
  intros Hrun Hrc. unfold parse_header. rewrite result_bind.
  replace (result_of (run_preproc w header_file)) with (Ok (stdout result));
    [reflexivity|].
  unfold run_preproc, bind, emit, lift. cbv zeta. unfold Path.
  rewrite Hrun, Hrc. reflexivity.
Qed.

(** C4. Of the blocks the preprocessed text is split into at its marker
    lines, a block that carries the system-header flag (3) or whose text is
    empty once blank lines are dropped contributes nothing: the extracted
    surface is the one obtained without the block, and every symbol of the
    surface was parsed from a block that is neither.  In particular, for a
    text with one marker that carries the system flag and one that does
    not, in either order, the three symbol lists are those of the
    non-system block alone. *)
Theorem C4_discarded_blocks_contribute_nothing (w : World) (header_text : string)
    (blocks : list HeaderBlock) :
  _parse_blocks header_text = ([], Ok blocks) ->
  (forall bs1 b bs2, blocks = bs1 ++ b :: bs2 -> discarded b ->
     parse_header_text w header_text
     = parse_kept_blocks w ([], [], []) (filter kept (bs1 ++ bs2)))
  /\ (forall log sf x,
        parse_header_text w header_text = (log, Ok sf) -> In x (all_symbols sf) ->
        exists b lg syms,
          In b blocks /\ ~ discarded b /\ parse w b = (lg, Ok syms) /\ In x syms)
  /\ (forall m_sys body_sys h_sys m_usr body_usr h_usr,
        PyStr.split_nl header_text = m_sys :: body_sys ++ m_usr :: body_usr
        \/ PyStr.split_nl header_text = m_usr :: body_usr ++ m_sys :: body_sys ->
        PyStr.startswith "#" m_sys = true ->
        PyStr.startswith "#" m_usr = true ->
        Forall (fun line => PyStr.startswith "#" line = false) body_sys ->
        Forall (fun line => PyStr.startswith "#" line = false) body_usr ->
        _parse_file_line m_sys = ([], Ok h_sys) ->
        _parse_file_line m_usr = ([], Ok h_usr) ->
        In SYSTEM_FILE (snd h_sys) ->
        ~ In SYSTEM_FILE (snd h_usr) ->
        parse_header_text w header_text
        = surface_of_block w (block_of h_usr (source_lines body_usr)))
  /\ (forall header_file result,
        run w ["gcc"; "-E"; header_file] = Ok result ->
        returncode result = 0%Z ->
        stdout result = header_text ->
        result_of (parse_header w header_file)
        = result_of (parse_header_text w header_text)).
Proof.
  intros Hblocks.
  split.
  { intros bs1 b bs2 -> Hd.
    rewrite (parse_header_text_blocks w _ Hblocks).
    now rewrite filter_drop_discarded. }
  split.
  { intros log sf x Hp Hx.
    rewrite (parse_header_text_blocks w _ Hblocks) in Hp.
    destruct (@parse_kept_blocks_origin _ _ _ _ _ _ Hp Hx)
      as [[]|(b & lg & syms & Hb & Hpb & Hin)].
    apply filter_In in Hb. destruct Hb as [Hb Hk].
    exists b, lg, syms. rewrite <- kept_true_iff. auto. }
  split.
  2:{ intros header_file result Hrun Hrc Hout.
      rewrite (run_preproc_result w header_file Hrun Hrc). now rewrite Hout. }
  intros m_sys body_sys h_sys m_usr body_usr h_usr Hsplit Hms Hmu Hbs Hbu Hps Hpu Hsys Husr.
  assert (Hk : kept (block_of h_sys (source_lines body_sys)) = false)
    by (apply kept_false_iff; left; exact Hsys).
  destruct Hsplit as [Hsplit|Hsplit].
  - rewrite (parse_header_text_blocks w header_text
               (blocks := [block_of h_sys (source_lines body_sys);
                           block_of h_usr (source_lines body_usr)])).
    + replace (filter kept [block_of h_sys (source_lines body_sys);
                              block_of h_usr (source_lines body_usr)])
        with (filter kept [block_of h_usr (source_lines body_usr)])
        by (cbn [filter]; now rewrite Hk).
      now apply surface_of_kept_singleton.
    + unfold _parse_blocks. rewrite Hsplit. now apply parse_blocks_two.
  - rewrite (parse_header_text_blocks w header_text
               (blocks := [block_of h_usr (source_lines body_usr);
                           block_of h_sys (source_lines body_sys)])).
    + replace (filter kept [block_of h_usr (source_lines body_usr);
                              block_of h_sys (source_lines body_sys)])
        with (filter kept [block_of h_usr (source_lines body_usr)])
        by (cbn [filter]; now rewrite Hk).
      now apply surface_of_kept_singleton.
    + unfold _parse_blocks. rewrite Hsplit. now apply parse_blocks_two.
Qed.

(** The sample header: the declaration of the system block is left out,
    the one of the header's own block is extracted, by the removal of the
    system block and by the scenario of the two markers alike. *)
Lemma C4_discarded_blocks_contribute_nothing_witness :
  _parse_blocks text_two_blocks = ([], Ok [block_stdio; block_widget])
  /\ parse_header_text world_gcc text_two_blocks
     = ([], Ok ([], [mkSymbol FUNDEF "f"], []))
  /\ parse_header_text world_gcc text_two_blocks = surface_of_block world_gcc block_widget
  /\ result_of (parse_header world_gcc "widget.h")
     = Ok ([], [mkSymbol FUNDEF "f"], []).
Proof.
  split; [reflexivity|].
  destruct (C4_discarded_blocks_contribute_nothing world_gcc
              text_two_blocks (blocks := [block_stdio; block_widget]) eq_refl)
    as (Hdrop & _ & Htwo & Hpre).
  split; [|split].
  - refine (eq_trans (Hdrop [] block_stdio [block_widget] eq_refl _) eq_refl).
    left. simpl. auto.
  - refine (Htwo (marker "1" "/usr/include/stdio.h" " 1 3") ["int printf();"; ""]
                 ("/usr/include/stdio.h", [NEW_FILE; SYSTEM_FILE])
                 (marker "2" "widget.h" " 2") ["int f(void);"; ""]
                 ("widget.h", [RETURNING_FILE])
                 (or_introl eq_refl) eq_refl eq_refl _ _ eq_refl eq_refl _ _).
    + repeat constructor.
    + repeat constructor.
    + simpl. auto.
    + simpl. intuition discriminate.
  - exact (eq_trans (Hpre "widget.h" _ eq_refl eq_refl eq_refl) eq_refl).
Defined.

(** Without the filter the system declaration would be there: the parser
    of the sample does read it. *)
Example system_block_parses :
  parse world_gcc block_stdio
  = ([], Ok [mkSymbol FUNDEF "printf"]).
Proof. reflexivity. Qed.

(* ------------------------------------------------------------------ *)
(** ** The cross-product sweep *)
(* ------------------------------------------------------------------ *)

Lemma for_each_app {A} (l1 l2 : list A) (body : A -> M unit) :
  for_each (l1 ++ l2) body = (for_each l1 body ;;; for_each l2 body).
Proof.
  induction l1 as [|x l1 IH]; simpl.
  - unfold bind, ret. destruct (for_each l2 body) as [l r]. reflexivity.
  - rewrite IH. unfold bind.
    destruct (body x) as [lx [[]|e]]; [|reflexivity].
    destruct (for_each l1 body) as [l1' [[]|e]].
    + destruct (for_each l2 body) as [l2' r]. now rewrite app_assoc.
    + reflexivity.
Qed.

Lemma for_each_raise {A} (x : A) (rest : list A) (body : A -> M unit) log e :
  body x = (log, Raise e) -> for_each (x :: rest) body = (log, Raise e).
Proof. intros H. simpl. now rewrite H. Qed.

Lemma for_each_stops {A} (pre post : list A) (p : A) (body : A -> M unit) log e :
  body p = (log, Raise e) ->
  for_each (pre ++ p :: post) body = for_each (pre ++ [p]) body.
Proof.
  intros H. rewrite !for_each_app.
  now rewrite (@for_each_raise _ _ post _ _ _ H), (@for_each_raise _ _ [] _ _ _ H).
Qed.

Import DiffProductCmd.

(** X3. The test [returncode & USAGE_ERROR == 1] of [diff_specs] holds for no
    exit code: the masked value is 0 or 2. *)
Lemma usage_error_test_never_holds (rc : Z) :
  (Z.land rc DiffExitCode.USAGE_ERROR =? 1)%Z = false.
Proof.
  change DiffExitCode.USAGE_ERROR with (2 ^ 1)%Z.
  rewrite land_pow2 by lia. now destruct (Z.testbit rc 1).
Qed.

(** C6, as the code has it. Once the output file, when one is named, has
    been opened, the pairs are handled one after another in the order the
    comparator built them, and an error raised while a pair is handled (a
    failing process launch or any other per-pair error) is not captured:
    the sweep ends with an error at the first such pair, the pairs after
    it are not compared and nothing is reported for them.  When the output
    file cannot be opened, the sweep ends with that error before any pair
    is handled. *)
Theorem C6_raised_error_ends_sweep (w : World) (output_format : string)
    (output_file : option string) (specs : list (Spec * Spec))
    (pre post : list ((Spec * Spec) * (Spec * Spec)))
    (p : (Spec * Spec) * (Spec * Spec)) (log : list event) (e : exn) :
  cross_product_self specs = pre ++ p :: post ->
  compare_pair w output_format (nonempty_opt output_file) p = (log, Raise e) ->
  (output_opens w output_file = true ->
   (exists log' e',
       for_each (pre ++ [p]) (compare_pair w output_format (nonempty_opt output_file))
       = (log', Raise e')
       /\ cmd w output_format output_file specs = (opened output_file ++ log', Raise e'))
   /\ (forall log_pre,
         for_each pre (compare_pair w output_format (nonempty_opt output_file))
         = (log_pre, Ok tt) ->
         cmd w output_format output_file specs
         = (opened output_file ++ log_pre ++ log, Raise e)))
  /\ (forall f e0, nonempty_opt output_file = Some f -> open_write w f = Raise e0 ->
      cmd w output_format output_file specs = ([], Raise e0)).
Proof.
  intros Hsplit Hp. split.
  - intros Hopen.
    assert (Hcmd : cmd w output_format output_file specs
                   = let '(l, r) := for_each (pre ++ [p])
                                      (compare_pair w output_format
                                                    (nonempty_opt output_file)) in
                     (opened output_file ++ l,
                      match r with Ok _ => Ok tt | Raise e' => Raise e' end)).
    { assert (Hr : exists l e', for_each (pre ++ [p])
                     (compare_pair w output_format (nonempty_opt output_file))
                   = (l, Raise e')).
      { rewrite for_each_app, (@for_each_raise _ _ [] _ _ _ Hp).
        unfold bind. destruct (for_each pre _) as [l [[]|e']]; eauto. }
      destruct Hr as (l & e' & Hr).
      pose proof (@for_each_stops _ pre post _ _ _ _ Hp) as Hstop.
      unfold cmd, opened, output_opens in *. cbv zeta. rewrite Hsplit.
      destruct (nonempty_opt output_file) as [f|].
      - destruct (open_write w f) as [[]|e0]; [|discriminate Hopen].
        cbn [lift bind emit ret app]. rewrite Hstop, Hr. reflexivity.
      - cbn [bind ret app]. rewrite Hstop, Hr. reflexivity. }
    split.
    + rewrite for_each_app, (@for_each_raise _ _ [] _ _ _ Hp) in Hcmd |- *.
      unfold bind in Hcmd |- *.
      destruct (for_each pre _) as [l [[]|e']]; do 2 eexists; (split; [reflexivity|]);
        exact Hcmd.
    + intros log_pre Hpre.
      rewrite for_each_app, (@for_each_raise _ _ [] _ _ _ Hp), Hpre in Hcmd.
      exact Hcmd.
  - intros f e0 Hf He0. unfold cmd. cbv zeta. rewrite Hf, He0. reflexivity.
Qed.

(** The launch of the first comparison fails: the sweep over six pairs
    ends there, after the output file was opened; with an output file that
    cannot be opened nothing is launched at all. *)
Lemma C6_raised_error_ends_sweep_witness :
  List.length (cross_product_self specs3) = 6
  /\ cmd world_fail_a_b "raw" (Some "out.txt") specs3
     = ([EvOpen "out.txt";
         EvRun ["/usr/bin/abidiff"; "/opt/a/lib/liba.so"; "/opt/b/lib/libb.so"]],
        Raise (ExternalError "OSError: cannot launch abidiff"))
  /\ cmd world_no_output "raw" (Some "/out.txt") specs3
     = ([], Raise (ExternalError "PermissionError: cannot open the output file")).
Proof.
  split; [reflexivity|]. split.
  - exact (proj2 (proj1 (@C6_raised_error_ends_sweep world_fail_a_b "raw"
                           (Some "out.txt") specs3
                           [] (tl (cross_product_self specs3))
                           ((spec_a, spec_a), (spec_b, spec_b)) _ _
                           eq_refl eq_refl) eq_refl) [] eq_refl).
  - exact (proj2 (@C6_raised_error_ends_sweep world_no_output "raw"
                    (Some "/out.txt") specs3
                    [] (tl (cross_product_self specs3))
                    ((spec_a, spec_a), (spec_b, spec_b)) _ _
                    eq_refl eq_refl) "/out.txt" _ eq_refl eq_refl).
Defined.

(** C6, as stated, fails: with three specs there are six pairs; the launch
    of the comparison tool fails for the first pair only, and the sweep
    ends with that error after one launch, the five other pairs never
    compared. *)
Lemma C6_failing_pair_aborts_sweep :
  List.length (cross_product_self specs3) = 6
  /\ result_of (cmd world_fail_a_b "raw" None specs3)
     = Raise (ExternalError "OSError: cannot launch abidiff")
  /\ runs (log_of (cmd world_fail_a_b "raw" None specs3)) = 1
  /\ run_fail_a_b ["/usr/bin/abidiff"; "/opt/a/lib/liba.so"; "/opt/c/lib/libc.so"]
     = run_ok [].
Proof. repeat split; reflexivity. Qed.

(** X1. The handling of a pair never completes and never reaches the
    classification or the rendering of the loop: it does what [diff_specs]
    does on the two concretized specs and nothing more.  When [diff_specs]
    raises, the same error leaves the loop body; when it returns, its
    result [None] cannot be unpacked and [TypeError] is raised.  So the
    outcome depends neither on the output format nor on the output file,
    and nothing is written to the output file. *)
Lemma compare_pair_never_completes (w : World) (output_format : string)
    (outfile : option string) (u1 c1 u2 c2 : Spec) :
  (forall log e,
      Diff.diff_specs w c1 c2 None None None None false [] = (log, Raise e) ->
      compare_pair w output_format outfile ((u1, c1), (u2, c2)) = (log, Raise e))
  /\ (forall log,
        Diff.diff_specs w c1 c2 None None None None false [] = (log, Ok tt) ->
        compare_pair w output_format outfile ((u1, c1), (u2, c2))
        = (log, Raise (TypeError "cannot unpack non-iterable NoneType object")))
  /\ (exists e,
        compare_pair w output_format outfile ((u1, c1), (u2, c2))
        = (log_of (Diff.diff_specs w c1 c2 None None None None false []), Raise e))
  /\ (forall output_format' outfile' u1' u2',
        compare_pair w output_format' outfile' ((u1', c1), (u2', c2))
        = compare_pair w output_format outfile ((u1, c1), (u2, c2))).
Proof.
  unfold compare_pair.
  destruct (Diff.diff_specs w c1 c2 None None None None false [])
    as [l [[]|e]] eqn:E; cbn [bind unpack_none raise log_of fst app].
  - rewrite app_nil_r. repeat split.
    + intros log e H. discriminate H.
    + intros log H. now inversion H.
    + eexists. reflexivity.
  - repeat split.
    + intros log e' H. now inversion H.
    + intros log H. discriminate H.
    + eexists. reflexivity.
Qed.

(** With every tool at hand and every comparison without a difference, the
    sweep still ends at the first pair. *)
Example sweep_with_all_tools_fine :
  cmd world_ok "raw" None specs3
  = ([EvRun ["/usr/bin/abidiff"; "/opt/a/lib/liba.so"; "/opt/b/lib/libb.so"];
      EvPrint EmptyString; EvPrint EmptyString],
     Raise (TypeError "cannot unpack non-iterable NoneType object")).
Proof. reflexivity. Qed.

(** The wrapper on the caller's own list launches the tool; through
    [from_binaries] nothing is launched. *)
Lemma C10_from_binaries_drops_bins_witness :
  runs (log_of (abidw world_ok (PyPaths ["/opt/a/lib/liba.so"]) None false [])) = 1
  /\ runs (log_of (ABI.from_binaries world_ok ["/opt/a/lib/liba.so"] None false [])) = 0.
Proof.
  split.
  - exact (proj2 (proj2 (proj2
      (C10_from_binaries_drops_bins world_ok ["/opt/a/lib/liba.so"] None false [])))
      "/opt/a/lib/liba.so" [] "/usr/bin/abidw" eq_refl).
  - exact (proj1 (proj2
      (C10_from_binaries_drops_bins world_ok ["/opt/a/lib/liba.so"] None false []))).
Defined.

(* ------------------------------------------------------------------ *)
(** ** The wrappers of the external tools *)
(* ------------------------------------------------------------------ *)

Lemma for_each_print {A} (f : A -> string) (l : list A) :
  for_each l (fun a => print (f a)) = (map (fun a => EvPrint (f a)) l, Ok tt).
Proof.
  induction l as [|a l IH]; [reflexivity|].
  simpl. rewrite IH. reflexivity.
Qed.

(** X4. [print_cmd] on a command of n arguments prints n + 2 lines: a line
    of dashes, the command, every further argument indented by two spaces
    in order, and a line of dashes; on the empty list it raises
    [IndexError] and prints nothing. *)
Theorem print_cmd_output (args : list string) :
  match args with
  | [] => print_cmd args = ([], Raise (IndexError "list index out of range"))
  | cmd :: rest =>
      print_cmd args
      = (EvPrint "---------------" :: EvPrint cmd
           :: map (fun a => EvPrint ("  " +++ a)) rest ++ [EvPrint "---------------"],
         Ok tt)
      /\ List.length (log_of (print_cmd args)) = List.length args + 2
  end.
Proof.
  destruct args as [|cmd rest]; [reflexivity|].
  assert (E : print_cmd (cmd :: rest)
              = (EvPrint "---------------" :: EvPrint cmd
                   :: map (fun a => EvPrint ("  " +++ a)) rest
                   ++ [EvPrint "---------------"], Ok tt)).
  { unfold print_cmd. rewrite (for_each_print (fun a => "  " +++ a)). reflexivity. }
  split; [exact E|].
  rewrite E. cbn [log_of fst List.length]. rewrite length_app, length_map.
  simpl. lia.
Qed.

(** X5. [_split_bins_and_dirs] returns the file names joined by commas and
    the parent directories without repetition: a directory is listed
    exactly when it is the parent of one of the binaries, and the empty
    list gives the empty string and no directory. *)
Theorem split_bins_and_dirs_spec (w : World) (raw_bins : list Path) :
  fst (_split_bins_and_dirs w raw_bins) = PyStr.join "," (map (path_name w) raw_bins)
  /\ NoDup (snd (_split_bins_and_dirs w raw_bins))
  /\ (forall d, In d (snd (_split_bins_and_dirs w raw_bins))
                <-> exists p, In p raw_bins /\ path_parent w p = d)
  /\ List.length (snd (_split_bins_and_dirs w raw_bins)) <= List.length raw_bins
  /\ _split_bins_and_dirs w [] = (EmptyString, []).
Proof.
  unfold _split_bins_and_dirs. cbn [fst snd].
  split; [reflexivity|].
  split; [apply NoDup_nodup|].
  split.
  { intros d. rewrite nodup_In, in_map_iff.
    split; intros [p [H1 H2]]; exists p; auto. }
  split; [|reflexivity].
  rewrite <- (length_map (path_parent w) raw_bins).
  apply NoDup_incl_length; [apply NoDup_nodup|].
  intros x Hx. now apply nodup_In in Hx.
Qed.






(** X7. [abidiff] and [abidw] fail before any process is launched, and
    print nothing, when the tool is not found ([RuntimeError]) or a list
    of binaries is empty: [abidiff] looks for the tool first and then
    raises [IndexError] on an empty list, [abidw] unpacks its list first
    and raises [ValueError] on an empty one even when the tool is
    missing. *)
Theorem tool_wrappers_fail_before_launch (w : World) (bins1 bins2 : list Path)
    (suppression_file : option Path) (show_cmd : bool) (extra_args : list string) :
  which w "abidiff" = None \/ bins1 = [] \/ bins2 = [] ->
  log_of (abidiff w bins1 bins2 suppression_file show_cmd extra_args) = []
  /\ (exists e, result_of (abidiff w bins1 bins2 suppression_file show_cmd extra_args)
                = Raise e)
  /\ (which w "abidiff" = None ->
      abidiff w bins1 bins2 suppression_file show_cmd extra_args
      = ([], Raise (RuntimeError "Unable to find `abidiff` executable in PATH")))
  /\ (which w "abidiff" <> None ->
      abidiff w bins1 bins2 suppression_file show_cmd extra_args
      = ([], Raise (IndexError "list index out of range")))
  /\ abidw w (PyPaths []) suppression_file show_cmd extra_args
     = ([], Raise (ValueError "not enough values to unpack (expected at least 1, got 0)"))
  /\ (forall b rest, which w "abidw" = None ->
        abidw w (PyPaths (b :: rest)) suppression_file show_cmd extra_args
        = ([], Raise (RuntimeError "Unable to find `abidw` executable in PATH"))).
Proof.
  intros H.
  assert (Hcases :
    abidiff w bins1 bins2 suppression_file show_cmd extra_args
    = match which w "abidiff" with
      | None => ([], Raise (RuntimeError "Unable to find `abidiff` executable in PATH"))
      | Some _ => ([], Raise (IndexError "list index out of range"))
      end).
  { unfold abidiff, _which_ensure.
    destruct (which w "abidiff") as [c|] eqn:Hw; [|reflexivity].
    destruct H as [H|[->| ->]]; [discriminate H | reflexivity |].
    destruct bins1; reflexivity. }
  rewrite Hcases.
  split; [now destruct (which w "abidiff")|].
  split; [destruct (which w "abidiff"); eexists; reflexivity|].
  split; [now intros ->|].
  split; [destruct (which w "abidiff"); [reflexivity | congruence]|].
  split; [reflexivity|].
  intros b rest Hw. unfold abidw, _which_ensure. cbn [unpack_head_rest bind ret].
  destruct (_split_bins_and_dirs w rest). rewrite Hw. reflexivity.
Qed.

(** With no tool installed the comparison of two libraries launches
    nothing. *)
Lemma tool_wrappers_fail_before_launch_witness :
  abidiff world_no_tools ["/opt/a/lib/liba.so"] ["/opt/b/lib/libb.so"] None false []
  = ([], Raise (RuntimeError "Unable to find `abidiff` executable in PATH")).
Proof.
  exact (proj1 (proj2 (proj2
    (@tool_wrappers_fail_before_launch world_no_tools
       ["/opt/a/lib/liba.so"] ["/opt/b/lib/libb.so"] None false []
       (or_introl eq_refl)))) eq_refl).
Defined.



(* ------------------------------------------------------------------ *)
(** ** The header extractor: nodes and symbols *)
(* ------------------------------------------------------------------ *)

Lemma parse_cursor_raise_at pre node post e :
  Forall shape_ok pre ->
  parse_node node = ([], Raise e) ->
  result_of (parse_cursor (pre ++ node :: post)) = Raise e.
Proof.
  intros Hpre Hn. destruct (parse_nodes_ok Hpre) as (l & ps & E).
  rewrite parse_cursor_result, parse_nodes_app_result, E. cbn [result_of snd].
  cbn [parse_nodes]. rewrite result_bind, Hn. reflexivity.
Qed.

(** X2. A struct specifier without a name makes the parse of its block
    raise [AttributeError], so that the declarations before and after it
    are lost, whereas an enum specifier without a name is dropped and the
    outcome is that of the block without it. *)
Theorem nameless_struct_raises_nameless_enum_dropped (node : Node) :
  child_by_field_name node "name" = None ->
  (node_type node = "struct_specifier" ->
     parse_node node = ([], Raise (AttributeError_None "text"))
     /\ forall pre post, Forall shape_ok pre ->
          result_of (parse_cursor (pre ++ node :: post))
          = Raise (AttributeError_None "text"))
  /\ (node_type node = "enum_specifier" ->
        parse_node node = ([], Ok [None])
        /\ forall pre post,
             result_of (parse_cursor (pre ++ node :: post))
             = result_of (parse_cursor (pre ++ post))).
Proof.
  intros Hname. split; intros Hty.
  - assert (E : parse_node node = ([], Raise (AttributeError_None "text"))).
    { unfold parse_node. rewrite Hty. cbn.
      unfold _parse_struct_specifier. now rewrite Hname. }
    split; [exact E|]. intros pre post Hpre. now apply parse_cursor_raise_at.
  - split.
    + unfold parse_node. rewrite Hty. cbn.
      unfold _parse_enum_specifier. now rewrite Hname.
    + intros pre post. apply parse_cursor_skip.
      right. right. right. right. split; assumption.
Qed.

(** The struct and the enum of the samples. *)
Lemma nameless_struct_raises_nameless_enum_dropped_witness :
  parse_node node_struct_anon = ([], Raise (AttributeError_None "text"))
  /\ parse_node node_enum_anon = ([], Ok [None]).
Proof.
  split.
  - exact (proj1 (proj1 (@nameless_struct_raises_nameless_enum_dropped
                           node_struct_anon eq_refl) eq_refl)).
  - exact (proj1 (proj2 (@nameless_struct_raises_nameless_enum_dropped
                           node_enum_anon eq_refl) eq_refl)).
Defined.





(* ------------------------------------------------------------------ *)
(** ** The header extractor: blocks, markers and the three lists *)
(* ------------------------------------------------------------------ *)

Lemma separate_one_filters t f v sym :
  separate_one (t, f, v) sym
  = (t ++ filter is_type [sym], f ++ filter is_function [sym],
     v ++ filter is_variable [sym]).
Proof.
  unfold separate_one, is_type, is_function, is_variable. cbn [filter].
  destruct (stype sym); simpl; now rewrite ?app_nil_r.
Qed.

Lemma separate_symbols_filters syms t f v :
  _separate_symbols (t, f, v) syms
  = (t ++ filter is_type syms, f ++ filter is_function syms,
     v ++ filter is_variable syms).
Proof.
  unfold _separate_symbols. revert t f v.
  induction syms as [|sym syms IH]; intros t f v.
  - simpl. now rewrite !app_nil_r.
  - cbn [fold_left]. rewrite separate_one_filters, IH.
    rewrite <- !app_assoc, <- !filter_app. reflexivity.
Qed.

Lemma parse_kept_blocks_mapM w bs acc :
  parse_kept_blocks w acc bs
  = (log_of (mapM (parse w) bs),
     match result_of (mapM (parse w) bs) with
     | Ok per_block => Ok (_separate_symbols acc (List.concat per_block))
     | Raise e => Raise e
     end).
Proof.
  revert acc. induction bs as [|b bs IH]; intros acc.
  - reflexivity.
  - cbn [parse_kept_blocks mapM].
    destruct (parse w b) as [l1 [syms|e]] eqn:E; [|reflexivity].
    cbn [bind]. rewrite IH.
    destruct (mapM (parse w) bs) as [l2 [pb|e]]; cbn; [|reflexivity].
    unfold _separate_symbols. now rewrite fold_left_app, app_nil_r.
Qed.

Lemma filter_partition_length (syms : list Symbol) :
  List.length (filter is_type syms) + List.length (filter is_function syms)
  + List.length (filter is_variable syms) = List.length syms.
Proof.
  induction syms as [|s syms IH]; [reflexivity|].
  unfold is_type, is_function, is_variable in *. simpl.
  destruct (stype s); simpl; lia.
Qed.

(** X10. When [parse_header] returns, its three lists are a partition of
    the symbols parsed from the kept blocks, taken block after block: the
    function list holds the FUNDEF symbols, the variable list the
    EXTERNDEF symbols and the type list all the others, each list in the
    order of parsing, and no symbol is lost or repeated. *)
Theorem parse_header_partition (w : World) (header_text : string)
    (blocks : list HeaderBlock) (log : list event)
    (type_symbols func_symbols var_symbols : list Symbol) :
  _parse_blocks header_text = ([], Ok blocks) ->
  parse_header_text w header_text = (log, Ok (type_symbols, func_symbols, var_symbols)) ->
  exists per_block,
    mapM (parse w) (filter kept blocks) = (log, Ok per_block)
    /\ type_symbols = filter is_type (List.concat per_block)
    /\ func_symbols = filter is_function (List.concat per_block)
    /\ var_symbols = filter is_variable (List.concat per_block)
    /\ List.length type_symbols + List.length func_symbols + List.length var_symbols
       = List.length (List.concat per_block).
Proof.
  intros Hblocks H.
  rewrite (parse_header_text_blocks w _ Hblocks), parse_kept_blocks_mapM in H.
  destruct (mapM (parse w) (filter kept blocks)) as [l [pb|e]];
    cbn [log_of result_of fst snd] in H; [|discriminate].
  rewrite separate_symbols_filters in H. cbn [app] in H.
  inversion H; subst. exists pb.
  repeat split. apply filter_partition_length.
Qed.

(** The sample header: one function, no type, no variable. *)
Lemma parse_header_partition_witness :
  exists per_block,
    mapM (parse world_gcc) (filter kept [block_stdio; block_widget]) = ([], Ok per_block)
    /\ List.concat per_block = [mkSymbol FUNDEF "f"].
Proof.
  destruct (@parse_header_partition world_gcc text_two_blocks [block_stdio; block_widget]
              [] [] [mkSymbol FUNDEF "f"] [] eq_refl eq_refl)
    as (pb & Hpb & _ & Hf & _).
  exists pb. split; [exact Hpb|].
  cbn in Hpb. inversion Hpb. reflexivity.
Defined.

(** X11. Text without any marker line, the empty text included, makes
    [_parse_blocks] raise [TypeError]: there is no header to attach the
    text to, and no block is produced. *)
Theorem parse_blocks_without_marker (header_text : string) :
  Forall (fun line => PyStr.startswith "#" line = false) (PyStr.split_nl header_text) ->
  _parse_blocks header_text
  = ([], Raise (TypeError "Value after * must be an iterable, not NoneType"))
  /\ forall w, parse_header_text w header_text
               = ([], Raise (TypeError "Value after * must be an iterable, not NoneType")).
Proof.
  intros H.
  assert (E : _parse_blocks header_text
              = ([], Raise (TypeError "Value after * must be an iterable, not NoneType"))).
  { unfold _parse_blocks. rewrite <- (app_nil_r (PyStr.split_nl header_text)).
    rewrite (parse_blocks_body _ _ _ H). reflexivity. }
  split; [exact E|]. intros w. unfold parse_header_text. now rewrite E.
Qed.

(** A declaration alone, and the empty text. *)
Lemma parse_blocks_without_marker_witness :
  _parse_blocks "int f(void);"
  = ([], Raise (TypeError "Value after * must be an iterable, not NoneType"))
  /\ _parse_blocks EmptyString
     = ([], Raise (TypeError "Value after * must be an iterable, not NoneType")).
Proof.
  split.
  - apply (@parse_blocks_without_marker "int f(void);"). repeat constructor.
  - apply (@parse_blocks_without_marker EmptyString). repeat constructor.
Defined.

(** One block per marker line: the blocks after the pending one carry the
    files and flags of the marker lines, in order. *)
Lemma parse_blocks_lines_markers lines h acc log bs :
  parse_blocks_lines lines h acc = (log, Ok bs) ->
  exists pending rest,
    bs = pending ++ rest
    /\ (match h with
        | Some h0 => exists b, pending = [b] /\ (file b, flags b) = h0
        | None => pending = []
        end)
    /\ Forall2 (fun m b => exists lg, _parse_file_line m = (lg, Ok (file b, flags b)))
               (filter is_marker lines) rest
    /\ (h = None -> rest <> []).
Proof.
  revert h acc log bs. induction lines as [|line lines IH]; intros h acc log bs H.
  - simpl in H. destruct h as [h0|]; [|discriminate].
    inversion H; subst. exists [block_of h0 acc], []. simpl.
    repeat split; [|constructor|discriminate].
    exists (block_of h0 acc). split; [reflexivity|]. now destruct h0.
  - cbn [parse_blocks_lines] in H. cbn [filter]. unfold is_marker at 1.
    destruct (PyStr.startswith "#" line) eqn:Hm.
    + destruct h as [h0|].
      * apply bind_ok_inv in H. destruct H as (l1 & h1 & l2 & Hp & Hk & _).
        apply bind_ok_inv in Hk. destruct Hk as (l3 & blocks & l4 & Hrest & Hr & _).
        inversion Hr; subst.
        destruct (IH _ _ _ _ Hrest) as (pending & rest & -> & (b & -> & Hb) & Hf & _).
        exists [block_of h0 acc], (b :: rest). simpl.
        repeat split; [| |discriminate].
        -- exists (block_of h0 acc). split; [reflexivity|]. now destruct h0.
        -- constructor; [|exact Hf]. exists l1. now rewrite Hb.
      * apply bind_ok_inv in H. destruct H as (l1 & h1 & l2 & Hp & Hk & _).
        destruct (IH _ _ _ _ Hk) as (pending & rest & -> & (b & -> & Hb) & Hf & _).
        exists [], (b :: rest). simpl.
        repeat split; [|discriminate].
        constructor; [|exact Hf]. exists l1. now rewrite Hb.
    + destruct (negb (PyStr.isspace line || (String.length line =? 0)));
        apply IH in H; exact H.
Qed.

(** X12. When [_parse_blocks] returns, it has produced exactly one block
    for each line that starts with [#], in order, each carrying the file
    and the flags read from its line, and at least one block; so a single
    such line that cannot be read as a marker leaves no block at all. *)
Theorem parse_blocks_one_block_per_marker (header_text : string) (log : list event)
    (blocks : list HeaderBlock) :
  _parse_blocks header_text = (log, Ok blocks) ->
  Forall2 (fun m b => exists lg, _parse_file_line m = (lg, Ok (file b, flags b)))
          (filter is_marker (PyStr.split_nl header_text)) blocks
  /\ List.length blocks
     = List.length (filter is_marker (PyStr.split_nl header_text))
  /\ blocks <> [].
Proof.
  unfold _parse_blocks. intros H.
  destruct (parse_blocks_lines_markers _ _ _ H) as (pending & rest & -> & -> & Hf & Hne).
  cbn [app]. split; [exact Hf|]. split; [|now apply Hne].
  symmetry. exact (Forall2_length Hf).
Qed.

(** The two blocks of the sample text. *)
Lemma parse_blocks_one_block_per_marker_witness :
  List.length [block_stdio; block_widget]
  = List.length (filter is_marker (PyStr.split_nl text_two_blocks)).
Proof.
  exact (proj1 (proj2 (@parse_blocks_one_block_per_marker text_two_blocks []
                         [block_stdio; block_widget] eq_refl))).
Defined.

Lemma Forall2_in_left {A B} (R : A -> B -> Prop) l1 l2 x :
  Forall2 R l1 l2 -> In x l1 -> exists y, In y l2 /\ R x y.
Proof.
  induction 1 as [|a b l1 l2 Hab _ IH]; intros Hin; [destruct Hin|].
  destruct Hin as [<-|Hin].
  - exists b. split; [now left | assumption].
  - destruct (IH Hin) as (y & Hy & Hr). exists y. split; [now right | assumption].
Qed.

(** Computations that print nothing and launch nothing. *)
Lemma silent_bind {A B} (m : M A) (k : A -> M B) :
  log_of m = [] -> (forall a, log_of (k a) = []) -> log_of (bind m k) = [].
Proof.
  intros Hm Hk. rewrite log_bind, Hm. destruct (result_of m); [apply Hk | reflexivity].
Qed.

Lemma silent_mapM {A B} (f : A -> M B) (l : list A) :
  (forall a, log_of (f a) = []) -> log_of (mapM f l) = [].
Proof.
  intros Hf. induction l as [|x l IH]; [reflexivity|].
  cbn [mapM]. apply silent_bind; [apply Hf|]. intros y.
  apply silent_bind; [exact IH | reflexivity].
Qed.

Lemma silent_int_of s : log_of (int_of s) = [].
Proof. unfold int_of. now destruct (PyStr.int s). Qed.

Lemma silent_flag_of_string f : log_of (flag_of_string f) = [].
Proof.
  unfold flag_of_string. apply silent_bind; [apply silent_int_of|].
  intros n. unfold flag_of_int. destruct n as [|[[|[]|]|[|[]|]|]|]; reflexivity.
Qed.

Lemma silent_parse_file_line line : log_of (_parse_file_line line) = [].
Proof.
  unfold _parse_file_line.
  destruct (PyStr.split_ws line) as [|a [|b [|c fl]]]; try reflexivity.
  apply silent_bind; [apply silent_mapM, silent_flag_of_string | reflexivity].
Qed.

Lemma silent_parse_blocks_lines lines h acc :
  log_of (parse_blocks_lines lines h acc) = [].
Proof.
  revert h acc. induction lines as [|x lines IH]; intros h acc; cbn [parse_blocks_lines].
  - now destruct h.
  - destruct (PyStr.startswith "#" x).
    + destruct h.
      * apply silent_bind; [apply silent_parse_file_line|]. intros hx.
        apply silent_bind; [apply IH | reflexivity].
      * apply silent_bind; [apply silent_parse_file_line|]. intros hx. apply IH.
    + destruct (negb _); apply IH.
Qed.

Lemma parse_file_line_short line :
  List.length (PyStr.split_ws line) < 3 ->
  _parse_file_line line
  = ([], Raise (ValueError "not enough values to unpack (expected at least 3)")).
Proof.
  unfold _parse_file_line. intros H.
  destruct (PyStr.split_ws line) as [|a [|b [|c l]]]; try reflexivity.
  simpl in H. lia.
Qed.

(** X13. A line that starts with [#] and has fewer than three fields, such
    as a pragma the preprocessor keeps, makes the extraction fail wherever
    it stands in the text: [_parse_blocks] raises, no block is parsed and
    nothing is logged. *)
Theorem short_marker_line_aborts_extraction (w : World) (header_text line : string) :
  In line (PyStr.split_nl header_text) ->
  PyStr.startswith "#" line = true ->
  List.length (PyStr.split_ws line) < 3 ->
  (exists e, _parse_blocks header_text = ([], Raise e))
  /\ exists e, parse_header_text w header_text = ([], Raise e).
Proof.
  intros Hin Hm Hshort.
  assert (Hraise : exists l e, _parse_blocks header_text = (l, Raise e)).
  { destruct (_parse_blocks header_text) as [l [bs|e]] eqn:E; [|eauto].
    exfalso. destruct (parse_blocks_one_block_per_marker _ E) as (Hf & _).
    assert (Hl : In line (filter is_marker (PyStr.split_nl header_text)))
      by (apply filter_In; split; assumption).
    destruct (@Forall2_in_left _ _ _ _ _ _ Hf Hl) as (b & _ & lg & Hb).
    rewrite (@parse_file_line_short _ Hshort) in Hb. discriminate Hb. }
  destruct Hraise as (l & e & E).
  assert (l = []) as ->.
  { pose proof (silent_parse_blocks_lines (PyStr.split_nl header_text) None []) as Hs.
    unfold _parse_blocks in E. rewrite E in Hs. exact Hs. }
  split; [eauto|]. exists e. unfold parse_header_text. now rewrite E.
Qed.

(** A header whose preprocessed text keeps a [pack] pragma. *)
Lemma short_marker_line_aborts_extraction_witness :
  exists e, parse_header_text world_gcc text_with_pragma = ([], Raise e).
Proof.
  refine (proj2 (@short_marker_line_aborts_extraction world_gcc text_with_pragma
                   "#pragma pack(1)" _ eq_refl _)).
  - simpl. auto.
  - simpl. lia.
Defined.

(** X14. Text that stands before the first marker line is not dropped: it
    is attributed to the file of the first marker, in front of the text
    that follows that marker. *)
Theorem text_before_first_marker (header_text m : string) (pre body : list string)
    (h : Path * list PreprocessorFlag) :
  PyStr.split_nl header_text = pre ++ m :: body ->
  Forall (fun line => PyStr.startswith "#" line = false) pre ->
  Forall (fun line => PyStr.startswith "#" line = false) body ->
  PyStr.startswith "#" m = true ->
  _parse_file_line m = ([], Ok h) ->
  _parse_blocks header_text
  = ([], Ok [block_of h (source_lines pre ++ source_lines body)]).
Proof.
  intros Hsplit Hpre Hbody Hm Hp. unfold _parse_blocks. rewrite Hsplit.
  rewrite (parse_blocks_body _ _ _ Hpre). cbn [app parse_blocks_lines].
  rewrite Hm, Hp. cbn [bind].
  rewrite (parse_blocks_last _ _ Hbody). reflexivity.
Qed.

(** A declaration in front of the only marker. *)
Lemma text_before_first_marker_witness :
  _parse_blocks text_preamble
  = ([], Ok [mkBlock "widget.h" []
               (PyStr.join PyStr.nl ["int g(void);"; "int f(void);"])]).
Proof.
  refine (eq_trans (@text_before_first_marker text_preamble (marker "1" "widget.h" "")
                      ["int g(void);"] ["int f(void);"] ("widget.h", [])
                      eq_refl _ _ eq_refl eq_refl) eq_refl);
    repeat constructor.
Defined.

(** X15. [parse_header] launches the preprocessor once, on the header it
    was given; when the preprocessor ends with a non-zero exit status it
    raises [RuntimeError] with the captured error text and parses
    nothing. *)
Theorem parse_header_preprocessor_failure (w : World) (header_file : Path)
    (result : CompletedProcess) :
  run w ["gcc"; "-E"; header_file] = Ok result ->
  returncode result <> 0%Z ->
  parse_header w header_file
  = ([EvRun ["gcc"; "-E"; header_file]],
     Raise (RuntimeError ("GCC preprocessor failed on " +++ header_file
                          +++ " with stderr:" +++ PyStr.nl +++ stderr result))).
Proof.
  intros Hrun Hrc. unfold parse_header, run_preproc, bind, emit, lift. cbv zeta.
  unfold Path in *. rewrite Hrun.
  apply Z.eqb_neq in Hrc. rewrite Hrc. reflexivity.
Qed.

(** The preprocessor cannot find an included file. *)
Lemma parse_header_preprocessor_failure_witness :
  exists msg,
    parse_header world_gcc_fails "widget.h"
    = ([EvRun ["gcc"; "-E"; "widget.h"]], Raise (RuntimeError msg)).
Proof.
  eexists.
  refine (@parse_header_preprocessor_failure world_gcc_fails "widget.h" _ eq_refl _).
  discriminate.
Defined.





Lemma list_ascii_of_append (a b : string) :
  list_ascii_of_string (a +++ b) = list_ascii_of_string a ++ list_ascii_of_string b.
Proof. induction a as [|x a IH]; [reflexivity|]. simpl. now rewrite IH. Qed.

Lemma slice_parenthesized (s : string) :
  PyStr.slice_1_m1 ("(" +++ s +++ ")") = s.
Proof.
  unfold PyStr.slice_1_m1. cbn [String.append].
  rewrite list_ascii_of_append. cbn [list_ascii_of_string].
  rewrite removelast_last. apply string_of_list_ascii_of_string.
Qed.

Lemma star_name_differs (name : string) : "*" +++ name <> name.
Proof.
  intros H. apply (f_equal String.length) in H. simpl in H. lia.
Qed.

(** X17. For a typedef of a function pointer the recorded name is the text
    between the parentheses of the inner declarator, star included: the
    node yields one TYPEDEF symbol of that name, a block of this node alone
    gives that symbol, sorted into the type list, and for the declarator
    [( *id )] the recorded name is not the identifier [id]. *)
Theorem function_pointer_typedef_keeps_star (node d c : Node) (inner : string) :
  node_type node = "type_definition" ->
  child_by_field_name node "declarator" = Some d ->
  node_type d = "function_declarator" ->
  child_by_field_name d "declarator" = Some c ->
  node_type c = "parenthesized_declarator" ->
  node_text c = "(" +++ inner +++ ")" ->
  parse_node node = ([], Ok [Some (mkSymbol TYPEDEF inner)])
  /\ parse_cursor [node] = ([], Ok [mkSymbol TYPEDEF inner])
  /\ _separate_symbols ([], [], []) [mkSymbol TYPEDEF inner]
     = ([mkSymbol TYPEDEF inner], [], [])
  /\ (forall id, inner = "*" +++ id -> symbol (mkSymbol TYPEDEF inner) <> id).
Proof.
  intros Hn Hd Hdt Hc Hct Htext.
  assert (Hp : parse_node node = ([], Ok [Some (mkSymbol TYPEDEF inner)])).
  { unfold parse_node. rewrite Hn. cbn.
    unfold _parse_type_definition. rewrite Hd, Hdt. cbn. rewrite Hc, Hct. cbn.
    now rewrite Htext, slice_parenthesized. }
  split; [exact Hp|]. split; [|split].
  - unfold parse_cursor. cbn [parse_nodes]. rewrite Hp. reflexivity.
  - reflexivity.
  - intros id ->. cbn [symbol]. apply star_name_differs.
Qed.

(** The typedef [fp] of the sample header is recorded as [*fp]. *)
Lemma function_pointer_typedef_keeps_star_witness :
  parse_node node_typedef_fp = ([], Ok [Some (mkSymbol TYPEDEF "*fp")])
  /\ parse_cursor [node_typedef_fp] = ([], Ok [mkSymbol TYPEDEF "*fp"]).
Proof.
  destruct (@function_pointer_typedef_keeps_star node_typedef_fp _ _ "*fp"
              eq_refl eq_refl eq_refl eq_refl eq_refl eq_refl) as (Hp & Hc & _).
  split; [exact Hp | exact Hc].
Defined.

(* ------------------------------------------------------------------ *)
(** ** The corpus parser: when it returns, and what it returns *)
(* ------------------------------------------------------------------ *)

Lemma int_of_ok s log n : int_of s = (log, Ok n) -> parses_int s.
Proof. unfold int_of, parses_int. destruct (PyStr.int s); [eauto | discriminate]. Qed.

Lemma int_of_parses s : parses_int s -> exists n, int_of s = ([], Ok n).
Proof. intros (n & H). exists n. unfold int_of. now rewrite H. Qed.

Lemma get_or_fail_has xelt attr : has xelt attr -> exists v, _get_or_fail xelt attr = ([], Ok v).
Proof. intros (v & H). exists v. unfold _get_or_fail. now rewrite H. Qed.

Lemma get_or_fail_value xelt attr log v :
  _get_or_fail xelt attr = (log, Ok v) -> get xelt attr = Some v.
Proof.
  unfold _get_or_fail. destruct (get xelt attr); [|discriminate].
  intros H. now inversion H.
Qed.

Lemma mapM_all_ok {A B} (f : A -> M B) (l : list A) :
  Forall (fun x => exists y, f x = ([], Ok y)) l -> exists ys, mapM f l = ([], Ok ys).
Proof.
  induction 1 as [|x l (y & Hy) _ (ys & Hys)]; [now exists []|].
  exists (y :: ys). cbn [mapM]. now rewrite Hy, Hys.
Qed.

Lemma as_children_all_ok {A} (t : string) (f : Element -> M A) (P : Element -> Prop) p :
  (forall x, P x -> exists y, f x = ([], Ok y)) ->
  Forall P (findall p t) -> exists ys, as_children t f (Some p) = ([], Ok ys).
Proof.
  intros Hf Hall. unfold as_children. destruct (truthy p); [|now exists []].
  apply mapM_all_ok. eapply Forall_impl; [|exact Hall]. exact Hf.
Qed.

Lemma symbol_wf_ok e : symbol_wf e -> exists v, Symbol.from_xmlelt e = ([], Ok v).
Proof.
  intros ((Hn & Ht & Hb & Hv & Hd) & Hint). unfold Symbol.from_xmlelt. use_attrs.
  cbn [bind ret app]. destruct (get e "size") as [s|].
  - destruct (int_of_parses (Hint s eq_refl)) as (n & Hn). rewrite Hn.
    eexists. reflexivity.
  - eexists. reflexivity.
Qed.

Lemma var_decl_complete_ok e :
  var_decl_complete e -> exists v, VarDecl.from_xmlelt e = ([], Ok v).
Proof.
  intros (Hn & Ht & Hv). unfold VarDecl.from_xmlelt. use_attrs.
  eexists. reflexivity.
Qed.

Lemma type_decl_wf_ok e : type_decl_wf e -> exists v, TypeDecl.from_xmlelt e = ([], Ok v).
Proof.
  intros ((Hn & Hi) & Hint). unfold TypeDecl.from_xmlelt. use_attrs.
  destruct (get e "size-in-bits") as [s|].
  - destruct (int_of_parses (Hint s eq_refl)) as (n & Hn). rewrite Hn.
    eexists. reflexivity.
  - eexists. reflexivity.
Qed.

Lemma typedef_decl_complete_ok e :
  typedef_decl_complete e -> exists v, TypedefDecl.from_xmlelt e = ([], Ok v).
Proof.
  intros (Hn & Ht & Hi & Hf). unfold TypedefDecl.from_xmlelt. use_attrs.
  eexists. reflexivity.
Qed.

Lemma parameters_ok e : exists ps, Param.as_children (Some e) = ([], Ok ps).
Proof.
  unfold Param.as_children.
  apply (@as_children_all_ok _ _ _ (fun _ => True)).
  - intros x _. eexists. reflexivity.
  - apply Forall_forall. trivial.
Qed.

Lemma function_decl_complete_ok e :
  function_decl_complete e -> exists v, FunctionDecl.from_xmlelt e = ([], Ok v).
Proof.
  intros (Hn & r & Hr & Ht). unfold FunctionDecl.from_xmlelt.
  destruct (parameters_ok e) as (ps & Hps). unfold _find_or_fail. rewrite Hr.
  use_attrs. cbn [bind ret app]. rewrite Hps. cbn [bind ret app]. use_attrs.
  eexists. reflexivity.
Qed.

Lemma data_member_wf_ok e :
  data_member_wf e -> exists v, DataMember.from_xmlelt e = ([], Ok v).
Proof.
  intros ((Ha & Hl & Hdecl) & Hint). unfold DataMember.from_xmlelt.
  change VarDecl.abixml_tag with "var-decl".
  change FunctionDecl.abixml_tag with "function-decl".
  destruct Hl as (s & Hs). destruct (int_of_parses (Hint s Hs)) as (n & Hn).
  destruct (find e "var-decl") as [vx|].
  - destruct (var_decl_complete_ok Hdecl) as (v & Hv). rewrite Hv.
    repeat (cbn [bind ret app]; use_attrs). rewrite Hn. eexists. reflexivity.
  - destruct Hdecl as (f & Hf & Hfc).
    destruct (function_decl_complete_ok Hfc) as (v & Hv).
    unfold _find_or_fail. rewrite Hf. cbn [bind ret app]. rewrite Hv.
    repeat (cbn [bind ret app]; use_attrs). rewrite Hn. eexists. reflexivity.
Qed.

Lemma class_decl_wf_ok e : class_decl_wf e -> exists v, ClassDecl.from_xmlelt e = ([], Ok v).
Proof.
  intros (Hn & Hs & Hv & Hi & Hint & Hmem). unfold ClassDecl.from_xmlelt.
  destruct (@as_children_all_ok _ DataMember.abixml_tag DataMember.from_xmlelt
              data_member_wf e data_member_wf_ok Hmem) as (ms & Hms).
  fold DataMember.as_children in Hms.
  use_attrs. cbv zeta.
  destruct (nonempty_opt (get e "size-in-bits")) as [s|].
  - destruct (int_of_parses (Hint s eq_refl)) as (n & Hk). rewrite Hk.
    cbn [bind ret app]. rewrite Hms. eexists. reflexivity.
  - cbn [bind ret app]. rewrite Hms. eexists. reflexivity.
Qed.

Lemma visit_instr_wf_ok acc e :
  abi_instr_wf e -> exists ds, ABI.visit_instr acc e = ([], Ok ds).
Proof.
  intros (Ht & Hc & Hf & Htd & Hv). unfold ABI.visit_instr.
  destruct (@as_children_all_ok _ TypeDecl.abixml_tag _ _ e type_decl_wf_ok Ht) as (x1 & H1).
  destruct (@as_children_all_ok _ ClassDecl.abixml_tag _ _ e class_decl_wf_ok Hc) as (x2 & H2).
  destruct (@as_children_all_ok _ FunctionDecl.abixml_tag _ _ e function_decl_complete_ok Hf)
    as (x3 & H3).
  destruct (@as_children_all_ok _ TypedefDecl.abixml_tag _ _ e typedef_decl_complete_ok Htd)
    as (x4 & H4).
  destruct (@as_children_all_ok _ VarDecl.abixml_tag _ _ e var_decl_complete_ok Hv) as (x5 & H5).
  unfold TypeDecl.as_children, ClassDecl.as_children, FunctionDecl.as_children,
    TypedefDecl.as_children, VarDecl.as_children.
  rewrite H1, H2, H3, H4, H5. eexists. reflexivity.
Qed.

Lemma visit_instrs_wf_ok roots acc :
  Forall abi_instr_wf roots -> exists ds, ABI.visit_instrs acc roots = ([], Ok ds).
Proof.
  intros H. revert acc. induction H as [|r roots Hr _ IH]; intros acc.
  - eexists. reflexivity.
  - destruct (visit_instr_wf_ok acc Hr) as (ds & Hds).
    destruct (IH ds) as (ds' & Hds'). exists ds'.
    cbn [ABI.visit_instrs]. rewrite Hds. cbn [bind app]. now rewrite Hds'.
Qed.

Lemma from_root_wf_ok root : corpus_wf root -> exists abi, ABI.from_root root = ([], Ok abi).
Proof.
  intros (Hp & (fs & Hfs & Hsyms) & Hvs & Hinstr). unfold ABI.from_root.
  unfold _find_or_fail. rewrite Hfs. use_attrs. cbn [bind ret app].
  destruct (@as_children_all_ok _ Symbol.abixml_tag _ _ fs symbol_wf_ok Hsyms) as (s1 & H1).
  fold Symbol.as_children in H1. rewrite H1. cbn [bind ret app].
  assert (H2 : exists s2, Symbol.as_children (find root "elf-variable-symbols")
                           = ([], Ok s2)).
  { destruct (find root "elf-variable-symbols") as [vs|] eqn:E.
    - apply (@as_children_all_ok _ Symbol.abixml_tag _ _ vs symbol_wf_ok). now apply Hvs.
    - now exists []. }
  destruct H2 as (s2 & H2). rewrite H2. cbn [bind ret app].
  destruct (visit_instrs_wf_ok (ABI.mk_decls [] [] [] [] []) Hinstr) as (ds & Hds).
  rewrite Hds. eexists. reflexivity.
Qed.

Lemma symbol_wf_nec e log v : Symbol.from_xmlelt e = (log, Ok v) -> symbol_wf e.
Proof.
  intros H. split; [eapply symbol_ok; eauto|].
  unfold Symbol.from_xmlelt in H. inv_binds_with @bind_ok_inv.
  intros s Hs.
  match goal with
  | Hi : match get e "size" with _ => _ end = _ |- _ => rewrite Hs in Hi; eapply int_of_ok; eauto
  end.
Qed.

Lemma type_decl_wf_nec e log v : TypeDecl.from_xmlelt e = (log, Ok v) -> type_decl_wf e.
Proof.
  intros H. split; [eapply type_decl_ok; eauto|].
  unfold TypeDecl.from_xmlelt in H. inv_binds_with @bind_ok_inv.
  intros s Hs.
  match goal with
  | Hi : match get e "size-in-bits" with _ => _ end = _ |- _ =>
      rewrite Hs in Hi; inv_binds_with @bind_ok_inv; eapply int_of_ok; eauto
  end.
Qed.

Lemma data_member_wf_nec e log v :
  DataMember.from_xmlelt e = (log, Ok v) -> data_member_wf e.
Proof.
  intros H. split; [eapply data_member_ok; eauto|].
  unfold DataMember.from_xmlelt in H. inv_binds_with @bind_ok_inv.
  intros s Hs.
  match goal with
  | Hg : _get_or_fail e "layout-offset-in-bits" = (_, Ok ?o), Hi : int_of ?o = _ |- _ =>
      apply get_or_fail_value in Hg; rewrite Hs in Hg; inversion Hg; subst;
      eapply int_of_ok; eauto
  end.
Qed.

Lemma class_decl_wf_nec e log v : ClassDecl.from_xmlelt e = (log, Ok v) -> class_decl_wf e.
Proof.
  intros H. destruct (class_decl_ok _ H) as (Hn & Hs & Hv & Hi & _).
  unfold ClassDecl.from_xmlelt in H. cbv zeta in H. inv_binds_with @bind_ok_inv.
  repeat (split; [assumption|]).
  split.
  - intros s Hsz.
    match goal with
    | Hm : match nonempty_opt (get e "size-in-bits") with _ => _ end = _ |- _ =>
        rewrite Hsz in Hm; inv_binds_with @bind_ok_inv; eapply int_of_ok; eauto
    end.
  - match goal with
    | Hd : DataMember.as_children _ = _ |- _ =>
        eapply as_children_ok_Forall in Hd; [exact Hd | apply data_member_wf_nec]
    end.
Qed.

Lemma visit_instr_wf_nec acc e log ds :
  ABI.visit_instr acc e = (log, Ok ds) -> abi_instr_wf e.
Proof.
  unfold ABI.visit_instr. intros H. inv_binds_with @bind_ok_inv.
  unfold abi_instr_wf.
  repeat match goal with
         | Hd : _ (Some e) = (_, Ok _) |- _ =>
             eapply as_children_ok_Forall in Hd;
             [| first [ apply type_decl_wf_nec | apply class_decl_wf_nec
                      | apply function_decl_ok | apply typedef_decl_ok
                      | apply var_decl_ok ] ]
         end.
  auto.
Qed.

Lemma visit_instrs_wf_nec roots acc log ds :
  ABI.visit_instrs acc roots = (log, Ok ds) -> Forall abi_instr_wf roots.
Proof.
  revert acc log. induction roots as [|r roots IH]; intros acc log H; [constructor|].
  simpl in H. inv_binds_with @bind_ok_inv.
  constructor; [eapply visit_instr_wf_nec | eapply IH]; eauto.
Qed.

Lemma from_root_wf_nec root log abi : ABI.from_root root = (log, Ok abi) -> corpus_wf root.
Proof.
  intros H. destruct (from_root_ok _ H) as (Hp & _).
  unfold ABI.from_root in H. inv_binds_with @bind_ok_inv.
  split; [assumption|]. split.
  { match goal with
    | Hf : _find_or_fail root _ = (_, Ok ?r) |- _ =>
        exists r; split; [exact (find_or_fail_ok _ _ Hf)|]
    end.
    match goal with
    | Hd : Symbol.as_children (Some _) = _ |- _ =>
        eapply as_children_ok_Forall in Hd; [exact Hd | apply symbol_wf_nec]
    end. }
  split.
  { intros vs Hvs.
    match goal with
    | Hd : Symbol.as_children (find root _) = _ |- _ =>
        rewrite Hvs in Hd;
        eapply as_children_ok_Forall in Hd; [exact Hd | apply symbol_wf_nec]
    end. }
  eapply visit_instrs_wf_nec; eauto.
Qed.

(** X18. The corpus parser returns a corpus exactly for the documents in
    which every element it visits has its required attributes and
    children, and every size and offset it reads is an integer literal
    (an empty class size counts as absent); it then prints nothing and
    launches nothing. On every other document it ends in an error. *)
Theorem from_root_returns_iff_wellformed (root : Element) :
  ((exists log abi, ABI.from_root root = (log, Ok abi)) <-> corpus_wf root)
  /\ (forall log abi, ABI.from_root root = (log, Ok abi) -> log = [])
  /\ (~ corpus_wf root -> exists log e, ABI.from_root root = (log, Raise e)).
Proof.
  assert (Hnec : forall log abi, ABI.from_root root = (log, Ok abi) -> corpus_wf root)
    by (intros; eapply from_root_wf_nec; eauto).
  split; [split|split].
  - intros (log & abi & H). eauto.
  - intros H. destruct (from_root_wf_ok H) as (abi & E). eauto.
  - intros log abi H. destruct (from_root_wf_ok (Hnec _ _ H)) as (abi' & E).
    rewrite E in H. now inversion H.
  - intros Hn. destruct (ABI.from_root root) as [log [abi|e]] eqn:E; [|eauto].
    exfalso. eapply Hn, Hnec. reflexivity.
Qed.

Lemma mapM_Forall2 {A B} (f : A -> M B) (R : A -> B -> Prop) l log ys :
  (forall x lg y, f x = (lg, Ok y) -> R x y) ->
  mapM f l = (log, Ok ys) -> Forall2 R l ys.
Proof.
  intros HR. revert log ys.
  induction l as [|x l IH]; intros log ys H; simpl in H.
  - inversion H. constructor.
  - inv_binds_with @bind_ok_inv.
    match goal with Hr : ret _ = _ |- _ => inversion Hr; subst end.
    constructor; eauto.
Qed.

Lemma as_children_Forall2 {A} (t : string) (f : Element -> M A)
    (R : Element -> A -> Prop) p log ys :
  (forall x lg y, f x = (lg, Ok y) -> R x y) ->
  as_children t f (Some p) = (log, Ok ys) -> Forall2 R (findall p t) ys.
Proof.
  intros HR. unfold as_children, truthy, findall.
  destruct (children p) as [|c cs] eqn:E.
  - intros H. inversion H. constructor.
  - intros H. eapply mapM_Forall2; eauto.
Qed.

Lemma class_decl_named e log d :
  ClassDecl.from_xmlelt e = (log, Ok d) -> named e (ClassDecl.name d).
Proof.
  unfold ClassDecl.from_xmlelt. cbv zeta. intros H. inv_binds_with @bind_ok_inv.
  match goal with Hr : ret _ = _ |- _ => inversion Hr; subst end.
  cbn. eapply get_or_fail_value; eauto.
Qed.

Lemma typedef_decl_named e log d :
  TypedefDecl.from_xmlelt e = (log, Ok d) -> named e (TypedefDecl.name d).
Proof.
  unfold TypedefDecl.from_xmlelt. intros H. inv_binds_with @bind_ok_inv.
  match goal with Hr : ret _ = _ |- _ => inversion Hr; subst end.
  cbn. eapply get_or_fail_value; eauto.
Qed.

Lemma function_decl_named e log d :
  FunctionDecl.from_xmlelt e = (log, Ok d) -> named e (FunctionDecl.name d).
Proof.
  unfold FunctionDecl.from_xmlelt. cbv zeta. intros H. inv_binds_with @bind_ok_inv.
  match goal with Hr : ret _ = _ |- _ => inversion Hr; subst end.
  cbn. eapply get_or_fail_value; eauto.
Qed.

Lemma visit_instr_named acc e log ds :
  ABI.visit_instr acc e = (log, Ok ds) ->
  exists cls fns tds,
    ABI.d_class ds = ABI.d_class acc ++ cls
    /\ ABI.d_fun ds = ABI.d_fun acc ++ fns
    /\ ABI.d_typedef ds = ABI.d_typedef acc ++ tds
    /\ Forall2 (fun x d => named x (ClassDecl.name d)) (findall e "class-decl") cls
    /\ Forall2 (fun x d => named x (FunctionDecl.name d)) (findall e "function-decl") fns
    /\ Forall2 (fun x d => named x (TypedefDecl.name d)) (findall e "typedef-decl") tds.
Proof.
  unfold ABI.visit_instr. intros H. inv_binds_with @bind_ok_inv.
  match goal with Hr : ret _ = _ |- _ => inversion Hr; subst end.
  cbn [ABI.d_class ABI.d_fun ABI.d_typedef].
  do 3 eexists. do 3 (split; [reflexivity|]).
  repeat split.
  - eapply (@as_children_Forall2 _ ClassDecl.abixml_tag); [apply class_decl_named|eauto].
  - eapply (@as_children_Forall2 _ FunctionDecl.abixml_tag); [apply function_decl_named|eauto].
  - eapply (@as_children_Forall2 _ TypedefDecl.abixml_tag); [apply typedef_decl_named|eauto].
Qed.

Lemma visit_instrs_named roots acc log ds :
  ABI.visit_instrs acc roots = (log, Ok ds) ->
  exists cls fns tds,
    ABI.d_class ds = ABI.d_class acc ++ cls
    /\ ABI.d_fun ds = ABI.d_fun acc ++ fns
    /\ ABI.d_typedef ds = ABI.d_typedef acc ++ tds
    /\ Forall2 (fun x d => named x (ClassDecl.name d))
               (flat_map (fun i => findall i "class-decl") roots) cls
    /\ Forall2 (fun x d => named x (FunctionDecl.name d))
               (flat_map (fun i => findall i "function-decl") roots) fns
    /\ Forall2 (fun x d => named x (TypedefDecl.name d))
               (flat_map (fun i => findall i "typedef-decl") roots) tds.
Proof.
  revert acc log. induction roots as [|r roots IH]; intros acc log H; simpl in H.
  - inversion H; subst. exists [], [], []. rewrite !app_nil_r.
    repeat split; constructor.
  - inv_binds_with @bind_ok_inv.
    match goal with
    | H1 : ABI.visit_instr _ _ = _, H2 : ABI.visit_instrs _ _ = _ |- _ =>
        destruct (visit_instr_named _ _ H1) as (c1 & f1 & t1 & Ec & Ef & Et & Fc & Ff & Ft);
        destruct (IH _ _ H2) as (c2 & f2 & t2 & Ec2 & Ef2 & Et2 & Fc2 & Ff2 & Ft2)
    end.
    exists (c1 ++ c2), (f1 ++ f2), (t1 ++ t2).
    rewrite Ec2, Ef2, Et2, Ec, Ef, Et, <- !app_assoc.
    repeat split; try reflexivity; cbn [flat_map]; now apply Forall2_app.
Qed.

(** X19. In a parsed corpus the class, function and typedef declarations
    are those of the document in document order, block after block: each
    list has one record for each element of its tag under the [abi-instr]
    blocks, in order, and the record carries the [name] attribute of its
    element; hence the derived query returns the document's names. *)
Theorem from_root_keeps_document_order (root : Element) (log : list event) (abi : ABI.t) :
  ABI.from_root root = (log, Ok abi) ->
  Forall2 (fun x d => named x (ClassDecl.name d))
          (decl_elements root "class-decl") (ABI.class_decls abi)
  /\ Forall2 (fun x d => named x (FunctionDecl.name d))
             (decl_elements root "function-decl") (ABI.fun_decls abi)
  /\ Forall2 (fun x d => named x (TypedefDecl.name d))
             (decl_elements root "typedef-decl") (ABI.typedef_decls abi)
  /\ Forall2 named
       (decl_elements root "class-decl" ++ decl_elements root "typedef-decl")
       (fst (ABI.type_and_function_names abi))
  /\ Forall2 named (decl_elements root "function-decl")
       (snd (ABI.type_and_function_names abi)).
Proof.
  unfold ABI.from_root. intros H. inv_binds_with @bind_ok_inv.
  match goal with Hr : ret _ = _ |- _ => inversion Hr; subst end.
  match goal with
  | Hv : ABI.visit_instrs _ _ = _ |- _ =>
      destruct (visit_instrs_named _ _ Hv) as (c & f & t & Ec & Ef & Et & Fc & Ff & Ft)
  end.
  cbn [ABI.class_decls ABI.fun_decls ABI.typedef_decls ABI.type_and_function_names fst snd].
  cbn [ABI.d_class ABI.d_fun ABI.d_typedef app] in Ec, Ef, Et.
  rewrite Ec, Ef, Et. unfold decl_elements.
  assert (Hmap : forall (A : Type) (nm : A -> string) es ds,
             Forall2 (fun x d => named x (nm d)) es ds -> Forall2 named es (map nm ds)).
  { intros A nm es ds HF. induction HF; simpl; constructor; auto. }
  repeat split; auto.
  apply Forall2_app; auto.
Qed.

(** The corpus of two blocks: [Widget] of the first block before [Gadget]
    of the second. *)
Lemma from_root_keeps_document_order_witness :
  exists abi,
    ABI.from_root root_two_blocks = ([], Ok abi)
    /\ ABI.type_and_function_names abi = (["Widget"; "Gadget"; "widget_t"], ["widget_free"])
    /\ Forall2 named (decl_elements root_two_blocks "function-decl") ["widget_free"].
Proof.
  eexists. split; [reflexivity|]. split; [reflexivity|].
  exact (proj2 (proj2 (proj2 (proj2
    (@from_root_keeps_document_order root_two_blocks [] _ eq_refl))))).
Defined.

(** X20. An empty [size-in-bits] attribute is read differently by the two
    kinds of type element: [TypeDecl.from_xmlelt] tests the attribute
    against [None] and so converts the empty text, which raises
    [ValueError]; [ClassDecl.from_xmlelt] tests its truth value and so
    takes the empty text for a missing size, whatever else the element
    holds. *)
Theorem empty_size_type_raises_class_has_none (e : Element) :
  get e "size-in-bits" = Some "" ->
  (exists msg, TypeDecl.from_xmlelt e = ([], Raise (ValueError msg)))
  /\ (forall log d, ClassDecl.from_xmlelt e = (log, Ok d) -> ClassDecl.size d = None)
  /\ (has e "name" -> has e "is-struct" -> has e "visibility" -> has e "id" ->
      Forall data_member_wf (findall e "data-member") ->
      exists d, ClassDecl.from_xmlelt e = ([], Ok d)).
Proof.
  intros He. split; [|split].
  - unfold TypeDecl.from_xmlelt. rewrite He. eexists. reflexivity.
  - intros log d H. unfold ClassDecl.from_xmlelt in H. cbv zeta in H.
    rewrite He in H. cbn [nonempty_opt] in H.
    inv_binds_with @bind_ok_inv.
    repeat match goal with Hr : ret _ = _ |- _ => inversion Hr; subst; clear Hr end.
    reflexivity.
  - intros Hn Hs Hv Hi Hm. apply class_decl_wf_ok.
    repeat (split; [assumption|]). split; [|assumption].
    rewrite He. intros s Hs'. discriminate Hs'.
Qed.

(** The type element with an empty size raises; the class [Gadget] of the
    two-block corpus, with an empty size, is parsed with no size. *)
Lemma empty_size_type_raises_class_has_none_witness :
  get elt_type_empty_size "size-in-bits" = Some ""
  /\ exists msg, TypeDecl.from_xmlelt elt_type_empty_size = ([], Raise (ValueError msg)).
Proof.
  split; [reflexivity|].
  exact (proj1 (@empty_size_type_raises_class_has_none elt_type_empty_size eq_refl)).
Defined.

(* ------------------------------------------------------------------ *)
(** ** abi/suppress.py and abi/diff.py: what a comparison does *)
(* ------------------------------------------------------------------ *)

Lemma silent_libs_for_spec spec : log_of (libs_for_spec spec) = [].
Proof.
  unfold libs_for_spec, _spec_to_build_interface.
  destruct (installed spec); cbn; [destruct (libs spec)|]; reflexivity.
Qed.

Lemma silent_headers_for_spec spec : log_of (headers_for_spec spec) = [].
Proof.
  unfold headers_for_spec, _spec_to_build_interface.
  destruct (installed spec); cbn; [destruct (headers spec)|]; reflexivity.
Qed.

Lemma silent_header_named w spec h : log_of (Diff.header_named w spec h) = [].
Proof.
  unfold Diff.header_named. apply silent_bind; [apply silent_headers_for_spec|].
  intros hs. destruct (filter _ hs); reflexivity.
Qed.

Lemma silent_suppression_for w spec ls header suppr :
  log_of (Diff.suppression_for w spec ls header suppr) = [].
Proof.
  unfold Diff.suppression_for.
  destruct (nonempty_opt header).
  - apply silent_bind; [apply silent_header_named|]. reflexivity.
  - destruct (nonempty_opt suppr); reflexivity.
Qed.


Lemma suppression_for_header_raises w spec ls header suppr :
  given header = true ->
  exists e, Diff.suppression_for w spec ls header suppr = ([], Raise e).
Proof.
  unfold given, Diff.suppression_for. destruct (nonempty_opt header) as [h|]; [|discriminate].
  intros _. pose proof (silent_header_named w spec h) as Hs.
  destruct (Diff.header_named w spec h) as [l [p|e]]; unfold log_of in Hs; simpl in Hs; subst l.
  - eexists. reflexivity.
  - eexists. reflexivity.
Qed.

(** X21. The header options of a comparison never work: the suppression
    generator hands its binaries to [ABI.from_binaries], which raises
    before any tool is looked up, so [suppression_for_binaries_from_header]
    raises [TypeError] for every input, and [diff_specs] with a non-empty
    header name for either spec raises without printing, writing or
    launching anything. *)
Theorem header_option_aborts_comparison (w : World) (spec1 spec2 : Spec)
    (header1 suppr1 header2 suppr2 : option string) (show_cmd : bool)
    (extra_args : list string) :
  given header1 || given header2 = true ->
  (forall binaries header,
      Suppress.suppression_for_binaries_from_header w binaries header
      = ([], Raise (TypeError
                      "cannot unpack non-iterable builtin_function_or_method object")))
  /\ exists e,
      Diff.diff_specs w spec1 spec2 header1 suppr1 header2 suppr2 show_cmd extra_args
      = ([], Raise e).
Proof.
  intros Hg. split; [reflexivity|].
  unfold Diff.diff_specs.
  pose proof (silent_libs_for_spec spec1) as S1.
  destruct (libs_for_spec spec1) as [l1 [ls1|e1]]; unfold log_of in S1; simpl in S1; subst l1;
    [|eexists; reflexivity].
  pose proof (silent_libs_for_spec spec2) as S2.
  destruct (libs_for_spec spec2) as [l2 [ls2|e2]]; unfold log_of in S2; simpl in S2; subst l2;
    [|eexists; reflexivity].
  cbn [bind app].
  destruct (given header1) eqn:G1.
  - destruct (@suppression_for_header_raises w spec1 ls1 header1 suppr1 G1) as (e & ->).
    eexists. reflexivity.
  - simpl in Hg.
    pose proof (silent_suppression_for w spec1 ls1 header1 suppr1) as S3.
    destruct (Diff.suppression_for w spec1 ls1 header1 suppr1) as [l3 [t1|e3]];
      unfold log_of in S3; simpl in S3; subst l3; [|eexists; reflexivity].
    destruct (@suppression_for_header_raises w spec2 ls2 header2 suppr2 Hg) as (e & ->).
    eexists. reflexivity.
Qed.

(** With the header of the first spec named, the comparison of two
    installed specs ends with the generator's error. *)
Lemma header_option_aborts_comparison_witness :
  given (Some "widget.h") || given None = true
  /\ exists e,
      Diff.diff_specs world_ok spec_with_header spec_b (Some "widget.h") None None None
                      false []
      = ([], Raise e).
Proof.
  split; [reflexivity|].
  exact (proj2 (@header_option_aborts_comparison world_ok spec_with_header spec_b
                  (Some "widget.h") None None None false [] eq_refl)).
Defined.




Lemma cross_product_self_length {T} (lst : list T) :
  List.length (cross_product_self lst) = List.length lst * (List.length lst - 1).
Proof.
  assert (Hrel : Forall2 (at_indices lst) (index_pairs (seq 0 (List.length lst)))
                         (cross_product_self lst)).
  { unfold cross_product_self, cross_enumerated, index_pairs.
    rewrite <- enumerate_indices.
    eapply Forall2_impl; [|apply cross_at_indices, incl_refl].
    intros [i j] [a b] [Ha Hb]. simpl in *.
    split; simpl; now apply in_enumerate. }
  rewrite <- (Forall2_length Hrel). apply index_pairs_length.
Qed.

Lemma compare_pair_raises w output_format outfile cmp :
  exists log e, DiffProductCmd.compare_pair w output_format outfile cmp = (log, Raise e).
Proof.
  destruct cmp as [[u1 c1] [u2 c2]]. unfold DiffProductCmd.compare_pair.
  destruct (Diff.diff_specs w c1 c2 None None None None false [])
    as [l [[]|e]] eqn:E; simpl; eauto.
Qed.

(** X23. The cross-product sweep returns exactly when the environment has
    fewer than two specs and the output file, when one is named, can be
    opened; it then launches nothing and prints nothing, and only opens
    the named output file for writing (which creates or empties it) and
    closes it.  When the output file cannot be opened, the sweep ends with
    that error before any pair is handled.  With two or more specs and the
    output file opened or absent, it ends with an error during the first
    pair, whatever the tools do and whatever the output format. *)
Theorem sweep_returns_iff_fewer_than_two_specs (w : World) (output_format : string)
    (output_file : option string) (specs : list (Spec * Spec)) :
  ((exists log, DiffProductCmd.cmd w output_format output_file specs = (log, Ok tt))
   <-> List.length specs < 2 /\ output_opens w output_file = true)
  /\ (List.length specs < 2 -> output_opens w output_file = true ->
      DiffProductCmd.cmd w output_format output_file specs
      = (match nonempty_opt output_file with
         | Some f => [EvOpen f; EvClose f]
         | None => []
         end, Ok tt))
  /\ (forall f e0, nonempty_opt output_file = Some f -> open_write w f = Raise e0 ->
      DiffProductCmd.cmd w output_format output_file specs = ([], Raise e0))
  /\ (2 <= List.length specs -> output_opens w output_file = true ->
      exists p rest log e,
        cross_product_self specs = p :: rest
        /\ DiffProductCmd.compare_pair w output_format (nonempty_opt output_file) p
           = (log, Raise e)
        /\ DiffProductCmd.cmd w output_format output_file specs
           = (opened output_file ++ log, Raise e)).
Proof.
  assert (Hsmall : List.length specs < 2 -> output_opens w output_file = true ->
      DiffProductCmd.cmd w output_format output_file specs
      = (match nonempty_opt output_file with
         | Some f => [EvOpen f; EvClose f]
         | None => []
         end, Ok tt)).
  { intros Hlt Hopen. unfold DiffProductCmd.cmd, output_opens in *. cbv zeta.
    pose proof (cross_product_self_length specs) as Hlen.
    destruct (cross_product_self specs) as [|p rest]; [|simpl in Hlen; nia].
    destruct (nonempty_opt output_file) as [f|]; [|reflexivity].
    destruct (open_write w f) as [[]|e0]; [reflexivity | discriminate Hopen]. }
  assert (Hfail : forall f e0, nonempty_opt output_file = Some f ->
                               open_write w f = Raise e0 ->
      DiffProductCmd.cmd w output_format output_file specs = ([], Raise e0)).
  { intros f e0 Hf He0. unfold DiffProductCmd.cmd. cbv zeta. rewrite Hf, He0.
    reflexivity. }
  assert (Hbig : 2 <= List.length specs -> output_opens w output_file = true ->
      exists p rest log e,
        cross_product_self specs = p :: rest
        /\ DiffProductCmd.compare_pair w output_format (nonempty_opt output_file) p
           = (log, Raise e)
        /\ DiffProductCmd.cmd w output_format output_file specs
           = (opened output_file ++ log, Raise e)).
  { intros Hge Hopen. unfold DiffProductCmd.cmd, output_opens, opened in *. cbv zeta.
    pose proof (cross_product_self_length specs) as Hlen.
    destruct (cross_product_self specs) as [|p rest]; [simpl in Hlen; nia|].
    destruct (compare_pair_raises w output_format (nonempty_opt output_file) p)
      as (log & e & Hp).
    exists p, rest, log, e. split; [reflexivity|]. split; [exact Hp|].
    pose proof (@for_each_raise _ p rest _ _ _ Hp) as Hloop.
    destruct (nonempty_opt output_file) as [f|].
    - destruct (open_write w f) as [[]|e0]; [|discriminate Hopen].
      cbn [lift bind emit ret app]. rewrite Hloop. reflexivity.
    - cbn [bind ret app]. rewrite Hloop. reflexivity. }
  split; [|split; [exact Hsmall | split; [exact Hfail | exact Hbig]]].
  split.
  - intros (log & Hok).
    assert (Hopen : output_opens w output_file = true).
    { unfold output_opens. destruct (nonempty_opt output_file) as [f|] eqn:Hf; [|reflexivity].
      destruct (open_write w f) as [[]|e0] eqn:He0; [reflexivity|].
      rewrite (Hfail f e0 eq_refl He0) in Hok. discriminate Hok. }
    split; [|exact Hopen].
    destruct (Nat.lt_ge_cases (List.length specs) 2) as [Hlt|Hge]; [exact Hlt|].
    destruct (Hbig Hge Hopen) as (p & rest & l & e & _ & _ & Hr).
    rewrite Hr in Hok. discriminate Hok.
  - intros (Hlt & Hopen). eexists. apply (Hsmall Hlt Hopen).
Qed.

(* ------------------------------------------------------------------ *)
(** ** abi/common.py, abi/libs.py and the entry of abi/diff.py *)
(* ------------------------------------------------------------------ *)

Lemma split_on_length (c : ascii) (s : string) :
  List.length (PyStr.split_on c s) = S (count_occ ascii_dec (list_ascii_of_string s) c).
Proof.
  induction s as [|a s IH]; [reflexivity|].
  cbn [PyStr.split_on list_ascii_of_string count_occ].
  destruct (Ascii.eqb_spec a c) as [->|Hne].
  - destruct (ascii_dec c c); [|congruence]. simpl. now rewrite IH.
  - destruct (ascii_dec a c); [congruence|].
    destruct (PyStr.split_on c s); simpl in *; [discriminate | exact IH].
Qed.

Lemma join_split_on (c : ascii) (s : string) :
  PyStr.join (String c EmptyString) (PyStr.split_on c s) = s.
Proof.
  unfold PyStr.join. induction s as [|a s IH]; [reflexivity|].
  cbn [PyStr.split_on].
  destruct (Ascii.eqb_spec a c) as [->|Hne].
  - pose proof (split_on_length c s) as Hl.
    destruct (PyStr.split_on c s) as [|x xs]; [discriminate|].
    change (String c (String.concat (String c EmptyString) (x :: xs)) = String c s).
    now rewrite IH.
  - pose proof (split_on_length c s) as Hl.
    destruct (PyStr.split_on c s) as [|x xs]; [discriminate|].
    destruct xs as [|y ys]; simpl in *; now rewrite <- IH.
Qed.

(** X24. [regex_for_filename] returns exactly for a file name with one
    dot: the name is then [name.ext], and the result is [name], two
    backslashes, a dot and [ext]; a name without a dot, or with two or
    more (a versioned library such as [libz.so.1]), raises [ValueError]. *)
Theorem regex_for_filename_needs_one_dot (w : World) (file : Path) :
  ((exists log r, regex_for_filename w file = (log, Ok r))
   <-> dots (path_name w file) = 1)
  /\ (forall log r, regex_for_filename w file = (log, Ok r) ->
      exists name ext,
        path_name w file = name +++ "." +++ ext
        /\ r = name +++ "\\." +++ ext
        /\ dots name = 0 /\ dots ext = 0)
  /\ (dots (path_name w file) <> 1 ->
      exists msg, regex_for_filename w file = ([], Raise (ValueError msg))).
Proof.
  unfold regex_for_filename, dots.
  pose proof (split_on_length "." (path_name w file)) as Hlen.
  pose proof (join_split_on "." (path_name w file)) as Hjoin.
  destruct (PyStr.split_on "." (path_name w file)) as [|name [|ext [|x xs]]];
    simpl in Hlen; try discriminate.
  - split; [|split].
    + split; [intros (log & r & H); discriminate H | intros H; lia].
    + intros log r H; discriminate H.
    + intros _. eexists; reflexivity.
  - assert (Hone : count_occ ascii_dec (list_ascii_of_string (path_name w file)) "."%char = 1)
      by lia.
    split; [|split].
    + split; [intros _; exact Hone | intros _; do 2 eexists; reflexivity].
    + intros log r H. inversion H; subst. exists name, ext.
      unfold PyStr.join in Hjoin. simpl in Hjoin.
      split; [now rewrite <- Hjoin|]. split; [reflexivity|].
      rewrite <- Hjoin in Hone.
      assert (Happ : forall a b, list_ascii_of_string (a +++ b)
                                 = list_ascii_of_string a ++ list_ascii_of_string b).
      { intros a b. induction a as [|ch a IHa]; simpl; [reflexivity | now rewrite IHa]. }
      rewrite Happ, count_occ_app in Hone.
      cbn [list_ascii_of_string] in Hone.
      rewrite count_occ_cons_eq in Hone by reflexivity. lia.
    + intros Hne. congruence.
  - split; [|split].
    + split; [intros (log & r & H); discriminate H | intros H; lia].
    + intros log r H; discriminate H.
    + intros _. eexists; reflexivity.
Qed.

(** X25. [LibsCmd.cmd] looks both lists up before it prints: for a spec
    that is not installed, or whose headers or libraries cannot be listed,
    it raises and prints nothing; otherwise it prints the header title,
    every header indented by two spaces, a line of twenty stars, the
    library title and every library indented by two spaces, in the order
    of the lists. *)
Theorem libs_report_all_or_nothing (spec : Spec) :
  (forall log e, LibsCmd.cmd spec = (log, Raise e) -> log = [])
  /\ (installed spec = false -> exists e, LibsCmd.cmd spec = ([], Raise e))
  /\ (forall hs ls, installed spec = true -> headers spec = Ok hs -> libs spec = Ok ls ->
        LibsCmd.cmd spec = (map EvPrint (libs_report spec hs ls), Ok tt))
  /\ ((exists log, LibsCmd.cmd spec = (log, Ok tt))
      <-> installed spec = true
          /\ (exists hs, headers spec = Ok hs) /\ (exists ls, libs spec = Ok ls)).
Proof.
  assert (Hok : forall hs ls, installed spec = true -> headers spec = Ok hs ->
                              libs spec = Ok ls ->
                LibsCmd.cmd spec = (map EvPrint (libs_report spec hs ls), Ok tt)).
  { intros hs ls Hi Hh Hl.
    unfold LibsCmd.cmd, headers_for_spec, libs_for_spec, _spec_to_build_interface.
    rewrite Hi. cbn [negb bind ret lift app]. rewrite Hh, Hl. cbn [bind app]. cbv zeta.
    rewrite (for_each_print (fun h => "  " +++ h)), (for_each_print (fun l => "  " +++ l)).
    unfold libs_report. cbn [bind print emit app map].
    rewrite map_app. cbn [map]. rewrite !map_map. reflexivity. }
  assert (Hcases : (exists e, LibsCmd.cmd spec = ([], Raise e))
                   \/ (installed spec = true /\ (exists hs, headers spec = Ok hs)
                       /\ (exists ls, libs spec = Ok ls))).
  { unfold LibsCmd.cmd, headers_for_spec, libs_for_spec, _spec_to_build_interface.
    clear Hok.
    destruct (installed spec); cbn [negb bind ret raise lift app];
      [|left; eexists; reflexivity].
    destruct (headers spec) as [hs|e]; cbn [bind app]; [|left; eexists; reflexivity].
    destruct (libs spec) as [ls|e]; cbn [bind app]; [|left; eexists; reflexivity].
    right. eauto. }
  split; [|split; [|split; [exact Hok|]]].
  - intros log e H. destruct Hcases as [(e' & He)|(Hi & (hs & Hh) & (ls & Hl))].
    + rewrite He in H. now inversion H.
    + rewrite (Hok hs ls Hi Hh Hl) in H. discriminate H.
  - intros Hi. destruct Hcases as [He|(Hi' & _)]; [exact He | congruence].
  - split.
    + intros (log & H). destruct Hcases as [(e' & He)|Hall]; [|exact Hall].
      rewrite He in H. discriminate H.
    + intros (Hi & (hs & Hh) & (ls & Hl)). eexists. apply (Hok hs ls Hi Hh Hl).
Qed.



